(** * MediaPipe: JNI graph wrapper, calculator contract and two calculators

    A shallow embedding of

    - [mediapipe/java/com/google/mediapipe/framework/jni/graph.cc] and
      [graph_jni.cc] (the [android::Graph] object behind the Java [Graph]),
    - [mediapipe/framework/calculator_contract.h],
    - [mediapipe/calculators/tflite/tflite_tensors_to_segmentation_calculator.cc],
    - [mediapipe/calculators/image/color_convert_calculator.cc],

    together with the properties of these files that the design document
    states.  C++ objects are records, member functions take the object and
    return the new one, [std::map] is a [gmap], [::mediapipe::Status] is a
    record of a code and a message. *)

From Equations Require Import Equations.
From stdpp Require Import gmap strings list fin_maps.
From Stdlib Require Import ZArith Lia Sorted.

Local Open Scope string_scope.
Local Open Scope Z_scope.

(* ===================================================================== *)
(** ** ::mediapipe::Status *)
(* ===================================================================== *)

Inductive StatusCode : Type :=
| kOk | kCancelled | kUnknown | kInvalidArgument | kDeadlineExceeded
| kNotFound | kAlreadyExists | kPermissionDenied | kResourceExhausted
| kFailedPrecondition | kAborted | kOutOfRange | kUnimplemented
| kInternal | kUnavailable | kDataLoss | kUnauthenticated.

Record Status : Type := MkStatus { code : StatusCode; message : string }.

Definition ok (s : Status) : bool :=
  match code s with kOk => true | _ => false end.

Definition OkStatus : Status := MkStatus kOk "".
Definition InternalError (msg : string) : Status := MkStatus kInternal msg.
Definition InvalidArgumentError (msg : string) : Status :=
  MkStatus kInvalidArgument msg.
Definition FailedPreconditionError (msg : string) : Status :=
  MkStatus kFailedPrecondition msg.
Definition UnimplementedError (msg : string) : Status :=
  MkStatus kUnimplemented msg.
Definition AlreadyExistsError (msg : string) : Status :=
  MkStatus kAlreadyExists msg.

(** [RETURN_IF_ERROR(expr)]: leave the enclosing function with the status of
    [expr] when it is not ok, go on with the rest of the body otherwise.  The
    object the expression worked on is threaded through. *)
Definition RETURN_IF_ERROR {S : Type}
    (r : Status * S) (rest : S -> Status * S) : Status * S :=
  if ok r.1 then rest r.2 else r.

Notation "'RETURN_IF_ERROR!' x ← r ; k" :=
  (RETURN_IF_ERROR r (fun x => k))
  (at level 20, x name, r at level 100, k at level 200, only parsing).

(* ===================================================================== *)
(** ** Signed [int] arithmetic *)
(* ===================================================================== *)

Module CInt.

Definition INT_MAX : Z := 2147483647.
Definition INT_MIN : Z := -2147483648.

Definition representable (z : Z) : bool :=
  (INT_MIN <=? z) && (z <=? INT_MAX).

(** An [int] expression whose exact value is not representable is
    undefined: [None]. *)
Definition add (a b : Z) : option Z :=
  if representable (a + b) then Some (a + b) else None.

Definition sub (a b : Z) : option Z :=
  if representable (a - b) then Some (a - b) else None.

(** [/] truncates towards zero; dividing by zero is undefined. *)
Definition div (a b : Z) : option Z :=
  if b =? 0 then None
  else if representable (a ÷ b) then Some (a ÷ b) else None.

End CInt.

(* ===================================================================== *)
(** ** tflite_tensors_to_segmentation_calculator.cc *)
(* ===================================================================== *)

Module TfLiteSegmentation.

Definition kWorkgroupSize : Z := 8.

(** [int RoundUp(const int size, const int multiple)
      { return (size + multiple - 1) / multiple; }] *)
Definition RoundUp (size multiple : Z) : option Z :=
  s ← CInt.add size multiple;
  t ← CInt.sub s 1;
  CInt.div t multiple.

(** The proto2 message [TfLiteTensorsToSegmentationCalculatorOptions]: an
    optional field is absent ([None]) or set; [has_x] tests presence and
    the getter returns the field or the default of its type. *)
Record TfLiteTensorsToSegmentationCalculatorOptions : Type := MkOptions {
  opt_tensor_width : option Z;
  opt_tensor_height : option Z;
  opt_tensor_channels : option Z;
  opt_output_layer_index : option Z
}.

Definition has_tensor_width o := bool_decide (is_Some (opt_tensor_width o)).
Definition has_tensor_height o := bool_decide (is_Some (opt_tensor_height o)).
Definition has_tensor_channels o :=
  bool_decide (is_Some (opt_tensor_channels o)).
Definition tensor_width o : Z := default 0 (opt_tensor_width o).
Definition tensor_height o : Z := default 0 (opt_tensor_height o).
Definition tensor_channels o : Z := default 0 (opt_tensor_channels o).

(** What [Open] sees of its [CalculatorContext]: the tags of the input
    streams, the node options, and the packets added to the output
    streams so far (tag, timestamp). *)
Record CalculatorContext : Type := MkContext {
  cc_InputTags : gset string;
  cc_Options : TfLiteTensorsToSegmentationCalculatorOptions;
  cc_Emitted : list (string * Z)
}.

Definition InputsHasTag (cc : CalculatorContext) (tag : string) : bool :=
  bool_decide (tag ∈ cc_InputTags cc).

(** The data members of the calculator. *)
Record Calculator : Type := MkCalculator {
  options_ : TfLiteTensorsToSegmentationCalculatorOptions;
  tensor_width_ : Z;
  tensor_height_ : Z;
  tensor_channels_ : Z;
  use_gpu_ : bool
}.

Definition initial_Calculator : Calculator :=
  MkCalculator (MkOptions None None None None) 0 0 0 false.

(** The options [LoadOptions] refuses. *)
Definition bad_options (o : TfLiteTensorsToSegmentationCalculatorOptions)
    : Prop :=
  opt_tensor_width o = None \/ opt_tensor_height o = None
  \/ opt_tensor_channels o = None \/ tensor_channels o <> 2.

Section Calculator.

(** Compiled with [__ANDROID__] defined or not. *)
Variable ANDROID : bool.

(** The status built by [RET_CHECK_FAIL()], [RET_CHECK_EQ] and
    [RET_CHECK] of [port/ret_check.h] when the check fails; the macros
    leave the enclosing function with it. *)
Variable RetCheckFailSlowPath : string -> Status.

(** The outcome of [gpu_helper_.Open(cc)] and of running [InitGpu]
    inside the GL context; neither adds a packet to an output stream. *)
Variable gpu_helper_Open : CalculatorContext -> Status.
Variable RunInGlContext_InitGpu : CalculatorContext -> Calculator -> Status.

Definition LoadOptions (cc : CalculatorContext) (this : Calculator)
    : Status * Calculator :=
  let this :=
    MkCalculator (cc_Options cc) (tensor_width_ this)
      (tensor_height_ this) (tensor_channels_ this) (use_gpu_ this) in
  if negb (has_tensor_width (options_ this))
     || negb (has_tensor_height (options_ this))
     || negb (has_tensor_channels (options_ this))
  then (RetCheckFailSlowPath "Missing tensor dimensions in options.", this)
  else
    let this :=
      MkCalculator (options_ this) (tensor_width (options_ this))
        (tensor_height (options_ this)) (tensor_channels (options_ this))
        (use_gpu_ this) in
    if negb (tensor_channels_ this =? 2)
    then (RetCheckFailSlowPath
            "Only 2 channel segmentation tensor currently supported", this)
    else (OkStatus, this).

Definition Open (cc : CalculatorContext) (this : Calculator)
    : Status * Calculator * CalculatorContext :=
  let body :=
    RETURN_IF_ERROR! this ←
      (if InputsHasTag cc "TENSORS_GPU"
       then
         let this :=
           MkCalculator (options_ this) (tensor_width_ this)
             (tensor_height_ this) (tensor_channels_ this) true in
         if ANDROID then (gpu_helper_Open cc, this) else (OkStatus, this)
       else (OkStatus, this));
    RETURN_IF_ERROR! this ← LoadOptions cc this;
    RETURN_IF_ERROR! this ←
      (if use_gpu_ this
       then
         if ANDROID then (RunInGlContext_InitGpu cc this, this)
         else (RetCheckFailSlowPath
                 "GPU processing on non-Android devices is not supported yet.",
               this)
       else (OkStatus, this));
    (OkStatus, this) in
  (body, cc).

(** The outcome of running [ProcessGpu] inside the GL context: its
    status, and the context with the mask it may have added to
    [MASK_GPU]. *)
Variable RunInGlContext_ProcessGpu :
  CalculatorContext -> Calculator -> Status * CalculatorContext.

Definition ProcessCpu (cc : CalculatorContext) : Status :=
  UnimplementedError "CPU support is not implemented yet.".

(** [Process]: with [use_gpu_] the GPU path, compiled in on Android only;
    the CPU path otherwise. *)
Definition Process (cc : CalculatorContext) (this : Calculator)
    : Status * CalculatorContext :=
  RETURN_IF_ERROR! cc ←
    (if use_gpu_ this
     then
       if ANDROID then RunInGlContext_ProcessGpu cc this
       else (OkStatus, cc)
     else (ProcessCpu cc, cc));
  (OkStatus, cc).

End Calculator.

End TfLiteSegmentation.

(* ===================================================================== *)
(** ** [for] loops over an [int] counter *)
(* ===================================================================== *)

(** [for (int i = start; i < limit; i += step) body(i)] on a state of type
    [A].  The body may be undefined ([None]: a read or write outside a
    buffer); a loop that is entered with [step <= 0] never leaves and is
    [None] too.  Counters are exact integers. *)
Equations? for_loop {A : Type} (step limit : Z) (body : Z -> A -> option A)
    (i : Z) (acc : A) : option A by wf (Z.to_nat (limit - i)) lt :=
  for_loop step limit body i acc with decide (i < limit), decide (0 < step) => {
    | right _, _ := Some acc;
    | left _, right _ := None;
    | left _, left _ with body i acc => {
        | None := None;
        | Some acc' := for_loop step limit body (i + step) acc' } }.
Proof. lia. Qed.

(* ===================================================================== *)
(** ** color_convert_calculator.cc *)
(* ===================================================================== *)

Module ColorConvert.

(** The three [ImageFormat::Format] values the calculator uses. *)
Inductive ImageFormat : Type := SRGB | SRGBA | GRAY8.

Definition NumberOfChannels (f : ImageFormat) : Z :=
  match f with SRGB => 3 | SRGBA => 4 | GRAY8 => 1 end.

(** An [ImageFrame]: format, size, and the pixel buffer as its rows; row
    [r] holds the bytes from the start of row [r], at least
    [width * channels] of them (rows may be padded). *)
Record ImageFrame : Type := MkImageFrame {
  Format : ImageFormat;
  Width : Z;
  Height : Z;
  PixelData : list (list Z)
}.

Inductive MatDepth : Type := CV_8U | CV_16U | CV_32F.

#[global] Instance MatDepth_eq_dec : EqDecision MatDepth.
Proof. solve_decision. Defined.

(** A [cv::Mat] header; [data !! r] is what [ptr<uint8>(r)] points to. *)
Record Mat : Type := MkMat {
  rows : Z;
  cols : Z;
  channels : Z;
  depth : MatDepth;
  data : list (list Z)
}.

(** [formats::MatView]: a [cv::Mat] over the frame's own buffer. *)
Definition MatView (f : ImageFrame) : Mat :=
  MkMat (Height f) (Width f) (NumberOfChannels (Format f)) CV_8U
    (PixelData f).

Inductive ColorConversionCode : Type :=
| COLOR_RGBA2RGB | COLOR_GRAY2RGB | COLOR_RGB2GRAY | COLOR_RGB2RGBA.

#[global] Instance ColorConversionCode_eq_dec :
  EqDecision ColorConversionCode.
Proof. solve_decision. Defined.

Definition kRgbaInTag : string := "RGBA_IN".
Definition kRgbInTag : string := "RGB_IN".
Definition kGrayInTag : string := "GRAY_IN".
Definition kRgbaOutTag : string := "RGBA_OUT".
Definition kRgbOutTag : string := "RGB_OUT".
Definition kGrayOutTag : string := "GRAY_OUT".

(** [row_ptr[offset] = value]; outside the row it is undefined. *)
Definition store (value : Z) (offset : Z) (row_ptr : list Z)
    : option (list Z) :=
  if decide (0 <= offset < Z.of_nat (length row_ptr))
  then Some (<[Z.to_nat offset := value]> row_ptr)
  else None.

(** The body of the loop over the rows in [SetColorChannel]: the loop
    over the offsets of one row, [limit] being [mat->cols * step]. *)
Definition SetColorChannel_row (channel value step limit : Z)
    (r : Z) (d : list (list Z)) : option (list (list Z)) :=
  row_ptr ← d !! Z.to_nat r;
  row' ← for_loop step limit (store value) channel row_ptr;
  Some (<[Z.to_nat r := row']> d).

(** [SetColorChannel]; a failed [CHECK] aborts the process ([None]). *)
Definition SetColorChannel (channel : Z) (value : Z) (mat : Mat)
    : option Mat :=
  if negb (bool_decide (depth mat = CV_8U)) then None
  else if negb (channel <? channels mat) then None
  else
    let step := channels mat in
    d ← for_loop 1 (rows mat)
          (SetColorChannel_row channel value step (cols mat * step))
          0 (data mat);
    Some (MkMat (rows mat) (cols mat) (channels mat) (depth mat) d).

(** Every pixel of the first [width] of a row has [value] in [channel],
    the pixels being [step] bytes apart. *)
Definition channel_is (channel value step width : Z) (row : list Z)
    : Prop :=
  forall c : Z, 0 <= c < width ->
    row !! Z.to_nat (c * step + channel) = Some value.

(** Alpha is channel 3 of the four of an SRGBA frame. *)
Definition alpha_is (value : Z) (f : ImageFrame) : Prop :=
  forall r : Z, 0 <= r < Height f ->
    exists row,
      PixelData f !! Z.to_nat r = Some row
      /\ channel_is 3 value 4 (Width f) row.

(** A packet on an output stream: the frame it owns and its timestamp. *)
Record OutputPacket : Type := MkOutputPacket {
  out_frame : ImageFrame;
  out_timestamp : Z
}.

(** The [CalculatorContext] of one [Process] call: the packet on each
    input stream ([None]: the stream has no packet at this timestamp), the
    packets added to each output stream, and the input timestamp. *)
Record CalculatorContext : Type := MkContext {
  cc_Inputs : gmap string (option ImageFrame);
  cc_Outputs : gmap string (list OutputPacket);
  cc_InputTimestamp : Z
}.

Definition InputsHasTag (cc : CalculatorContext) (tag : string) : bool :=
  bool_decide (is_Some (cc_Inputs cc !! tag)).
Definition OutputsHasTag (cc : CalculatorContext) (tag : string) : bool :=
  bool_decide (is_Some (cc_Outputs cc !! tag)).

(** [cc->Inputs().Tag(tag).Get<ImageFrame>()]: fatal on a missing tag or
    an empty packet. *)
Definition InputsTagGet (cc : CalculatorContext) (tag : string)
    : option ImageFrame :=
  mjoin (cc_Inputs cc !! tag).

(** [cc->Outputs().Tag(tag).Add(frame, timestamp)]. *)
Definition OutputsTagAdd (cc : CalculatorContext) (tag : string)
    (frame : ImageFrame) (timestamp : Z) : option CalculatorContext :=
  stream ← cc_Outputs cc !! tag;
  Some (MkContext (cc_Inputs cc)
          (<[tag := (stream ++ [MkOutputPacket frame timestamp])%list]>
             (cc_Outputs cc))
          (cc_InputTimestamp cc)).

(** [GetContract]'s two [RET_CHECK_EQ]s: one input and one output. *)
Definition GetContract_accepts (cc : CalculatorContext) : bool :=
  bool_decide (size (cc_Inputs cc) = 1%nat)
  && bool_decide (size (cc_Outputs cc) = 1%nat).

Section Calculator.

(** The pixel buffer of [new ImageFrame(format, width, height)]. *)
Variable new_ImageFrame_buffer : ImageFormat -> Z -> Z -> list (list Z).

(** The buffer of [dst] after [cv::cvtColor(src, dst, code)]. *)
Variable cvtColor : Mat -> Mat -> ColorConversionCode -> list (list Z).

Definition new_ImageFrame (format : ImageFormat) (width height : Z)
    : ImageFrame :=
  MkImageFrame format width height
    (new_ImageFrame_buffer format width height).

Definition ConvertAndOutput (input_tag output_tag : string)
    (output_format : ImageFormat)
    (open_cv_convert_code : ColorConversionCode)
    (cc : CalculatorContext) : option (Status * CalculatorContext) :=
  input_frame ← InputsTagGet cc input_tag;
  let input_mat := MatView input_frame in
  let output_frame :=
    new_ImageFrame output_format (cols input_mat) (rows input_mat) in
  let output_mat := MatView output_frame in
  let output_mat :=
    MkMat (rows output_mat) (cols output_mat) (channels output_mat)
      (depth output_mat)
      (cvtColor input_mat output_mat open_cv_convert_code) in
  output_mat ←
    (if bool_decide (open_cv_convert_code = COLOR_RGB2RGBA)
     then SetColorChannel 3 255 output_mat
     else Some output_mat);
  (* the Mat is a view: its buffer is the frame's *)
  let output_frame :=
    MkImageFrame (Format output_frame) (Width output_frame)
      (Height output_frame) (data output_mat) in
  cc ← OutputsTagAdd cc output_tag output_frame (cc_InputTimestamp cc);
  Some (OkStatus, cc).

Definition Process (cc : CalculatorContext)
    : option (Status * CalculatorContext) :=
  if InputsHasTag cc kRgbaInTag && OutputsHasTag cc kRgbOutTag
  then ConvertAndOutput kRgbaInTag kRgbOutTag SRGB COLOR_RGBA2RGB cc
  else if InputsHasTag cc kGrayInTag && OutputsHasTag cc kRgbOutTag
  then ConvertAndOutput kGrayInTag kRgbOutTag SRGB COLOR_GRAY2RGB cc
  else if InputsHasTag cc kRgbInTag && OutputsHasTag cc kGrayOutTag
  then ConvertAndOutput kRgbInTag kGrayOutTag GRAY8 COLOR_RGB2GRAY cc
  else if InputsHasTag cc kRgbInTag && OutputsHasTag cc kRgbaOutTag
  then ConvertAndOutput kRgbInTag kRgbaOutTag SRGBA COLOR_RGB2RGBA cc
  else Some (InvalidArgumentError "Unsupported image format conversion.",
             cc).

End Calculator.

(** The pairs of an input tag and an output tag that [Process] converts. *)
Definition supported_conversions : list (string * string) :=
  [(kRgbaInTag, kRgbOutTag); (kGrayInTag, kRgbOutTag);
   (kRgbInTag, kGrayOutTag); (kRgbInTag, kRgbaOutTag)].

(** [row'] is [row] but for [channel] of the first [width] pixels. *)
Definition only_channel_differs (channel step width : Z)
    (row row' : list Z) : Prop :=
  length row' = length row
  /\ forall j : nat,
       (forall c : Z, 0 <= c < width -> Z.of_nat j <> c * step + channel) ->
       row' !! j = row !! j.

End ColorConvert.

(* ===================================================================== *)
(** ** calculator_contract.h *)
(* ===================================================================== *)

Module Contract.

(** The two members behind the input-stream-handler accessors; the
    handler options are kept in serialised form. *)
Record CalculatorContract : Type := MkContract {
  input_stream_handler_ : string;
  input_stream_handler_options_ : string
}.

(** A default-constructed contract: both members empty. *)
Definition new_CalculatorContract : CalculatorContract := MkContract "" "".

Definition SetInputStreamHandler (name : string) (c : CalculatorContract)
    : CalculatorContract :=
  MkContract name (input_stream_handler_options_ c).

Definition SetInputStreamHandlerOptions (options : string)
    (c : CalculatorContract) : CalculatorContract :=
  MkContract (input_stream_handler_ c) options.

Definition GetInputStreamHandler (c : CalculatorContract) : string :=
  input_stream_handler_ c.

Definition GetInputStreamHandlerOptions (c : CalculatorContract) : string :=
  input_stream_handler_options_ c.

(** What a calculator's [GetContract] may do with the accessors. *)
Inductive ContractCall : Type :=
| CallSetInputStreamHandler (name : string)
| CallSetInputStreamHandlerOptions (options : string).

Definition run_call (c : CalculatorContract) (call : ContractCall)
    : CalculatorContract :=
  match call with
  | CallSetInputStreamHandler name => SetInputStreamHandler name c
  | CallSetInputStreamHandlerOptions o => SetInputStreamHandlerOptions o c
  end.

Definition run_calls (calls : list ContractCall) (c : CalculatorContract)
    : CalculatorContract :=
  foldl run_call c calls.

(** The handler names a sequence of calls sets, oldest first. *)
Definition handler_names (calls : list ContractCall) : list string :=
  omap (fun call =>
          match call with
          | CallSetInputStreamHandler name => Some name
          | CallSetInputStreamHandlerOptions _ => None
          end) calls.

(** Modelled from the spec: the engine default, the handler that
    synchronises by timestamp. *)
Definition kEngineDefaultHandler : string := "DefaultInputStreamHandler".

(** Modelled from the spec: the choice of a node's input-stream handler
    is made by the framework's node initialisation, which is not among
    the sources; the header only documents it ("the graph's
    InputStreamHandler will take priority").  The design document gives
    the rule: "The override precedence is: graph-level override > node
    default > engine default."  [graph_level] is the handler named for
    the node in the graph configuration, if any; the node default is the
    one its contract carries, the empty string meaning none. *)
Definition resolve_input_stream_handler (graph_level : option string)
    (c : CalculatorContract) : string :=
  match graph_level with
  | Some handler => handler
  | None =>
      if bool_decide (GetInputStreamHandler c = "")
      then kEngineDefaultHandler
      else GetInputStreamHandler c
  end.

(** The handler options a sequence of calls sets, oldest first. *)
Definition handler_options (calls : list ContractCall) : list string :=
  omap (fun call =>
          match call with
          | CallSetInputStreamHandler _ => None
          | CallSetInputStreamHandlerOptions options => Some options
          end) calls.

(** [GraphServiceRequest]: the service asked for, a [GraphServiceBase]
    identified by its [key], and whether the calculator can do without
    it. *)
Record GraphServiceRequest : Type := MkGraphServiceRequest {
  service_ : string;
  optional_ : bool
}.

(** [GraphServiceRequest(service)]: [optional_ = false]. *)
Definition new_GraphServiceRequest (service : string) : GraphServiceRequest :=
  MkGraphServiceRequest service false.

Definition Optional (r : GraphServiceRequest) : GraphServiceRequest :=
  MkGraphServiceRequest (service_ r) true.

Definition IsOptional (r : GraphServiceRequest) : bool := optional_ r.

Definition Service (r : GraphServiceRequest) : string := service_ r.

(** [UseService(service)] on the member [service_requests_], which is
    followed on its own here: [emplace] adds a request under
    [service.key] unless the key is taken, and the function returns a
    reference to the entry of the key. *)
Definition UseService (service : string)
    (service_requests_ : gmap string GraphServiceRequest)
    : gmap string GraphServiceRequest :=
  match service_requests_ !! service with
  | Some _ => service_requests_
  | None => <[service := new_GraphServiceRequest service]> service_requests_
  end.

(** [cc->UseService(service).Optional()]: [Optional] works on the entry
    that [UseService] returned. *)
Definition UseService_Optional (service : string)
    (service_requests_ : gmap string GraphServiceRequest)
    : gmap string GraphServiceRequest :=
  alter Optional service (UseService service service_requests_).

End Contract.

(* ===================================================================== *)
(** ** Packets, graph configurations and the calculator graph *)
(* ===================================================================== *)

(** A [Packet]: a reference to a shared immutable payload, and a
    timestamp. *)
Record Packet : Type := MkPacket { payload : Z; packet_timestamp : Z }.

(** [Packet::At]. *)
Definition At (p : Packet) (timestamp : Z) : Packet :=
  MkPacket (payload p) timestamp.

(** The parsed graph configuration, as far as its topology goes. *)
Record Node : Type := MkNode {
  node_name : string;
  node_calculator : string;
  node_input_stream : list string;
  node_output_stream : list string
}.

Record CalculatorGraphConfig : Type := MkConfig {
  cfg_node : list Node;
  cfg_input_stream : list string
}.

Definition empty_CalculatorGraphConfig : CalculatorGraphConfig :=
  MkConfig [] [].

Inductive GraphInputStreamAddMode : Type :=
| WAIT_TILL_NOT_FULL
| ADD_IF_NOT_FULL.

(** The member functions of [CalculatorGraph] that [android::Graph] calls
    and that take arguments or return a status. *)
Inductive Call : Type :=
| CallSetGraphInputStreamAddMode (mode : GraphInputStreamAddMode)
| CallSetGpuResources (resources : option Z)
| CallSetServicePacket (service : Z) (packet : Packet)
| CallInitialize (config : CalculatorGraphConfig)
| CallStartRun (side_packets : gmap string Packet)
    (stream_headers : gmap string Packet)
| CallAddPacketToInputStream (stream_name : string) (packet : Packet)
| CallCloseInputStream (stream_name : string)
| CallCloseAllInputStreams
| CallCloseAllPacketSources
| CallWaitUntilIdle
| CallWaitUntilDone.

(** Modelled from the spec: [CalculatorGraph] is defined in
    [framework/calculator_graph.cc], which is not among the sources.  A
    calculator graph is represented by what it has been asked to do: the
    calls received, oldest first, and the cancel flag of the design
    document ("[cancel()] sets a flag observed between invocations").  What
    a call answers is left to [respond] below. *)
Record CalculatorGraph : Type := MkCalculatorGraph {
  calls : list Call;
  cancelled : bool
}.

(** Modelled from the spec: [new CalculatorGraph()], a graph that has
    received no call and is not cancelled. *)
Definition new_CalculatorGraph : CalculatorGraph := MkCalculatorGraph [] false.

(** Modelled from the spec: [CalculatorGraph::Cancel] sets the cancel
    flag. *)
Definition Cancel (cg : CalculatorGraph) : CalculatorGraph :=
  MkCalculatorGraph (calls cg) true.

(** Modelled from the spec: a calculator graph after one more call. *)
Definition record_call (c : Call) (cg : CalculatorGraph) : CalculatorGraph :=
  MkCalculatorGraph (calls cg ++ [c])%list (cancelled cg).

(* ===================================================================== *)
(** ** Well-formedness of a graph configuration *)
(* ===================================================================== *)

Module Topology.

(** Modelled from the spec: the well-formedness conditions of section 3
    that are stated on the topology alone.  The framework checks them in
    its graph validation, which is not among the sources; each definition
    of this module follows the design document. *)

(** Modelled from the spec: every producer of a stream, the graph inputs
    and the node outputs. *)
Definition producers (cfg : CalculatorGraphConfig) : list string :=
  (cfg_input_stream cfg ++ flat_map node_output_stream (cfg_node cfg))%list.

(** Modelled from the spec: "Every input port is connected to at most one
    producer." *)
Definition duplicate_producer (cfg : CalculatorGraphConfig) : bool :=
  negb (bool_decide (NoDup (producers cfg))).

(** Modelled from the spec: an input stream of a node that nothing
    produces ("missing producer", "unbound port"). *)
Definition missing_producer (cfg : CalculatorGraphConfig) : bool :=
  existsb
    (fun n =>
       existsb (fun s => negb (bool_decide (s ∈ producers cfg)))
         (node_input_stream n))
    (cfg_node cfg).

(** Modelled from the spec: a node whose calculator is not registered. *)
Definition unknown_calculator (registry : list string)
    (cfg : CalculatorGraphConfig) : bool :=
  existsb (fun n => negb (bool_decide (node_calculator n ∈ registry)))
    (cfg_node cfg).

(** Modelled from the spec: an edge, [a] writes a stream that [b] reads. *)
Definition feeds (a b : Node) : bool :=
  existsb (fun s => bool_decide (s ∈ node_input_stream b))
    (node_output_stream a).

(** Modelled from the spec: a path from [a] to [b] of at most [fuel + 1]
    edges. *)
Fixpoint reaches (fuel : nat) (nodes : list Node) (a b : Node) : bool :=
  feeds a b
  || match fuel with
     | O => false
     | S fuel => existsb (fun c => feeds a c && reaches fuel nodes c b) nodes
     end.

(** Modelled from the spec: "No cycles [...] reject cyclic graphs." *)
Definition cyclic (cfg : CalculatorGraphConfig) : bool :=
  existsb (fun a => reaches (length (cfg_node cfg)) (cfg_node cfg) a a)
    (cfg_node cfg).

(** Modelled from the spec: the malformed configurations that [load] is
    to reject, type mismatches apart (they need the contracts of the
    registered calculators). *)
Definition malformed (registry : list string) (cfg : CalculatorGraphConfig)
    : bool :=
  cyclic cfg || missing_producer cfg || duplicate_producer cfg
  || unknown_calculator registry cfg.

End Topology.

(* ===================================================================== *)
(** ** jni/graph.cc and jni/graph_jni.cc *)
(* ===================================================================== *)

Module JniGraph.

(** [internal::PacketWithContext], the native counterpart of a Java
    Packet.  Its [context_] is the [Graph] that created it; the model
    follows one [Graph] object, which owns the wrappers in its
    [all_packets_] map. *)
Record PacketWithContext : Type := MkPacketWithContext {
  packet_ : Packet
}.

(** The data members of [android::Graph].  Pointers and JNI references
    are integers; [std::map] members are [gmap]s, except
    [service_packets_], kept as the list its iteration walks through. *)
Record Graph : Type := MkGraph {
  graph_ : CalculatorGraphConfig;
  graph_loaded_ : bool;
  executor_stack_size_increased_ : bool;
  global_java_packet_cls_ : option Z;
  all_packets_ : gmap Z PacketWithContext;
  callback_handlers_ : list Z;
  side_packets_callbacks_ : gmap string Packet;
  side_packets_ : gmap string Packet;
  output_surface_side_packets_ : gmap string Packet;
  stream_headers_ : gmap string Packet;
  service_packets_ : list (Z * Packet);
  gpu_resources_ : option Z;
  running_graph_ : option CalculatorGraph;
  graph_input_stream_add_mode_ : GraphInputStreamAddMode
}.

(** [Graph::Graph()]: the constructor sets [graph_loaded_],
    [executor_stack_size_increased_] and [global_java_packet_cls_]; the
    containers and smart pointers start empty.  The initial add mode is
    the member initialiser of [graph.h] and is left open here. *)
Definition new_Graph (initial_mode : GraphInputStreamAddMode) : Graph :=
  MkGraph empty_CalculatorGraphConfig false false None ∅ [] ∅ ∅ ∅ ∅ []
    None None initial_mode.

(** Assignments to single members. *)
Definition set_graph_ (v : CalculatorGraphConfig) (g : Graph) : Graph :=
  MkGraph v (graph_loaded_ g) (executor_stack_size_increased_ g)
    (global_java_packet_cls_ g) (all_packets_ g) (callback_handlers_ g)
    (side_packets_callbacks_ g) (side_packets_ g)
    (output_surface_side_packets_ g) (stream_headers_ g)
    (service_packets_ g) (gpu_resources_ g) (running_graph_ g)
    (graph_input_stream_add_mode_ g).

Definition set_graph_loaded_ (v : bool) (g : Graph) : Graph :=
  MkGraph (graph_ g) v (executor_stack_size_increased_ g)
    (global_java_packet_cls_ g) (all_packets_ g) (callback_handlers_ g)
    (side_packets_callbacks_ g) (side_packets_ g)
    (output_surface_side_packets_ g) (stream_headers_ g)
    (service_packets_ g) (gpu_resources_ g) (running_graph_ g)
    (graph_input_stream_add_mode_ g).

Definition set_global_java_packet_cls_ (v : option Z) (g : Graph) : Graph :=
  MkGraph (graph_ g) (graph_loaded_ g) (executor_stack_size_increased_ g)
    v (all_packets_ g) (callback_handlers_ g)
    (side_packets_callbacks_ g) (side_packets_ g)
    (output_surface_side_packets_ g) (stream_headers_ g)
    (service_packets_ g) (gpu_resources_ g) (running_graph_ g)
    (graph_input_stream_add_mode_ g).

Definition set_all_packets_ (v : gmap Z PacketWithContext) (g : Graph)
    : Graph :=
  MkGraph (graph_ g) (graph_loaded_ g) (executor_stack_size_increased_ g)
    (global_java_packet_cls_ g) v (callback_handlers_ g)
    (side_packets_callbacks_ g) (side_packets_ g)
    (output_surface_side_packets_ g) (stream_headers_ g)
    (service_packets_ g) (gpu_resources_ g) (running_graph_ g)
    (graph_input_stream_add_mode_ g).

Definition set_side_packets_ (v : gmap string Packet) (g : Graph) : Graph :=
  MkGraph (graph_ g) (graph_loaded_ g) (executor_stack_size_increased_ g)
    (global_java_packet_cls_ g) (all_packets_ g) (callback_handlers_ g)
    (side_packets_callbacks_ g) v
    (output_surface_side_packets_ g) (stream_headers_ g)
    (service_packets_ g) (gpu_resources_ g) (running_graph_ g)
    (graph_input_stream_add_mode_ g).

Definition set_stream_headers_ (v : gmap string Packet) (g : Graph)
    : Graph :=
  MkGraph (graph_ g) (graph_loaded_ g) (executor_stack_size_increased_ g)
    (global_java_packet_cls_ g) (all_packets_ g) (callback_handlers_ g)
    (side_packets_callbacks_ g) (side_packets_ g)
    (output_surface_side_packets_ g) v
    (service_packets_ g) (gpu_resources_ g) (running_graph_ g)
    (graph_input_stream_add_mode_ g).

Definition set_running_graph_ (v : option CalculatorGraph) (g : Graph)
    : Graph :=
  MkGraph (graph_ g) (graph_loaded_ g) (executor_stack_size_increased_ g)
    (global_java_packet_cls_ g) (all_packets_ g) (callback_handlers_ g)
    (side_packets_callbacks_ g) (side_packets_ g)
    (output_surface_side_packets_ g) (stream_headers_ g)
    (service_packets_ g) (gpu_resources_ g) v
    (graph_input_stream_add_mode_ g).

Definition set_graph_input_stream_add_mode_ (v : GraphInputStreamAddMode)
    (g : Graph) : Graph :=
  MkGraph (graph_ g) (graph_loaded_ g) (executor_stack_size_increased_ g)
    (global_java_packet_cls_ g) (all_packets_ g) (callback_handlers_ g)
    (side_packets_callbacks_ g) (side_packets_ g)
    (output_surface_side_packets_ g) (stream_headers_ g)
    (service_packets_ g) (gpu_resources_ g) (running_graph_ g) v.

(** What the wrapper needs of a [JNIEnv]: the global reference that
    [NewGlobalRef(FindClass(kJavaPacketClassName))] returns. *)
Record JNIEnv : Type := MkJNIEnv { packet_class_global_ref : Z }.

(** The lifecycle operations that need a running graph. *)
Inductive LifecycleOp : Type :=
| OpAddPacketToInputStream (stream_name : string) (packet : Packet)
| OpCloseInputStream (stream_name : string)
| OpCloseAllInputStreams
| OpCloseAllPacketSources
| OpWaitUntilIdle
| OpWaitUntilDone.

Section Graph.

(** Compiled with [MEDIAPIPE_DISABLE_GPU] defined or not. *)
Variable MEDIAPIPE_DISABLE_GPU : bool.

(** [mediapipe::file::GetContents]: the status and the file contents. *)
Variable GetContents : string -> Status * string.

(** [graph_.ParseFromString] / [graph_.ParseFromArray] of the protobuf
    runtime: whether the bytes parse, and what the message holds
    afterwards. *)
Variable ParseFromString :
  CalculatorGraphConfig -> string -> bool * CalculatorGraphConfig.

(** The status with which a calculator graph answers a call. *)
Variable respond : CalculatorGraph -> Call -> Status.

(** The address [new internal::PacketWithContext] returns. *)
Variable new_PacketWithContext : Graph -> Z.

(** [running_graph_->f(args)] for a member function [f] that returns a
    status. *)
Definition call (c : Call) (cg : CalculatorGraph)
    : Status * CalculatorGraph :=
  (respond cg c, record_call c cg).

(** *** Packet handles *)

Definition WrapPacketIntoContext (packet : Packet) (g : Graph)
    : Z * Graph :=
  let packet_context := new_PacketWithContext g in
  (packet_context,
   set_all_packets_
     (<[packet_context := MkPacketWithContext packet]> (all_packets_ g))
     g).

(** [GetPacketFromHandle]: reading through a handle that is not the
    address of a live wrapper is undefined. *)
Definition GetPacketFromHandle (packet_handle : Z) (g : Graph)
    : option Packet :=
  packet_with_context ← all_packets_ g !! packet_handle;
  Some (packet_ packet_with_context).

(** [RemovePacket]: the handle is dereferenced for its context, then
    erased from the context's map; [erase] returns the number of
    entries removed, and the map's [unique_ptr] deletes the wrapper. *)
Definition RemovePacket (packet_handle : Z) (g : Graph)
    : option (bool * Graph) :=
  packet_with_context ← all_packets_ g !! packet_handle;
  let erased : Z :=
    if bool_decide (is_Some (all_packets_ g !! packet_handle))
    then 1 else 0 in
  Some (negb (erased =? 0),
        set_all_packets_ (delete packet_handle (all_packets_ g)) g).

(** *** Loading *)

Definition LoadBinaryGraph (path_to_graph : string) (g : Graph)
    : Status * Graph :=
  let '(status, graph_config_string) := GetContents path_to_graph in
  if negb (ok status) then (status, g)
  else
    let '(parsed, config) :=
      ParseFromString (graph_ g) graph_config_string in
    let g := set_graph_ config g in
    if negb parsed
    then (InvalidArgumentError
            ("Failed to parse the graph: " ++ path_to_graph), g)
    else (OkStatus, set_graph_loaded_ true g).

Definition LoadBinaryGraph_data (data : string) (g : Graph)
    : Status * Graph :=
  let '(parsed, config) := ParseFromString (graph_ g) data in
  let g := set_graph_ config g in
  if negb parsed
  then (InvalidArgumentError "Failed to parse the graph", g)
  else (OkStatus, set_graph_loaded_ true g).

(** *** Running *)

Definition SetPacketJavaClass (env : JNIEnv) (g : Graph) : Graph :=
  match global_java_packet_cls_ g with
  | None =>
      set_global_java_packet_cls_ (Some (packet_class_global_ref env)) g
  | Some _ => g
  end.

(** [combined.insert(first, last)] keeps the entries already there, as
    the left-biased union does. *)
Definition CreateCombinedSidePackets (g : Graph) : gmap string Packet :=
  side_packets_callbacks_ g ∪ side_packets_ g
  ∪ output_surface_side_packets_ g.

(** The loop over [service_packets_] of [StartRunningGraph], on the
    graph under construction; it stops at the first failure. *)
Fixpoint SetServicePackets (service_packets : list (Z * Packet))
    (cg : CalculatorGraph) : Status * CalculatorGraph :=
  match service_packets with
  | [] => (OkStatus, cg)
  | (service, packet) :: rest =>
      let '(status, cg) := call (CallSetServicePacket service packet) cg in
      if negb (ok status) then (status, cg)
      else SetServicePackets rest cg
  end.

(** [StartRunningGraph].  [running_graph_] is written when the function
    leaves: [None] stands for [running_graph_.reset(nullptr)] on the
    failure paths, [Some cg] for the graph that [reset(new
    CalculatorGraph())] installed and the calls then worked on. *)
Definition StartRunningGraph (env : JNIEnv) (g : Graph) : Status * Graph :=
  if bool_decide (is_Some (running_graph_ g))
  then (InternalError "Graph is already running.", g)
  else
    let g := SetPacketJavaClass env g in
    let cg := new_CalculatorGraph in
    let cg :=
      record_call
        (CallSetGraphInputStreamAddMode (graph_input_stream_add_mode_ g))
        cg in
    let '(status, cg) :=
      if MEDIAPIPE_DISABLE_GPU then (OkStatus, cg)
      else call (CallSetGpuResources (gpu_resources_ g)) cg in
    if negb (ok status) then (status, set_running_graph_ None g)
    else
      let '(status, cg) := SetServicePackets (service_packets_ g) cg in
      if negb (ok status) then (status, set_running_graph_ None g)
      else
        let '(status, cg) := call (CallInitialize (graph_ g)) cg in
        if negb (ok status) then (status, set_running_graph_ None g)
        else
          let '(status, cg) :=
            call (CallStartRun (CreateCombinedSidePackets g)
                    (stream_headers_ g)) cg in
          if negb (ok status) then (status, set_running_graph_ None g)
          else (OkStatus, set_running_graph_ (Some cg) g).

(** [if (!running_graph_) return FailedPreconditionError(...);
     return running_graph_->f(...);] *)
Definition on_running_graph (c : Call) (g : Graph) : Status * Graph :=
  match running_graph_ g with
  | None => (FailedPreconditionError "Graph must be running.", g)
  | Some cg =>
      let '(status, cg) := call c cg in
      (status, set_running_graph_ (Some cg) g)
  end.

Definition AddPacketToInputStream (stream_name : string) (packet : Packet)
    (g : Graph) : Status * Graph :=
  on_running_graph (CallAddPacketToInputStream stream_name packet) g.

Definition CloseInputStream (stream_name : string) (g : Graph)
    : Status * Graph :=
  on_running_graph (CallCloseInputStream stream_name) g.

Definition CloseAllInputStreams (g : Graph) : Status * Graph :=
  on_running_graph CallCloseAllInputStreams g.

Definition CloseAllPacketSources (g : Graph) : Status * Graph :=
  on_running_graph CallCloseAllPacketSources g.

Definition WaitUntilIdle (g : Graph) : Status * Graph :=
  on_running_graph CallWaitUntilIdle g.

Definition WaitUntilDone (g : Graph) : Status * Graph :=
  match running_graph_ g with
  | None => (FailedPreconditionError "Graph must be running.", g)
  | Some cg =>
      let '(status, _) := call CallWaitUntilDone cg in
      (status, set_running_graph_ None g)
  end.

Definition run_op (op : LifecycleOp) (g : Graph) : Status * Graph :=
  match op with
  | OpAddPacketToInputStream stream_name packet =>
      AddPacketToInputStream stream_name packet g
  | OpCloseInputStream stream_name => CloseInputStream stream_name g
  | OpCloseAllInputStreams => CloseAllInputStreams g
  | OpCloseAllPacketSources => CloseAllPacketSources g
  | OpWaitUntilIdle => WaitUntilIdle g
  | OpWaitUntilDone => WaitUntilDone g
  end.

Definition CancelGraph (g : Graph) : Graph :=
  match running_graph_ g with
  | Some cg => set_running_graph_ (Some (Cancel cg)) g
  | None => g
  end.

(** *** Settings *)

Definition SetInputSidePacket (stream_name : string) (packet : Packet)
    (g : Graph) : Graph :=
  set_side_packets_ (<[stream_name := packet]> (side_packets_ g)) g.

Definition SetStreamHeader (stream_name : string) (packet : Packet)
    (g : Graph) : Graph :=
  set_stream_headers_ (<[stream_name := packet]> (stream_headers_ g)) g.

Definition SetGraphInputStreamAddMode (mode : GraphInputStreamAddMode)
    (g : Graph) : Graph :=
  set_graph_input_stream_add_mode_ mode g.

(** [nativeSetGraphInputStreamBlockingMode]; a [jboolean] is a byte and
    [if (mode)] tests it against zero. *)
Definition nativeSetGraphInputStreamBlockingMode (mode : Z) (g : Graph)
    : Graph :=
  if negb (mode =? 0)
  then SetGraphInputStreamAddMode WAIT_TILL_NOT_FULL g
  else SetGraphInputStreamAddMode ADD_IF_NOT_FULL g.

(** *** Callbacks into Java *)

(** [CallbackToJava(env, java_callback_obj, packet)].  The callback
    object is its [process] method: Java code that receives the packet
    handle and may call back into the graph. *)
Definition CallbackToJava (java_callback_obj : Z -> Graph -> Graph)
    (packet : Packet) (g : Graph) : option Graph :=
  let '(packet_handle, g) := WrapPacketIntoContext packet g in
  let g := java_callback_obj packet_handle g in
  '(_, g) ← RemovePacket packet_handle g;
  Some g.

Definition CallbackToJava_header
    (java_callback_obj : Z -> Z -> Graph -> Graph)
    (packet header_packet : Packet) (g : Graph) : option Graph :=
  let '(packet_handle, g) := WrapPacketIntoContext packet g in
  let '(header_packet_handle, g) :=
    WrapPacketIntoContext header_packet g in
  let g := java_callback_obj packet_handle header_packet_handle g in
  '(_, g) ← RemovePacket packet_handle g;
  '(_, g) ← RemovePacket header_packet_handle g;
  Some g.

(** *** The rest of graph.cc *)

Definition set_callback_handlers_ (v : list Z) (g : Graph) : Graph :=
  MkGraph (graph_ g) (graph_loaded_ g) (executor_stack_size_increased_ g)
    (global_java_packet_cls_ g) (all_packets_ g) v
    (side_packets_callbacks_ g) (side_packets_ g)
    (output_surface_side_packets_ g) (stream_headers_ g)
    (service_packets_ g) (gpu_resources_ g) (running_graph_ g)
    (graph_input_stream_add_mode_ g).

Definition set_side_packets_callbacks_ (v : gmap string Packet) (g : Graph)
    : Graph :=
  MkGraph (graph_ g) (graph_loaded_ g) (executor_stack_size_increased_ g)
    (global_java_packet_cls_ g) (all_packets_ g) (callback_handlers_ g)
    v (side_packets_ g)
    (output_surface_side_packets_ g) (stream_headers_ g)
    (service_packets_ g) (gpu_resources_ g) (running_graph_ g)
    (graph_input_stream_add_mode_ g).

Definition set_service_packets_ (v : list (Z * Packet)) (g : Graph) : Graph :=
  MkGraph (graph_ g) (graph_loaded_ g) (executor_stack_size_increased_ g)
    (global_java_packet_cls_ g) (all_packets_ g) (callback_handlers_ g)
    (side_packets_callbacks_ g) (side_packets_ g)
    (output_surface_side_packets_ g) (stream_headers_ g)
    v (gpu_resources_ g) (running_graph_ g)
    (graph_input_stream_add_mode_ g).

Definition set_gpu_resources_ (v : option Z) (g : Graph) : Graph :=
  MkGraph (graph_ g) (graph_loaded_ g) (executor_stack_size_increased_ g)
    (global_java_packet_cls_ g) (all_packets_ g) (callback_handlers_ g)
    (side_packets_callbacks_ g) (side_packets_ g)
    (output_surface_side_packets_ g) (stream_headers_ g)
    (service_packets_ g) v (running_graph_ g)
    (graph_input_stream_add_mode_ g).

(** [std::map::emplace(key, value)]: nothing happens when the key is
    there. *)
Definition emplace (key : string) (value : Packet) (m : gmap string Packet)
    : gmap string Packet :=
  match m !! key with
  | Some _ => m
  | None => <[key := value]> m
  end.

(** [tool::AddCallbackCalculator(output_stream_name, &graph_,
    &side_packet_name, true)] and [tool::AddCallbackWithHeaderCalculator]:
    the configuration with the callback node added, and the name chosen for
    its side packet. *)
Variable AddCallbackCalculator :
  string -> CalculatorGraphConfig -> CalculatorGraphConfig * string.
Variable AddCallbackWithHeaderCalculator :
  string -> string -> CalculatorGraphConfig -> CalculatorGraphConfig * string.

(** [MakePacket<std::function<...>>(handler->CreateCallback())] and its
    two-argument counterpart: the packet that holds the bound method of
    the handler of a Java callback. *)
Variable MakeCallbackPacket : Z -> Packet.
Variable MakeCallbackWithHeaderPacket : Z -> Packet.

(** [AddCallbackHandler].  A [CallbackHandler] is identified with the
    global reference of the Java callback it wraps. *)
Definition AddCallbackHandler (output_stream_name : string)
    (java_callback : Z) (g : Graph) : Status * Graph :=
  if negb (graph_loaded_ g)
  then (InternalError "Graph is not loaded!", g)
  else
    let handler := java_callback in
    let '(config, side_packet_name) :=
      AddCallbackCalculator output_stream_name (graph_ g) in
    let g := set_graph_ config g in
    let g :=
      set_side_packets_callbacks_
        (emplace side_packet_name (MakeCallbackPacket handler)
           (side_packets_callbacks_ g)) g in
    let g :=
      set_callback_handlers_ (callback_handlers_ g ++ [handler])%list g in
    (OkStatus, g).


(** The outcome of [CalculatorGraph calculator_graph(graph_)] followed by
    [calculator_graph.Run(side_packets)]. *)
Variable CalculatorGraph_Run :
  CalculatorGraphConfig -> gmap string Packet -> Status.

Definition RunGraphUntilClose (env : JNIEnv) (g : Graph) : Status * Graph :=
  let g := SetPacketJavaClass env g in
  let status := CalculatorGraph_Run (graph_ g) (CreateCombinedSidePackets g) in
  (status, g).

(** A packet after it has been given to a function by [std::move]. *)
Variable moved_from : Packet -> Packet.

(** [SetTimestampAndMovePacketToInputStream]: the packet inside the
    wrapper is re-timed in place, then moved into
    [AddPacketToInputStream(const std::string&, Packet&&)], which moves it
    on only when a graph is running. *)
Definition SetTimestampAndMovePacketToInputStream (stream_name : string)
    (packet_handle : Z) (timestamp : Z) (g : Graph)
    : option (Status * Graph) :=
  packet_with_context ← all_packets_ g !! packet_handle;
  let packet := At (packet_ packet_with_context) timestamp in
  let g :=
    set_all_packets_
      (<[packet_handle := MkPacketWithContext packet]> (all_packets_ g)) g in
  match running_graph_ g with
  | None => Some (FailedPreconditionError "Graph must be running.", g)
  | Some cg =>
      let '(status, cg) :=
        call (CallAddPacketToInputStream stream_name packet) cg in
      let g :=
        set_all_packets_
          (<[packet_handle := MkPacketWithContext (moved_from packet)]>
             (all_packets_ g)) g in
      Some (status, set_running_graph_ (Some cg) g)
  end.

(** [GpuResources::Create(context).ValueOrDie()]: the resources, or
    [None] when creation fails and [ValueOrDie] aborts. *)
Variable GpuResources_Create : Z -> option Z.

(** [SetParentGlContext]; [LOG(FATAL)] aborts ([None]). *)
Definition SetParentGlContext (java_gl_context : Z) (g : Graph)
    : option (Status * Graph) :=
  if bool_decide (is_Some (gpu_resources_ g))
  then Some (AlreadyExistsError
               ("trying to set the parent GL context, but the gpu shared "
                ++ "data has already been set up."), g)
  else if MEDIAPIPE_DISABLE_GPU then None
  else
    resources ← GpuResources_Create java_gl_context;
    Some (OkStatus, set_gpu_resources_ (Some resources) g).

(** [m[key] = value] on a [std::map] kept as the list of its entries in
    the order of the keys. *)
Fixpoint map_assign (key : Z) (value : Packet) (m : list (Z * Packet))
    : list (Z * Packet) :=
  match m with
  | [] => [(key, value)]
  | (k, v) :: rest =>
      if key <? k then (key, value) :: (k, v) :: rest
      else if key =? k then (key, value) :: rest
      else (k, v) :: map_assign key value rest
  end.

(** [SetServicePacket]; the key is the address of the service. *)
Definition SetServicePacket (service : Z) (packet : Packet) (g : Graph)
    : Graph :=
  set_service_packets_ (map_assign service packet (service_packets_ g)) g.

(** *** graph_jni.cc *)

(** [ThrowIfError]: the exception left pending for Java, if any. *)
Definition ThrowIfError (status : Status) : option Status :=
  if negb (ok status) then Some status else None.

(** The loop of [AddSidePacketsIntoGraph] and of
    [AddStreamHeadersIntoGraph] over the two arrays, with [set] the
    setter called on each name and packet. *)
Fixpoint set_each (set : string -> Packet -> Graph -> Graph)
    (stream_names : list string) (packets : list Z) (g : Graph)
    : option Graph :=
  match stream_names, packets with
  | name :: stream_names, packet_handle :: packets =>
      packet ← GetPacketFromHandle packet_handle g;
      set_each set stream_names packets (set name packet g)
  | _, _ => Some g
  end.

Definition AddSidePacketsIntoGraph (stream_names : list string)
    (packets : list Z) (g : Graph) : option (Status * Graph) :=
  if negb (bool_decide (length stream_names = length packets))
  then Some (InvalidArgumentError
               "Number of streams and packets doesn't match!", g)
  else
    g ← set_each SetInputSidePacket stream_names packets g;
    Some (OkStatus, g).

Definition AddStreamHeadersIntoGraph (stream_names : list string)
    (packets : list Z) (g : Graph) : option (Status * Graph) :=
  if negb (bool_decide (length stream_names = length packets))
  then Some (MkStatus kFailedPrecondition
               "Number of streams and packets doesn't match!", g)
  else
    g ← set_each SetStreamHeader stream_names packets g;
    Some (OkStatus, g).

(** The native methods return to Java with the exception [ThrowIfError]
    left pending, if any, and the graph. *)
Definition nativeRunGraphUntilClose (env : JNIEnv)
    (stream_names : list string) (packets : list Z) (g : Graph)
    : option (option Status * Graph) :=
  '(status, g) ← AddSidePacketsIntoGraph stream_names packets g;
  if negb (ok status) then Some (Some status, g)
  else
    let '(status, g) := RunGraphUntilClose env g in
    Some (ThrowIfError status, g).

Definition nativeStartRunningGraph (env : JNIEnv)
    (side_packet_names : list string) (side_packet_handles : list Z)
    (stream_names_with_header : list string) (header_handles : list Z)
    (g : Graph) : option (option Status * Graph) :=
  '(status, g) ←
    AddSidePacketsIntoGraph side_packet_names side_packet_handles g;
  if negb (ok status) then Some (Some status, g)
  else
    '(status, g) ←
      AddStreamHeadersIntoGraph stream_names_with_header header_handles g;
    if negb (ok status) then Some (Some status, g)
    else
      let '(status, g) := StartRunningGraph env g in
      Some (ThrowIfError status, g).

(** [nativeAddPacketToInputStream] pushes a copy of the packet, at the
    given timestamp. *)
Definition nativeAddPacketToInputStream (stream_name : string)
    (packet : Z) (timestamp : Z) (g : Graph)
    : option (option Status * Graph) :=
  p ← GetPacketFromHandle packet g;
  let '(status, g) := AddPacketToInputStream stream_name (At p timestamp) g in
  Some (ThrowIfError status, g).

Definition nativeMovePacketToInputStream (stream_name : string)
    (packet : Z) (timestamp : Z) (g : Graph)
    : option (option Status * Graph) :=
  '(status, g) ←
    SetTimestampAndMovePacketToInputStream stream_name packet timestamp g;
  Some (ThrowIfError status, g).

End Graph.

End JniGraph.

(* ===================================================================== *)
(** ** gl_context_nsgl.cc *)
(* ===================================================================== *)

Module GlContextNsgl.

(** The entries of an attribute array: the attributes the file names, and
    plain numbers. *)
Inductive NSOpenGLPixelFormatAttribute : Type :=
| NSOpenGLPFAAccelerated
| NSOpenGLPFAColorSize
| NSOpenGLPFAAlphaSize
| NSOpenGLPFADepthSize
| AttributeValue (n : Z).

(** The members [CreateContext] writes; [None] is [nil]. *)
Record GlContext : Type := MkGlContext {
  pixel_format_ : option Z;
  context_ : option Z;
  texture_cache_ : option Z
}.

Definition attrs : list NSOpenGLPixelFormatAttribute :=
  [NSOpenGLPFAAccelerated; NSOpenGLPFAColorSize; AttributeValue 24;
   NSOpenGLPFAAlphaSize; AttributeValue 8; NSOpenGLPFADepthSize;
   AttributeValue 16; AttributeValue 0].

Definition attrs_no_accel : list NSOpenGLPixelFormatAttribute :=
  [NSOpenGLPFAColorSize; AttributeValue 24; NSOpenGLPFAAlphaSize;
   AttributeValue 8; NSOpenGLPFADepthSize; AttributeValue 16;
   AttributeValue 0].

Definition HasContext (this : GlContext) : bool :=
  bool_decide (is_Some (context_ this)).

(** [IsCurrent], given [[NSOpenGLContext currentContext]]. *)
Definition IsCurrent (currentContext : option Z) (this : GlContext) : bool :=
  HasContext this && bool_decide (currentContext = context_ this).

Section Context.

(** [[[NSOpenGLPixelFormat alloc] initWithAttributes:]]. *)
Variable initWithAttributes :
  list NSOpenGLPixelFormatAttribute -> option Z.

(** [[[NSOpenGLContext alloc] initWithFormat:shareContext:]]. *)
Variable initWithFormat : option Z -> option Z -> option Z.

(** The pixel format queried from the share context:
    [initWithCGLPixelFormatObj:] of [CGLGetPixelFormat] of its
    [CGLContextObj]. *)
Variable initWithCGLPixelFormatObj_of : option Z -> option Z.

(** [CVOpenGLTextureCacheCreate] for a context and a pixel format: the
    error code and the cache. *)
Variable CVOpenGLTextureCacheCreate : Z -> option Z -> Z * Z.
Variable kCVReturnSuccess : Z.

(** The status of a failed [RET_CHECK]. *)
Variable RetCheckFailSlowPath : string -> Status.

Definition CreateContext (share_context : option Z) (this : GlContext)
    : Status * GlContext :=
  let this :=
    MkGlContext (initWithAttributes attrs) (context_ this)
      (texture_cache_ this) in
  let this :=
    if negb (bool_decide (is_Some (pixel_format_ this)))
    then MkGlContext (initWithAttributes attrs_no_accel) (context_ this)
           (texture_cache_ this)
    else this in
  if negb (bool_decide (is_Some (pixel_format_ this)))
  then (InternalError "Could not create an NSOpenGLPixelFormat", this)
  else
    let this :=
      MkGlContext (pixel_format_ this)
        (initWithFormat (pixel_format_ this) share_context)
        (texture_cache_ this) in
    let this :=
      if negb (bool_decide (is_Some (context_ this)))
      then
        let this :=
          MkGlContext (initWithCGLPixelFormatObj_of share_context)
            (context_ this) (texture_cache_ this) in
        MkGlContext (pixel_format_ this)
          (initWithFormat (pixel_format_ this) share_context)
          (texture_cache_ this)
      else this in
    match context_ this with
    | None =>
        (RetCheckFailSlowPath "Could not create an NSOpenGLContext", this)
    | Some context =>
        let '(err, cache) :=
          CVOpenGLTextureCacheCreate context (pixel_format_ this) in
        if negb (err =? kCVReturnSuccess)
        then (RetCheckFailSlowPath "Error at CVOpenGLTextureCacheCreate",
              this)
        else
          (OkStatus,
           MkGlContext (pixel_format_ this) (context_ this) (Some cache))
    end.

End Context.

End GlContextNsgl.

(* ===================================================================== *)
(** ** Sample environments and inputs *)
(* ===================================================================== *)

(** The functions above take what the sources leave to other code (the
    protobuf parser, the file system, the calculator graph, the allocator,
    OpenCV) as arguments.  These are concrete ones, for the examples. *)

(** A calculator graph that answers every call with [OkStatus]. *)
Definition always_ok : CalculatorGraph -> Call -> Status :=
  fun _ _ => OkStatus.

(** A calculator graph whose [Initialize] refuses the configuration, as
    graph validation does. *)
Definition refuse_Initialize : CalculatorGraph -> Call -> Status :=
  fun _ c =>
    match c with
    | CallInitialize _ => InvalidArgumentError "graph validation failed"
    | _ => OkStatus
    end.

Definition some_env : JniGraph.JNIEnv := JniGraph.MkJNIEnv 4096.

Definition some_packet : Packet := MkPacket 7 0.

(** An allocator: an address outside the live wrappers of the graph. *)
Definition fresh_address (g : JniGraph.Graph) : Z :=
  fresh (dom (JniGraph.all_packets_ g)).

(** A Java callback that reads its packet and does nothing else. *)
Definition quiet_callback : Z -> JniGraph.Graph -> JniGraph.Graph :=
  fun _ g => g.

(** A Java callback that keeps a copy of its packet: a second handle that
    Java is to release later. *)
Definition copying_callback : Z -> JniGraph.Graph -> JniGraph.Graph :=
  fun packet_handle g =>
    match JniGraph.GetPacketFromHandle packet_handle g with
    | Some p => (JniGraph.WrapPacketIntoContext fresh_address p g).2
    | None => g
    end.

(** One node that reads the stream it writes. *)
Definition self_loop_config : CalculatorGraphConfig :=
  MkConfig [MkNode "loop" "PassThroughCalculator" ["a"] ["a"]] [].

(** A well-formed configuration: one node from the graph input to [out]. *)
Definition pass_through_config : CalculatorGraphConfig :=
  MkConfig [MkNode "pass" "PassThroughCalculator" ["in"] ["out"]] ["in"].

(** A protobuf parser that reads [serialized] as [config] and fails on any
    other bytes, leaving the message cleared. *)
Definition parses_as (serialized : string) (config : CalculatorGraphConfig)
    : CalculatorGraphConfig -> string -> bool * CalculatorGraphConfig :=
  fun _ bytes =>
    if bool_decide (bytes = serialized) then (true, config)
    else (false, empty_CalculatorGraphConfig).

(** A file system with one readable file. *)
Definition one_file (path contents : string) : string -> Status * string :=
  fun p =>
    if bool_decide (p = path) then (OkStatus, contents)
    else (MkStatus kNotFound "no such file", "").

(** The options of the usage example with three channels instead of two. *)
Definition three_channel_context : TfLiteSegmentation.CalculatorContext :=
  TfLiteSegmentation.MkContext {["TENSORS_GPU"]}
    (TfLiteSegmentation.MkOptions (Some 512) (Some 512) (Some 3) (Some 1)) [].

(** A frame buffer without padding, filled with zeros. *)
Definition packed_buffer (format : ColorConvert.ImageFormat)
    (width height : Z) : list (list Z) :=
  replicate (Z.to_nat height)
    (replicate (Z.to_nat (width * ColorConvert.NumberOfChannels format)) 0).

(** One row of an RGB to RGBA conversion that writes alpha 0, as
    [cv::cvtColor] does. *)
Definition rgb_to_rgba_row (src_row dst_row : list Z) : list Z :=
  imap (fun j _ =>
          if (j mod 4 =? 3)%nat then 0
          else default 0 (src_row !! (j / 4 * 3 + j mod 4)%nat))
    dst_row.

(** A [cvtColor] that converts RGB to RGBA and leaves the destination of
    any other conversion as it is. *)
Definition rgb_to_rgba (src dst : ColorConvert.Mat)
    (code : ColorConvert.ColorConversionCode) : list (list Z) :=
  match code with
  | ColorConvert.COLOR_RGB2RGBA =>
      imap (fun r dst_row =>
              rgb_to_rgba_row (default [] (ColorConvert.data src !! r))
                dst_row)
        (ColorConvert.data dst)
  | _ => ColorConvert.data dst
  end.

(** A frame of two pixels in one row. *)
Definition two_pixels : ColorConvert.ImageFrame :=
  ColorConvert.MkImageFrame ColorConvert.SRGB 2 1 [[10; 20; 30; 40; 50; 60]].

Definition rgb_to_rgba_context : ColorConvert.CalculatorContext :=
  ColorConvert.MkContext {[ColorConvert.kRgbInTag := Some two_pixels]}
    {[ColorConvert.kRgbaOutTag := []]} 42.

(** A machine without an accelerated pixel format. *)
Definition accelerated_unavailable
    (attrs : list GlContextNsgl.NSOpenGLPixelFormatAttribute) : option Z :=
  match attrs with
  | GlContextNsgl.NSOpenGLPFAAccelerated :: _ => None
  | _ => Some 11
  end.

(** Two RGBA pixels in a row padded to twelve bytes, alpha 0. *)
Definition padded_rgba : ColorConvert.Mat :=
  ColorConvert.MkMat 1 2 4 ColorConvert.CV_8U
    [[10; 20; 30; 0; 40; 50; 60; 0; 77; 77; 77; 77]].

(** A node wired from [GRAY_IN] to [RGBA_OUT]. *)
Definition gray_to_rgba_context : ColorConvert.CalculatorContext :=
  ColorConvert.MkContext
    {[ColorConvert.kGrayInTag :=
        Some (ColorConvert.MkImageFrame ColorConvert.GRAY8 2 1 [[10; 40]])]}
    {[ColorConvert.kRgbaOutTag := []]} 42.

(** A node wired from [RGBA_IN] to [RGB_OUT], with a frame of two
    pixels. *)
Definition two_rgba_pixels : ColorConvert.ImageFrame :=
  ColorConvert.MkImageFrame ColorConvert.SRGBA 2 1
    [[10; 20; 30; 255; 40; 50; 60; 255]].

Definition rgba_to_rgb_context : ColorConvert.CalculatorContext :=
  ColorConvert.MkContext {[ColorConvert.kRgbaInTag := Some two_rgba_pixels]}
    {[ColorConvert.kRgbOutTag := []]} 42.

(** A callback calculator tool that names the side packet after the
    stream and adds a node reading the stream. *)
Definition add_callback_node (output_stream_name : string)
    (config : CalculatorGraphConfig) : CalculatorGraphConfig * string :=
  (MkConfig
     (cfg_node config
      ++ [MkNode ("callback_" ++ output_stream_name) "CallbackCalculator"
            [output_stream_name] []])%list
     (cfg_input_stream config),
   "callback_" ++ output_stream_name).

(** A graph that has loaded the pass-through configuration. *)
Definition loaded_graph : JniGraph.Graph :=
  (JniGraph.LoadBinaryGraph_data (parses_as "bytes" pass_through_config)
     "bytes" (JniGraph.new_Graph WAIT_TILL_NOT_FULL)).2.

(** The calls a calculator graph has received when [StartRunningGraph]
    returns ok, oldest first. *)
Definition start_calls_of (MEDIAPIPE_DISABLE_GPU : bool) (g : JniGraph.Graph)
    : list Call :=
  ([CallSetGraphInputStreamAddMode (JniGraph.graph_input_stream_add_mode_ g)]
   ++ (if MEDIAPIPE_DISABLE_GPU then []
       else [CallSetGpuResources (JniGraph.gpu_resources_ g)])
   ++ map (fun sp => CallSetServicePacket sp.1 sp.2)
        (JniGraph.service_packets_ g)
   ++ [CallInitialize (JniGraph.graph_ g);
       CallStartRun (JniGraph.CreateCombinedSidePackets g)
         (JniGraph.stream_headers_ g)])%list.

(** The keys of a map kept as a list increase along the list. *)
Definition keys_ascending (m : list (Z * Packet)) : Prop :=
  StronglySorted Z.lt m.*1.

(** A graph holding a service packet and a stream header. *)
Definition configured_graph : JniGraph.Graph :=
  JniGraph.SetStreamHeader "input_video" (MkPacket 3 0)
    (JniGraph.SetServicePacket 900 (MkPacket 5 0)
       (JniGraph.SetServicePacket 800 (MkPacket 4 0)
          (JniGraph.SetServicePacket 900 (MkPacket 6 0)
             (JniGraph.new_Graph WAIT_TILL_NOT_FULL)))).

(** A graph that is not running and holds one wrapped packet, and the
    handle of the packet. *)
Definition one_packet_graph : JniGraph.Graph :=
  (JniGraph.WrapPacketIntoContext fresh_address (MkPacket 7 10)
     (JniGraph.new_Graph WAIT_TILL_NOT_FULL)).2.

Definition one_packet_handle : Z :=
  (JniGraph.WrapPacketIntoContext fresh_address (MkPacket 7 10)
     (JniGraph.new_Graph WAIT_TILL_NOT_FULL)).1.

(** A move that empties the packet it is applied to. *)
Definition emptied : Packet -> Packet := fun _ => MkPacket 0 0.

(** The names and packets of two arrays as a map: a later entry of a name
    overrides an earlier one. *)
Definition named_packets (names : list string) (packets : list Packet)
    : gmap string Packet :=
  list_to_map (reverse (zip names packets)).

(** The handles read the packets, one by one. *)
Definition handles_read (g : JniGraph.Graph) (handles : list Z)
    (packets : list Packet) : Prop :=
  Forall2 (fun h p => JniGraph.GetPacketFromHandle h g = Some p)
    handles packets.

(** A graph that is not running and holds two wrapped packets, and their
    handles. *)
Definition two_packet_graph : JniGraph.Graph :=
  (JniGraph.WrapPacketIntoContext fresh_address (MkPacket 8 20)
     one_packet_graph).2.

Definition second_packet_handle : Z :=
  (JniGraph.WrapPacketIntoContext fresh_address (MkPacket 8 20)
     one_packet_graph).1.

(* ===================================================================== *)
(** * Properties *)
(* ===================================================================== *)

(** ** RoundUp *)

Lemma representable_spec (z : Z) :
  CInt.representable z = true <-> CInt.INT_MIN <= z <= CInt.INT_MAX.
Proof.
  unfold CInt.representable.
  rewrite andb_true_iff, !Z.leb_le. reflexivity.
Qed.

Lemma RoundUp_exact (size multiple : Z) :
  0 <= size -> 1 <= multiple -> size + multiple <= CInt.INT_MAX ->
  TfLiteSegmentation.RoundUp size multiple
  = Some ((size + multiple - 1) `div` multiple).
Proof.
  intros Hs Hm Hmax.
  assert (Hq : (size + multiple - 1) ÷ multiple
               = (size + multiple - 1) `div` multiple)
    by (apply Z.quot_div_nonneg; lia).
  assert (Hlo : 0 <= (size + multiple - 1) `div` multiple)
    by (apply Z.div_pos; lia).
  assert (Hhi : (size + multiple - 1) `div` multiple <= size + multiple - 1)
    by (apply Z.div_le_upper_bound; nia).
  unfold CInt.INT_MAX in Hmax.
  unfold TfLiteSegmentation.RoundUp, CInt.add, CInt.sub, CInt.div.
  assert (Hr1 : CInt.representable (size + multiple) = true)
    by (apply representable_spec; unfold CInt.INT_MIN, CInt.INT_MAX; lia).
  rewrite Hr1. simpl.
  assert (Hr2 : CInt.representable (size + multiple - 1) = true)
    by (apply representable_spec; unfold CInt.INT_MIN, CInt.INT_MAX; lia).
  rewrite Hr2. simpl.
  destruct (Z.eqb_spec multiple 0) as [->|_]; [lia|].
  rewrite Hq.
  assert (Hr3 : CInt.representable ((size + multiple - 1) `div` multiple)
                = true)
    by (apply representable_spec; unfold CInt.INT_MIN, CInt.INT_MAX; lia).
  rewrite Hr3. reflexivity.
Qed.

(** C10.  For [size >= 0] and [multiple >= 1] whose sum fits an [int],
    [RoundUp size multiple] is defined and is the least [n] with
    [n * multiple >= size], that is the ceiling of [size / multiple]. *)
Theorem RoundUp_is_ceiling (size multiple : Z) :
  0 <= size -> 1 <= multiple -> size + multiple <= CInt.INT_MAX ->
  exists n : Z,
    TfLiteSegmentation.RoundUp size multiple = Some n
    /\ size <= n * multiple
    /\ (forall m : Z, size <= m * multiple -> n <= m)
    /\ n = - ((- size) `div` multiple).
Proof.
  intros Hs Hm Hmax.
  exists ((size + multiple - 1) `div` multiple).
  split; [by apply RoundUp_exact|].
  pose proof (Z.div_mod (size + multiple - 1) multiple ltac:(lia)) as Hdm.
  pose proof (Z.mod_pos_bound (size + multiple - 1) multiple ltac:(lia)) as Hb.
  set (q := (size + multiple - 1) `div` multiple) in *.
  set (r := (size + multiple - 1) `mod` multiple) in *.
  assert (Hleast : forall m : Z, size <= m * multiple -> q <= m).
  { intros m Hle.
    destruct (Z_le_gt_dec q m) as [|Hgt]; [done|].
    assert (m + 1 <= q) by lia. nia. }
  repeat split.
  - nia.
  - exact Hleast.
  - pose proof (Z.div_mod (- size) multiple ltac:(lia)) as Hdm'.
    pose proof (Z.mod_pos_bound (- size) multiple ltac:(lia)) as Hb'.
    set (q' := (- size) `div` multiple) in *.
    set (r' := (- size) `mod` multiple) in *.
    assert (q <= - q') by (apply Hleast; nia).
    assert (- q' <= q) by nia.
    lia.
Qed.

Lemma RoundUp_is_ceiling_witness :
  exists n : Z,
    TfLiteSegmentation.RoundUp 10 TfLiteSegmentation.kWorkgroupSize = Some n
    /\ 10 <= n * TfLiteSegmentation.kWorkgroupSize
    /\ (forall m : Z, 10 <= m * TfLiteSegmentation.kWorkgroupSize -> n <= m)
    /\ n = - ((- 10) `div` TfLiteSegmentation.kWorkgroupSize).
Proof.
  apply (RoundUp_is_ceiling 10 TfLiteSegmentation.kWorkgroupSize);
    vm_compute; congruence.
Defined.

Example RoundUp_10_8 : TfLiteSegmentation.RoundUp 10 8 = Some 2.
Proof. reflexivity. Qed.

Example RoundUp_512_8 : TfLiteSegmentation.RoundUp 512 8 = Some 64.
Proof. reflexivity. Qed.

Example RoundUp_overflow :
  TfLiteSegmentation.RoundUp CInt.INT_MAX 1 = None.
Proof. reflexivity. Qed.

(** ** TfLiteTensorsToSegmentationCalculator::Open *)

Section OpenRejects.

Import TfLiteSegmentation.

Variable ANDROID : bool.
Variable RetCheckFailSlowPath : string -> Status.
Variable gpu_helper_Open : CalculatorContext -> Status.
Variable RunInGlContext_InitGpu : CalculatorContext -> Calculator -> Status.

(** A failed [RET_CHECK] yields an error status. *)
Hypothesis RetCheckFail_not_ok :
  forall msg, ok (RetCheckFailSlowPath msg) = false.

Lemma LoadOptions_rejects cc this :
  bad_options (cc_Options cc) ->
  ok (LoadOptions RetCheckFailSlowPath cc this).1 = false.
Proof.
  unfold bad_options, LoadOptions, has_tensor_width, has_tensor_height,
    has_tensor_channels, tensor_channels. simpl.
  destruct (opt_tensor_width (cc_Options cc)) as [w|];
    [|intros _; simpl; apply RetCheckFail_not_ok].
  destruct (opt_tensor_height (cc_Options cc)) as [h|];
    [|intros _; simpl; apply RetCheckFail_not_ok].
  destruct (opt_tensor_channels (cc_Options cc)) as [c|];
    [|intros _; simpl; apply RetCheckFail_not_ok].
  intros [?|[?|[?|Hc]]]; try discriminate.
  simpl in *.
  destruct (Z.eqb_spec c 2) as [->|_]; [done|].
  simpl. apply RetCheckFail_not_ok.
Qed.

Lemma Open_keeps_context cc this :
  (Open ANDROID RetCheckFailSlowPath gpu_helper_Open
     RunInGlContext_InitGpu cc this).2 = cc.
Proof. reflexivity. Qed.

Lemma Open_rejects cc this :
  bad_options (cc_Options cc) ->
  ok (Open ANDROID RetCheckFailSlowPath gpu_helper_Open
        RunInGlContext_InitGpu cc this).1.1 = false.
Proof.
  intros Hbad. unfold Open, RETURN_IF_ERROR. simpl.
  match goal with
  | |- context [if ok (fst ?first) then _ else _] =>
      destruct (ok (fst first)) eqn:Hfirst; [|exact Hfirst]
  end.
  match goal with
  | |- context [LoadOptions _ cc ?t] =>
      pose proof (LoadOptions_rejects cc t Hbad) as Hload
  end.
  rewrite Hload. exact Hload.
Qed.

End OpenRejects.

(** C8.  When the options lack [tensor_width], [tensor_height] or
    [tensor_channels], or [tensor_channels] is not 2, [Open] returns a
    status that is not ok, and no packet has been added to an output
    stream. *)
Theorem Open_fails_on_bad_options
    (ANDROID : bool) (RetCheckFailSlowPath : string -> Status)
    (gpu_helper_Open : TfLiteSegmentation.CalculatorContext -> Status)
    (RunInGlContext_InitGpu :
       TfLiteSegmentation.CalculatorContext ->
       TfLiteSegmentation.Calculator -> Status)
    (cc : TfLiteSegmentation.CalculatorContext)
    (this : TfLiteSegmentation.Calculator) :
  (forall msg, ok (RetCheckFailSlowPath msg) = false) ->
  TfLiteSegmentation.bad_options (TfLiteSegmentation.cc_Options cc) ->
  let result :=
    TfLiteSegmentation.Open ANDROID RetCheckFailSlowPath gpu_helper_Open
      RunInGlContext_InitGpu cc this in
  ok result.1.1 = false
  /\ TfLiteSegmentation.cc_Emitted result.2 = TfLiteSegmentation.cc_Emitted cc.
Proof.
  intros Hfail Hbad result. split.
  - by apply Open_rejects.
  - unfold result. by rewrite Open_keeps_context.
Qed.

Lemma Open_fails_on_bad_options_witness :
  let result :=
    TfLiteSegmentation.Open true InternalError (fun _ => OkStatus)
      (fun _ _ => OkStatus) three_channel_context
      TfLiteSegmentation.initial_Calculator in
  ok result.1.1 = false
  /\ TfLiteSegmentation.cc_Emitted result.2 = [].
Proof.
  apply (Open_fails_on_bad_options true InternalError (fun _ => OkStatus)
           (fun _ _ => OkStatus) three_channel_context
           TfLiteSegmentation.initial_Calculator).
  - reflexivity.
  - right; right; right. vm_compute. congruence.
Defined.

Example Open_accepts_two_channels :
  (TfLiteSegmentation.Open true InternalError (fun _ => OkStatus)
     (fun _ _ => OkStatus)
     (TfLiteSegmentation.MkContext {["TENSORS_GPU"]}
        (TfLiteSegmentation.MkOptions (Some 512) (Some 512) (Some 2) (Some 1))
        [])
     TfLiteSegmentation.initial_Calculator).1
  = (OkStatus,
     TfLiteSegmentation.MkCalculator
       (TfLiteSegmentation.MkOptions (Some 512) (Some 512) (Some 2) (Some 1))
       512 512 2 true).
Proof. vm_compute. reflexivity. Qed.

Example Open_missing_width :
  code
    (TfLiteSegmentation.Open false InternalError (fun _ => OkStatus)
       (fun _ _ => OkStatus)
       (TfLiteSegmentation.MkContext ∅
          (TfLiteSegmentation.MkOptions None (Some 512) (Some 2) None) [])
       TfLiteSegmentation.initial_Calculator).1.1
  = kInternal.
Proof. vm_compute. reflexivity. Qed.

(** ** CalculatorContract *)

Lemma run_calls_handler (calls : list Contract.ContractCall)
    (c : Contract.CalculatorContract) :
  Contract.GetInputStreamHandler (Contract.run_calls calls c)
  = default (Contract.GetInputStreamHandler c)
      (last (Contract.handler_names calls)).
Proof.
  induction calls as [|call calls IH] using rev_ind; [reflexivity|].
  unfold Contract.run_calls, Contract.handler_names in *.
  rewrite foldl_app, omap_app. simpl.
  destruct call as [name|o]; simpl.
  - by rewrite last_snoc.
  - by rewrite app_nil_r.
Qed.

(** C7.  [GetInputStreamHandler] returns the name of the most recent
    [SetInputStreamHandler], and the empty string when there was none; and
    a handler named for the node in the graph configuration is chosen over
    the default the node's contract sets. *)
Theorem input_stream_handler_precedence :
  (forall calls : list Contract.ContractCall,
     Contract.GetInputStreamHandler
       (Contract.run_calls calls Contract.new_CalculatorContract)
     = default "" (last (Contract.handler_names calls)))
  /\ (forall (name : string) (c : Contract.CalculatorContract),
        Contract.GetInputStreamHandler (Contract.SetInputStreamHandler name c)
        = name)
  /\ (forall (graph_handler name : string) (c : Contract.CalculatorContract),
        Contract.resolve_input_stream_handler (Some graph_handler)
          (Contract.SetInputStreamHandler name c)
        = graph_handler)
  /\ (forall (name : string) (c : Contract.CalculatorContract),
        name <> "" ->
        Contract.resolve_input_stream_handler None
          (Contract.SetInputStreamHandler name c)
        = name).
Proof.
  repeat split.
  - intros calls. apply run_calls_handler.
  - intros name c Hname. unfold Contract.resolve_input_stream_handler.
    simpl. by rewrite bool_decide_eq_false_2.
Qed.

Lemma input_stream_handler_precedence_witness :
  Contract.resolve_input_stream_handler (Some "ImmediateInputStreamHandler")
    (Contract.SetInputStreamHandler "FixedSizeInputStreamHandler"
       Contract.new_CalculatorContract)
  = "ImmediateInputStreamHandler"
  /\ Contract.resolve_input_stream_handler None
       (Contract.SetInputStreamHandler "FixedSizeInputStreamHandler"
          Contract.new_CalculatorContract)
     = "FixedSizeInputStreamHandler"
  /\ Contract.GetInputStreamHandler Contract.new_CalculatorContract = "".
Proof.
  destruct input_stream_handler_precedence
    as (Hlast & _ & Hgraph & Hnode).
  split; [apply Hgraph|]. split; [by apply Hnode|].
  apply (Hlast []).
Defined.

Example handler_last_set_wins :
  Contract.GetInputStreamHandler
    (Contract.run_calls
       [Contract.CallSetInputStreamHandler "ImmediateInputStreamHandler";
        Contract.CallSetInputStreamHandlerOptions "fixed_min_size: 2";
        Contract.CallSetInputStreamHandler "FixedSizeInputStreamHandler";
        Contract.CallSetInputStreamHandlerOptions ""]
       Contract.new_CalculatorContract)
  = "FixedSizeInputStreamHandler".
Proof. reflexivity. Qed.

(** ** Loops *)

Lemma for_loop_step {A : Type} (step limit : Z) (body : Z -> A -> option A)
    (i : Z) (acc : A) :
  for_loop step limit body i acc
  = if decide (i < limit)
    then if decide (0 < step)
         then match body i acc with
              | Some acc' => for_loop step limit body (i + step) acc'
              | None => None
              end
         else None
    else Some acc.
Proof.
  simp for_loop.
  destruct (decide (i < limit)); destruct (decide (0 < step)); reflexivity.
Qed.

(** ** ColorConvertCalculator *)

Section SetColorChannel.

Import ColorConvert.

Variables (channel value step width : Z).
Hypothesis step_pos : 0 < step.
Hypothesis channel_range : 0 <= channel < step.

(** The loop over a row writes [value] at the offsets [i], [i + step],
    ... below the limit, and nowhere below [i]. *)
Lemma row_loop (n : nat) :
  forall (i : Z) (row : list Z),
    (Z.to_nat (width * step - i) <= n)%nat ->
    0 <= i -> width * step <= Z.of_nat (length row) ->
    exists row',
      for_loop step (width * step) (store value) i row = Some row'
      /\ length row' = length row
      /\ (forall j, 0 <= j < i -> row' !! Z.to_nat j = row !! Z.to_nat j)
      /\ (forall j, i <= j < width * step -> (j - i) `mod` step = 0 ->
            row' !! Z.to_nat j = Some value).
Proof.
  induction n as [|n IH]; intros i row Hn Hi Hlen;
    rewrite for_loop_step.
  - rewrite decide_False by lia.
    exists row. split; [done|]. split; [done|]. split; [done|intros; lia].
  - destruct (decide (i < width * step)) as [Hlt|Hge];
      [|exists row; split; [done|]; split; [done|];
        split; [done|intros; lia]].
    rewrite decide_True by done.
    unfold store at 1. rewrite decide_True by lia.
    destruct (IH (i + step) (<[Z.to_nat i := value]> row))
      as (row' & Hloop & Hlength & Hbelow & Hset);
      [lia|lia|by rewrite length_insert|].
    exists row'. rewrite length_insert in Hlength.
    split; [exact Hloop|]. split; [exact Hlength|]. split.
    + intros j Hj. rewrite Hbelow by lia.
      apply list_lookup_insert_ne. lia.
    + intros j Hj Hmod.
      destruct (decide (j = i)) as [->|Hne].
      * rewrite Hbelow by lia. apply list_lookup_insert_eq. lia.
      * assert (step <= j - i).
        { destruct (Z_lt_le_dec (j - i) step) as [Hsmall|]; [|done].
          rewrite Z.mod_small in Hmod by lia. lia. }
        apply Hset; [lia|].
        replace (j - (i + step)) with (j - i + (-1) * step) by lia.
        by rewrite Z_mod_plus_full.
Qed.

Lemma row_loop_sets_channel (row : list Z) :
  width * step <= Z.of_nat (length row) ->
  exists row',
    for_loop step (width * step) (store value) channel row = Some row'
    /\ length row' = length row
    /\ channel_is channel value step width row'.
Proof.
  intros Hlen.
  destruct (row_loop (Z.to_nat (width * step - channel)) channel row)
    as (row' & Hloop & Hlength & _ & Hset); [lia|lia|done|].
  exists row'. split; [exact Hloop|]. split; [exact Hlength|].
  intros c Hc. apply Hset; [nia|].
  replace (c * step + channel - channel) with (c * step) by lia.
  apply Z_mod_mult.
Qed.

(** The loop over the rows sets the channel in the rows from [r] on. *)
Lemma rows_loop (rows : Z) (n : nat) :
  forall (r : Z) (d : list (list Z)),
    (Z.to_nat (rows - r) <= n)%nat ->
    0 <= r -> rows <= Z.of_nat (length d) ->
    Forall (fun row => width * step <= Z.of_nat (length row)) d ->
    exists d',
      for_loop 1 rows
        (SetColorChannel_row channel value step (width * step)) r d
      = Some d'
      /\ map length d' = map length d
      /\ (forall k, 0 <= k < r -> d' !! Z.to_nat k = d !! Z.to_nat k)
      /\ (forall k, r <= k < rows ->
            exists row',
              d' !! Z.to_nat k = Some row'
              /\ channel_is channel value step width row').
Proof.
  induction n as [|n IH]; intros r d Hn Hr Hlen Hrows;
    rewrite for_loop_step.
  - rewrite decide_False by lia.
    exists d. split; [done|]. split; [done|]. split; [done|intros; lia].
  - destruct (decide (r < rows)) as [Hlt|Hge];
      [|exists d; split; [done|]; split; [done|];
        split; [done|intros; lia]].
    rewrite decide_True by lia.
    destruct (lookup_lt_is_Some_2 d (Z.to_nat r)) as [row Hrow]; [lia|].
    unfold SetColorChannel_row at 1. rewrite Hrow. simpl.
    assert (Hrowlen : width * step <= Z.of_nat (length row)).
    { rewrite Forall_lookup in Hrows. by eapply Hrows. }
    destruct (row_loop_sets_channel row Hrowlen)
      as (row' & Hloop & Hlength & Hset).
    rewrite Hloop. simpl.
    assert (Hshape : map length (<[Z.to_nat r := row']> d) = map length d).
    { rewrite list_fmap_insert, Hlength.
      apply list_insert_id. by rewrite list_lookup_fmap, Hrow. }
    destruct (IH (r + 1) (<[Z.to_nat r := row']> d))
      as (d' & Hloop' & Hshape' & Hbelow & Hdone);
      [lia|lia|by rewrite length_insert| |].
    { apply Forall_insert; [done|]. by rewrite Hlength. }
    exists d'. split; [exact Hloop'|]. split; [congruence|]. split.
    + intros k Hk. rewrite Hbelow by lia.
      apply list_lookup_insert_ne. lia.
    + intros k Hk. destruct (decide (k = r)) as [->|Hne].
      * exists row'. split; [|exact Hset].
        rewrite Hbelow by lia. apply list_lookup_insert_eq. lia.
      * apply Hdone. lia.
Qed.

End SetColorChannel.

Lemma SetColorChannel_sets_channel (channel value : Z) (mat : ColorConvert.Mat) :
  ColorConvert.depth mat = ColorConvert.CV_8U ->
  0 <= channel < ColorConvert.channels mat ->
  ColorConvert.rows mat <= Z.of_nat (length (ColorConvert.data mat)) ->
  Forall (fun row =>
            ColorConvert.cols mat * ColorConvert.channels mat
            <= Z.of_nat (length row))
    (ColorConvert.data mat) ->
  exists d',
    ColorConvert.SetColorChannel channel value mat
    = Some (ColorConvert.MkMat (ColorConvert.rows mat) (ColorConvert.cols mat)
              (ColorConvert.channels mat) (ColorConvert.depth mat) d')
    /\ map length d' = map length (ColorConvert.data mat)
    /\ (forall r, 0 <= r < ColorConvert.rows mat ->
          exists row,
            d' !! Z.to_nat r = Some row
            /\ ColorConvert.channel_is channel value
                 (ColorConvert.channels mat) (ColorConvert.cols mat) row).
Proof.
  intros Hdepth Hchannel Hrows Hdata.
  unfold ColorConvert.SetColorChannel.
  rewrite Hdepth, bool_decide_eq_true_2 by done. simpl.
  destruct (Z.ltb_spec channel (ColorConvert.channels mat)); [|lia]. simpl.
  destruct (rows_loop channel value (ColorConvert.channels mat)
              (ColorConvert.cols mat) ltac:(lia) ltac:(lia)
              (ColorConvert.rows mat) (Z.to_nat (ColorConvert.rows mat))
              0 (ColorConvert.data mat))
    as (d' & Hloop & Hshape & _ & Hset); [lia|lia|done|done|].
  rewrite Hloop. simpl. exists d'. eauto.
Qed.

Lemma map_size_1_lookup_other {A : Type} (m : gmap string A)
    (k1 k2 : string) :
  size m = 1%nat -> is_Some (m !! k1) -> k1 <> k2 -> m !! k2 = None.
Proof.
  intros Hsize Hk1 Hne.
  rewrite <- (lookup_delete_ne m k1 k2) by done.
  apply (map_size_delete_Some k1) in Hk1. rewrite Hsize in Hk1. simpl in Hk1.
  apply map_size_empty_inv in Hk1. by rewrite Hk1.
Qed.

Section ConvertRgbToRgba.

Import ColorConvert.

Variable new_ImageFrame_buffer : ImageFormat -> Z -> Z -> list (list Z).
Variable cvtColor : Mat -> Mat -> ColorConversionCode -> list (list Z).

(** A new frame has [height] rows of at least [width * channels] bytes. *)
Hypothesis new_ImageFrame_buffer_shape :
  forall format width height,
    length (new_ImageFrame_buffer format width height) = Z.to_nat height
    /\ Forall (fun row =>
                 width * NumberOfChannels format <= Z.of_nat (length row))
         (new_ImageFrame_buffer format width height).

(** [cvtColor] writes into a destination of the right size and type
    without reallocating it. *)
Hypothesis cvtColor_shape :
  forall src dst code,
    map length (cvtColor src dst code) = map length (data dst).

Lemma ConvertAndOutput_rgba (cc : CalculatorContext) (img : ImageFrame)
    (stream : list OutputPacket) :
  cc_Inputs cc !! kRgbInTag = Some (Some img) ->
  cc_Outputs cc !! kRgbaOutTag = Some stream ->
  exists frame,
    ConvertAndOutput new_ImageFrame_buffer cvtColor kRgbInTag kRgbaOutTag
      SRGBA COLOR_RGB2RGBA cc
    = Some (OkStatus,
            MkContext (cc_Inputs cc)
              (<[kRgbaOutTag :=
                   (stream ++ [MkOutputPacket frame (cc_InputTimestamp cc)])
                     %list]> (cc_Outputs cc))
              (cc_InputTimestamp cc))
    /\ Format frame = SRGBA
    /\ Width frame = Width img
    /\ Height frame = Height img
    /\ alpha_is 255 frame.
Proof.
  intros Hin Hout.
  unfold ConvertAndOutput, InputsTagGet. rewrite Hin. simpl.
  destruct (new_ImageFrame_buffer_shape SRGBA (Width img) (Height img))
    as [Hrows Hrow].
  set (buffer := new_ImageFrame_buffer SRGBA (Width img) (Height img)) in *.
  set (converted := cvtColor _ _ _).
  assert (Hshape : map length converted = map length buffer)
    by apply cvtColor_shape.
  destruct (SetColorChannel_sets_channel 3 255
              (MkMat (Height img) (Width img) 4 CV_8U converted))
    as (d' & Hset & Hshape' & Halpha); simpl.
  - reflexivity.
  - lia.
  - rewrite <- (length_map length), Hshape, length_map. lia.
  - rewrite Forall_lookup in Hrow. apply Forall_lookup. intros i row Hi.
    assert (Hlen : map length converted !! i = Some (length row))
      by (by rewrite list_lookup_fmap, Hi).
    rewrite Hshape, list_lookup_fmap in Hlen.
    destruct (buffer !! i) as [row0|] eqn:Hrow0; [|done].
    simpl in Hlen. injection Hlen as <-. by eapply Hrow.
  - rewrite Hset. simpl. unfold OutputsTagAdd. rewrite Hout. simpl.
    eexists. split; [reflexivity|]. simpl.
    split; [done|]. split; [done|]. split; [done|].
    intros r Hr. simpl in *. by apply Halpha.
Qed.

End ConvertRgbToRgba.

Lemma packed_buffer_shape format width height :
  length (packed_buffer format width height) = Z.to_nat height
  /\ Forall (fun row =>
               width * ColorConvert.NumberOfChannels format
               <= Z.of_nat (length row))
       (packed_buffer format width height).
Proof.
  unfold packed_buffer. split; [apply length_replicate|].
  apply Forall_replicate. rewrite length_replicate. lia.
Qed.

Lemma imap_shape {A : Type} (f : nat -> list A -> list A) (l : list (list A)) :
  (forall i x, length (f i x) = length x) ->
  map length (imap f l) = map length l.
Proof.
  intros Hf. apply list_eq. intros i.
  rewrite !list_lookup_fmap, list_lookup_imap.
  destruct (l !! i); simpl; [|done]. by rewrite Hf.
Qed.

Lemma rgb_to_rgba_shape src dst code :
  map length (rgb_to_rgba src dst code) = map length (ColorConvert.data dst).
Proof.
  destruct code; try reflexivity.
  apply imap_shape. intros i x. apply length_imap.
Qed.

(** C9.  A [Process] call on a node with the input [RGB_IN] and the output
    [RGBA_OUT] returns ok; it adds one packet to [RGBA_OUT] and to no
    other stream; the packet carries the input timestamp and an SRGBA
    frame of the size of the input whose alpha is 255 at every pixel. *)
Theorem rgb_to_rgba_emits_one_opaque_frame
    (new_ImageFrame_buffer :
       ColorConvert.ImageFormat -> Z -> Z -> list (list Z))
    (cvtColor :
       ColorConvert.Mat -> ColorConvert.Mat ->
       ColorConvert.ColorConversionCode -> list (list Z))
    (cc : ColorConvert.CalculatorContext) (img : ColorConvert.ImageFrame) :
  (forall format width height,
     length (new_ImageFrame_buffer format width height) = Z.to_nat height
     /\ Forall (fun row =>
                  width * ColorConvert.NumberOfChannels format
                  <= Z.of_nat (length row))
          (new_ImageFrame_buffer format width height)) ->
  (forall src dst code,
     map length (cvtColor src dst code) = map length (ColorConvert.data dst)) ->
  ColorConvert.GetContract_accepts cc = true ->
  ColorConvert.cc_Inputs cc !! ColorConvert.kRgbInTag = Some (Some img) ->
  is_Some (ColorConvert.cc_Outputs cc !! ColorConvert.kRgbaOutTag) ->
  exists stream frame,
    ColorConvert.cc_Outputs cc !! ColorConvert.kRgbaOutTag = Some stream
    /\ ColorConvert.Process new_ImageFrame_buffer cvtColor cc
       = Some (OkStatus,
               ColorConvert.MkContext (ColorConvert.cc_Inputs cc)
                 (<[ColorConvert.kRgbaOutTag :=
                      (stream
                       ++ [ColorConvert.MkOutputPacket frame
                             (ColorConvert.cc_InputTimestamp cc)])%list]>
                    (ColorConvert.cc_Outputs cc))
                 (ColorConvert.cc_InputTimestamp cc))
    /\ ColorConvert.Format frame = ColorConvert.SRGBA
    /\ ColorConvert.Width frame = ColorConvert.Width img
    /\ ColorConvert.Height frame = ColorConvert.Height img
    /\ ColorConvert.alpha_is 255 frame.
Proof.
  intros Hbuffer Hcvt Hcontract Hin [stream Hout].
  apply andb_true_iff in Hcontract as [Hsize_in Hsize_out].
  apply bool_decide_eq_true_1 in Hsize_in, Hsize_out.
  destruct (ConvertAndOutput_rgba new_ImageFrame_buffer cvtColor Hbuffer Hcvt
              cc img stream Hin Hout)
    as (frame & Hconvert & Hframe).
  exists stream, frame. split; [exact Hout|]. split; [|exact Hframe].
  rewrite <- Hconvert. unfold ColorConvert.Process.
  assert (Hother_out : forall tag,
            ColorConvert.kRgbaOutTag <> tag ->
            ColorConvert.OutputsHasTag cc tag = false).
  { intros tag Hne. unfold ColorConvert.OutputsHasTag.
    rewrite (map_size_1_lookup_other _ ColorConvert.kRgbaOutTag tag)
      by eauto.
    apply bool_decide_eq_false_2. by intros [? ?]. }
  rewrite (Hother_out ColorConvert.kRgbOutTag) by done.
  rewrite (Hother_out ColorConvert.kGrayOutTag) by done.
  rewrite !andb_false_r.
  unfold ColorConvert.InputsHasTag, ColorConvert.OutputsHasTag.
  rewrite Hin, Hout, !bool_decide_eq_true_2 by eauto.
  reflexivity.
Qed.

Lemma rgb_to_rgba_emits_one_opaque_frame_witness :
  exists stream frame,
    ColorConvert.cc_Outputs rgb_to_rgba_context !! ColorConvert.kRgbaOutTag
    = Some stream
    /\ ColorConvert.Process packed_buffer rgb_to_rgba rgb_to_rgba_context
       = Some (OkStatus,
               ColorConvert.MkContext
                 (ColorConvert.cc_Inputs rgb_to_rgba_context)
                 (<[ColorConvert.kRgbaOutTag :=
                      (stream
                       ++ [ColorConvert.MkOutputPacket frame
                             (ColorConvert.cc_InputTimestamp
                                rgb_to_rgba_context)])%list]>
                    (ColorConvert.cc_Outputs rgb_to_rgba_context))
                 (ColorConvert.cc_InputTimestamp rgb_to_rgba_context))
    /\ ColorConvert.Format frame = ColorConvert.SRGBA
    /\ ColorConvert.Width frame = ColorConvert.Width two_pixels
    /\ ColorConvert.Height frame = ColorConvert.Height two_pixels
    /\ ColorConvert.alpha_is 255 frame.
Proof.
  apply (rgb_to_rgba_emits_one_opaque_frame packed_buffer rgb_to_rgba
           rgb_to_rgba_context two_pixels).
  - apply packed_buffer_shape.
  - apply rgb_to_rgba_shape.
  - vm_compute. reflexivity.
  - vm_compute. reflexivity.
  - vm_compute. eauto.
Defined.

Example rgb_to_rgba_two_pixels :
  ColorConvert.Process packed_buffer rgb_to_rgba rgb_to_rgba_context
  = Some (OkStatus,
          ColorConvert.MkContext {[ColorConvert.kRgbInTag := Some two_pixels]}
            {[ColorConvert.kRgbaOutTag :=
                [ColorConvert.MkOutputPacket
                   (ColorConvert.MkImageFrame ColorConvert.SRGBA 2 1
                      [[10; 20; 30; 255; 40; 50; 60; 255]])
                   42]]}
            42).
Proof. vm_compute. reflexivity. Qed.

Example SetColorChannel_checks_channel :
  ColorConvert.SetColorChannel 3 255
    (ColorConvert.MatView two_pixels) = None.
Proof. reflexivity. Qed.

(** ** The lifecycle of [android::Graph] *)

Section Lifecycle.

Import JniGraph.

Variable MEDIAPIPE_DISABLE_GPU : bool.
Variable respond : CalculatorGraph -> Call -> Status.

Lemma set_running_graph_same (g : Graph) :
  set_running_graph_ (running_graph_ g) g = g.
Proof. by destruct g. Qed.

Lemma run_op_not_running (op : LifecycleOp) (g : Graph) :
  running_graph_ g = None ->
  run_op respond op g = (FailedPreconditionError "Graph must be running.", g).
Proof.
  intros Hnone.
  destruct op; simpl;
    unfold AddPacketToInputStream, CloseInputStream, CloseAllInputStreams,
      CloseAllPacketSources, WaitUntilIdle, WaitUntilDone, on_running_graph;
    by rewrite Hnone.
Qed.

Lemma WaitUntilDone_stops (g : Graph) :
  running_graph_ (WaitUntilDone respond g).2 = None.
Proof.
  unfold WaitUntilDone.
  destruct (running_graph_ g) as [cg|] eqn:Hr; simpl; [reflexivity|done].
Qed.

(** The calls [SetServicePackets] adds are [SetServicePacket] calls. *)
Lemma SetServicePackets_calls l cg :
  exists added,
    calls (SetServicePackets respond l cg).2 = (calls cg ++ added)%list
    /\ Forall (fun c => exists s p, c = CallSetServicePacket s p) added.
Proof.
  revert cg. induction l as [|[service packet] l IH]; intros cg; simpl.
  - exists []. by rewrite app_nil_r.
  - destruct (ok (respond cg (CallSetServicePacket service packet))); simpl.
    + destruct (IH (record_call (CallSetServicePacket service packet) cg))
        as (added & Hcalls & Hall).
      exists (CallSetServicePacket service packet :: added).
      split; [|constructor; eauto].
      rewrite Hcalls. simpl. by rewrite <- app_assoc.
    + exists [CallSetServicePacket service packet].
      split; [reflexivity|]. constructor; eauto.
Qed.

(** The shape of every result of [StartRunningGraph] on a graph that is
    not running. *)
Lemma StartRunningGraph_cases (env : JNIEnv) (g : Graph) :
  running_graph_ g = None ->
  let g1 := SetPacketJavaClass env g in
  (ok (StartRunningGraph MEDIAPIPE_DISABLE_GPU respond env g).1 = false
   /\ (StartRunningGraph MEDIAPIPE_DISABLE_GPU respond env g).2 = g1)
  \/ (exists cg0,
        StartRunningGraph MEDIAPIPE_DISABLE_GPU respond env g =
          (OkStatus,
           set_running_graph_
             (Some (record_call
                      (CallStartRun (CreateCombinedSidePackets g1)
                         (stream_headers_ g1)) cg0)) g1)
        /\ ok (respond cg0
                 (CallStartRun (CreateCombinedSidePackets g1)
                    (stream_headers_ g1))) = true
        /\ exists rest,
             calls cg0 =
               CallSetGraphInputStreamAddMode (graph_input_stream_add_mode_ g)
               :: rest
             /\ Forall
                  (fun c =>
                     forall m, c <> CallSetGraphInputStreamAddMode m) rest).
Proof.
  intros Hnone g1.
  assert (Hnone1 : running_graph_ g1 = None).
  { unfold g1, SetPacketJavaClass.
    by destruct (global_java_packet_cls_ g). }
  assert (Hmode : graph_input_stream_add_mode_ g1
                  = graph_input_stream_add_mode_ g).
  { unfold g1, SetPacketJavaClass.
    by destruct (global_java_packet_cls_ g). }
  assert (Hreset : set_running_graph_ None g1 = g1).
  { rewrite <- Hnone1. apply set_running_graph_same. }
  unfold JniGraph.StartRunningGraph.
  rewrite Hnone, bool_decide_eq_false_2 by (by intros [? ?]).
  fold g1. rewrite Hreset, Hmode.
  set (cg1 := record_call _ new_CalculatorGraph).
  set (gpu := if MEDIAPIPE_DISABLE_GPU then _ else _).
  assert (Hgpu : exists added,
             calls gpu.2 = (calls cg1 ++ added)%list
             /\ Forall (fun c => forall m,
                          c <> CallSetGraphInputStreamAddMode m) added).
  { unfold gpu. destruct MEDIAPIPE_DISABLE_GPU; simpl.
    - exists []. by rewrite ?app_nil_r.
    - eexists [_]. split; [reflexivity|]. by constructor. }
  destruct gpu as [st_gpu cg2]. simpl in Hgpu.
  destruct (ok st_gpu) eqn:Hok_gpu; simpl; [|left; by rewrite Hok_gpu].
  pose proof (SetServicePackets_calls (service_packets_ g1) cg2) as Hsvc.
  destruct (SetServicePackets respond (service_packets_ g1) cg2)
    as [st_svc cg3]. simpl in Hsvc.
  destruct (ok st_svc) eqn:Hok_svc; simpl; [|left; by rewrite Hok_svc].
  unfold call.
  destruct (ok (respond cg3 (CallInitialize (graph_ g1)))) eqn:Hok_init;
    simpl; [|left; by rewrite Hok_init].
  set (cg4 := record_call (CallInitialize (graph_ g1)) cg3).
  destruct (ok (respond cg4 _)) eqn:Hok_run; simpl;
    [|left; by rewrite Hok_run].
  right. exists cg4. split; [reflexivity|]. split; [exact Hok_run|].
  destruct Hgpu as (added_gpu & Hcalls2 & Hall2).
  destruct Hsvc as (added_svc & Hcalls3 & Hall3).
  exists (added_gpu ++ added_svc ++ [CallInitialize (graph_ g1)])%list.
  split.
  - unfold cg4. simpl. rewrite Hcalls3, Hcalls2. unfold cg1. simpl.
    by rewrite <- !app_assoc.
  - rewrite !Forall_app. repeat split; [exact Hall2| |by constructor].
    eapply Forall_impl; [exact Hall3|].
    intros c (s & p & ->) m. discriminate.
Qed.

End Lifecycle.

(** C2.  Without a running graph (never started, or waited for until done)
    each of [AddPacketToInputStream], [CloseInputStream],
    [CloseAllInputStreams], [CloseAllPacketSources], [WaitUntilIdle] and
    [WaitUntilDone] returns [FailedPrecondition] and leaves the [Graph] as
    it was. *)
Theorem lifecycle_op_needs_running_graph
    (respond : CalculatorGraph -> Call -> Status)
    (op : JniGraph.LifecycleOp) (g : JniGraph.Graph) :
  JniGraph.running_graph_ g = None ->
  JniGraph.run_op respond op g
  = (FailedPreconditionError "Graph must be running.", g)
  /\ code (JniGraph.run_op respond op g).1 = kFailedPrecondition
  /\ (JniGraph.run_op respond op g).2 = g.
Proof.
  intros Hnone. rewrite (run_op_not_running respond op g Hnone). done.
Qed.

Lemma never_started_not_running (mode : GraphInputStreamAddMode) :
  JniGraph.running_graph_ (JniGraph.new_Graph mode) = None.
Proof. reflexivity. Qed.

(** After a run that was started and waited for, the graph is closed to
    further packets. *)
Lemma lifecycle_op_needs_running_graph_witness :
  let started :=
    (JniGraph.StartRunningGraph false always_ok some_env
       (JniGraph.new_Graph WAIT_TILL_NOT_FULL)).2 in
  let done := (JniGraph.WaitUntilDone always_ok started).2 in
  JniGraph.run_op always_ok
    (JniGraph.OpAddPacketToInputStream "input_video" some_packet) done
  = (FailedPreconditionError "Graph must be running.", done)
  /\ code (JniGraph.run_op always_ok
             (JniGraph.OpAddPacketToInputStream "input_video" some_packet)
             done).1 = kFailedPrecondition
  /\ (JniGraph.run_op always_ok
        (JniGraph.OpAddPacketToInputStream "input_video" some_packet)
        done).2 = done.
Proof.
  intros started done.
  apply (lifecycle_op_needs_running_graph always_ok
           (JniGraph.OpAddPacketToInputStream "input_video" some_packet) done).
  apply WaitUntilDone_stops.
Defined.

Example add_packet_before_start :
  code (JniGraph.AddPacketToInputStream always_ok "input_video" some_packet
          (JniGraph.new_Graph WAIT_TILL_NOT_FULL)).1
  = kFailedPrecondition.
Proof. reflexivity. Qed.

Example add_packet_while_running :
  let started :=
    (JniGraph.StartRunningGraph false always_ok some_env
       (JniGraph.new_Graph WAIT_TILL_NOT_FULL)).2 in
  (JniGraph.AddPacketToInputStream always_ok "input_video" some_packet
     started).1 = OkStatus.
Proof. reflexivity. Qed.

(** C3.  [StartRunningGraph] on a running graph returns an error and
    changes nothing.  On a graph that is not running, a failure leaves it
    not running (the only member written is the cached Java packet class),
    so that [AddPacketToInputStream] then fails with [FailedPrecondition];
    and when the call returns ok, [running_graph_] holds a calculator graph
    whose last call is a [StartRun] that returned ok. *)
Theorem StartRunningGraph_lifecycle
    (MEDIAPIPE_DISABLE_GPU : bool)
    (respond : CalculatorGraph -> Call -> Status)
    (env : JniGraph.JNIEnv) (g : JniGraph.Graph) :
  let result :=
    JniGraph.StartRunningGraph MEDIAPIPE_DISABLE_GPU respond env g in
  (is_Some (JniGraph.running_graph_ g) ->
   result = (InternalError "Graph is already running.", g))
  /\ (JniGraph.running_graph_ g = None -> ok result.1 = false ->
      result.2 = JniGraph.SetPacketJavaClass env g
      /\ JniGraph.running_graph_ result.2 = None
      /\ forall stream_name packet,
           JniGraph.AddPacketToInputStream respond stream_name packet result.2
           = (FailedPreconditionError "Graph must be running.", result.2))
  /\ (ok result.1 = true ->
      exists cg0 side_packets headers,
        JniGraph.running_graph_ result.2
        = Some (record_call (CallStartRun side_packets headers) cg0)
        /\ ok (respond cg0 (CallStartRun side_packets headers)) = true).
Proof.
  intros result.
  assert (Hpreserved : JniGraph.running_graph_ g = None ->
            JniGraph.running_graph_ (JniGraph.SetPacketJavaClass env g) = None).
  { intros Hnone. unfold JniGraph.SetPacketJavaClass.
    by destruct (JniGraph.global_java_packet_cls_ g). }
  split; [|split].
  - intros Hsome. unfold result, JniGraph.StartRunningGraph.
    by rewrite bool_decide_eq_true_2.
  - intros Hnone Hfail.
    destruct (StartRunningGraph_cases MEDIAPIPE_DISABLE_GPU respond env g Hnone)
      as [[_ Hg]|(cg0 & Heq & _)].
    + fold result in Hg. rewrite Hg. split; [done|]. split; [by auto|].
      intros stream_name packet.
      unfold JniGraph.AddPacketToInputStream, JniGraph.on_running_graph.
      by rewrite Hpreserved.
    + fold result in Heq. rewrite Heq in Hfail. discriminate.
  - intros Hok.
    destruct (JniGraph.running_graph_ g) as [cg|] eqn:Hr.
    + unfold result, JniGraph.StartRunningGraph in Hok.
      rewrite Hr, bool_decide_eq_true_2 in Hok by eauto. discriminate.
    + destruct (StartRunningGraph_cases MEDIAPIPE_DISABLE_GPU respond env g Hr)
        as [[Hfail _]|(cg0 & Heq & Hrun & _)].
      * fold result in Hfail. congruence.
      * fold result in Heq. rewrite Heq. eauto.
Qed.

(** A start whose [Initialize] fails: the graph is not running afterwards
    and refuses packets. *)
Lemma StartRunningGraph_lifecycle_witness :
  let result :=
    JniGraph.StartRunningGraph false refuse_Initialize some_env
      (JniGraph.new_Graph WAIT_TILL_NOT_FULL) in
  code result.1 = kInvalidArgument
  /\ JniGraph.running_graph_ result.2 = None
  /\ JniGraph.AddPacketToInputStream refuse_Initialize "input_video"
       some_packet result.2
     = (FailedPreconditionError "Graph must be running.", result.2).
Proof.
  intros result.
  destruct (StartRunningGraph_lifecycle false refuse_Initialize some_env
              (JniGraph.new_Graph WAIT_TILL_NOT_FULL))
    as (_ & Hfail & _).
  destruct (Hfail eq_refl eq_refl) as (_ & Hnone & Hadd).
  split; [reflexivity|]. split; [exact Hnone|]. apply Hadd.
Defined.

Example start_twice :
  let started :=
    (JniGraph.StartRunningGraph false always_ok some_env
       (JniGraph.new_Graph WAIT_TILL_NOT_FULL)).2 in
  JniGraph.StartRunningGraph false always_ok some_env started
  = (InternalError "Graph is already running.", started).
Proof. reflexivity. Qed.

Example start_calls :
  JniGraph.running_graph_
    (JniGraph.StartRunningGraph false always_ok some_env
       (JniGraph.new_Graph ADD_IF_NOT_FULL)).2
  = Some (MkCalculatorGraph
            [CallSetGraphInputStreamAddMode ADD_IF_NOT_FULL;
             CallSetGpuResources None;
             CallInitialize empty_CalculatorGraphConfig;
             CallStartRun ∅ ∅] false).
Proof. vm_compute. reflexivity. Qed.

(** ** The add mode of graph input streams *)

(** C4.  [nativeSetGraphInputStreamBlockingMode] stores
    [WAIT_TILL_NOT_FULL] for a true [jboolean] and [ADD_IF_NOT_FULL] for
    false, writing no other member; and the mode a [Graph] stores is the
    one [StartRunningGraph] sets on the calculator graph it starts: the
    first call that graph receives, and the only one that sets the mode. *)
Theorem add_mode_is_applied_at_start
    (MEDIAPIPE_DISABLE_GPU : bool)
    (respond : CalculatorGraph -> Call -> Status)
    (env : JniGraph.JNIEnv) (g : JniGraph.Graph) :
  (forall mode : Z,
     JniGraph.nativeSetGraphInputStreamBlockingMode mode g
     = JniGraph.set_graph_input_stream_add_mode_
         (if mode =? 0 then ADD_IF_NOT_FULL else WAIT_TILL_NOT_FULL) g)
  /\ (forall mode : GraphInputStreamAddMode,
        JniGraph.graph_input_stream_add_mode_
          (JniGraph.SetGraphInputStreamAddMode mode g) = mode)
  /\ (ok (JniGraph.StartRunningGraph MEDIAPIPE_DISABLE_GPU respond env g).1
      = true ->
      exists cg rest,
        JniGraph.running_graph_
          (JniGraph.StartRunningGraph MEDIAPIPE_DISABLE_GPU respond env g).2
        = Some cg
        /\ calls cg
           = CallSetGraphInputStreamAddMode
               (JniGraph.graph_input_stream_add_mode_ g) :: rest
        /\ Forall (fun c => forall m, c <> CallSetGraphInputStreamAddMode m)
             rest).
Proof.
  split; [|split].
  - intros mode. unfold JniGraph.nativeSetGraphInputStreamBlockingMode.
    by destruct (mode =? 0).
  - reflexivity.
  - intros Hok.
    destruct (JniGraph.running_graph_ g) as [cg|] eqn:Hr.
    + unfold JniGraph.StartRunningGraph in Hok.
      rewrite Hr, bool_decide_eq_true_2 in Hok by eauto. discriminate.
    + destruct (StartRunningGraph_cases MEDIAPIPE_DISABLE_GPU respond env g Hr)
        as [[Hfail _]|(cg0 & Heq & _ & rest & Hcalls & Hall)];
        [congruence|].
      rewrite Heq. simpl.
      eexists _, (rest ++ [_])%list. split; [reflexivity|].
      simpl. rewrite Hcalls. split; [reflexivity|].
      rewrite Forall_app. split; [exact Hall|]. by constructor.
Qed.

(** Java sets blocking mode to false, then starts the graph. *)
Lemma add_mode_is_applied_at_start_witness :
  let g :=
    JniGraph.nativeSetGraphInputStreamBlockingMode 0
      (JniGraph.new_Graph WAIT_TILL_NOT_FULL) in
  exists cg rest,
    JniGraph.running_graph_
      (JniGraph.StartRunningGraph false always_ok some_env g).2 = Some cg
    /\ calls cg = CallSetGraphInputStreamAddMode ADD_IF_NOT_FULL :: rest
    /\ Forall (fun c => forall m, c <> CallSetGraphInputStreamAddMode m) rest.
Proof.
  intros g.
  destruct (add_mode_is_applied_at_start false always_ok some_env g)
    as (_ & _ & Hstart).
  exact (Hstart eq_refl).
Defined.

Example blocking_mode_true :
  JniGraph.graph_input_stream_add_mode_
    (JniGraph.nativeSetGraphInputStreamBlockingMode 1
       (JniGraph.new_Graph ADD_IF_NOT_FULL))
  = WAIT_TILL_NOT_FULL.
Proof. reflexivity. Qed.

Example blocking_mode_false :
  JniGraph.graph_input_stream_add_mode_
    (JniGraph.nativeSetGraphInputStreamBlockingMode 0
       (JniGraph.new_Graph WAIT_TILL_NOT_FULL))
  = ADD_IF_NOT_FULL.
Proof. reflexivity. Qed.

(** ** Cancelling *)

(** C6.  [CancelGraph] twice is [CancelGraph] once, and without a running
    graph it changes nothing. *)
Theorem CancelGraph_idempotent (g : JniGraph.Graph) :
  JniGraph.CancelGraph (JniGraph.CancelGraph g) = JniGraph.CancelGraph g
  /\ (JniGraph.running_graph_ g = None -> JniGraph.CancelGraph g = g).
Proof.
  unfold JniGraph.CancelGraph. split.
  - destruct (JniGraph.running_graph_ g) as [cg|] eqn:Hr; simpl.
    + reflexivity.
    + by rewrite Hr.
  - by intros ->.
Qed.

Lemma CancelGraph_idempotent_witness :
  let started :=
    (JniGraph.StartRunningGraph false always_ok some_env
       (JniGraph.new_Graph WAIT_TILL_NOT_FULL)).2 in
  JniGraph.CancelGraph (JniGraph.CancelGraph started)
  = JniGraph.CancelGraph started
  /\ JniGraph.CancelGraph (JniGraph.new_Graph WAIT_TILL_NOT_FULL)
     = JniGraph.new_Graph WAIT_TILL_NOT_FULL.
Proof.
  intros started. split.
  - exact (proj1 (CancelGraph_idempotent started)).
  - exact (proj2 (CancelGraph_idempotent
                    (JniGraph.new_Graph WAIT_TILL_NOT_FULL)) eq_refl).
Defined.

Example cancel_sets_flag :
  let started :=
    (JniGraph.StartRunningGraph false always_ok some_env
       (JniGraph.new_Graph WAIT_TILL_NOT_FULL)).2 in
  cancelled <$> JniGraph.running_graph_ started = Some false
  /\ cancelled <$> JniGraph.running_graph_ (JniGraph.CancelGraph started)
     = Some true.
Proof. split; reflexivity. Qed.

(** ** Packet handles *)

Lemma fresh_address_is_fresh (g : JniGraph.Graph) :
  JniGraph.all_packets_ g !! fresh_address g = None.
Proof.
  apply (not_elem_of_dom (D := gset Z)). unfold fresh_address.
  apply is_fresh.
Qed.

Section PacketHandles.

Import JniGraph.

Variable new_PacketWithContext : Graph -> Z.

(** [new] returns an address that no live object has; the wrappers the
    map owns are live. *)
Hypothesis new_is_fresh :
  forall g, all_packets_ g !! new_PacketWithContext g = None.

Lemma set_all_packets_same (g : Graph) :
  set_all_packets_ (all_packets_ g) g = g.
Proof. by destruct g. Qed.

Lemma set_all_packets_twice m1 m2 (g : Graph) :
  set_all_packets_ m2 (set_all_packets_ m1 g) = set_all_packets_ m2 g.
Proof. reflexivity. Qed.

Lemma RemovePacket_live (h : Z) (g : Graph) :
  is_Some (all_packets_ g !! h) ->
  RemovePacket h g
  = Some (true, set_all_packets_ (delete h (all_packets_ g)) g).
Proof.
  intros [pwc Hpwc]. unfold RemovePacket. by rewrite Hpwc.
Qed.

Lemma Wrap_then_Remove (p : Packet) (g : Graph) :
  let wrapped := WrapPacketIntoContext new_PacketWithContext p g in
  GetPacketFromHandle wrapped.1 wrapped.2 = Some p
  /\ RemovePacket wrapped.1 wrapped.2 = Some (true, g).
Proof.
  simpl. split.
  - unfold GetPacketFromHandle. simpl. by rewrite lookup_insert_eq.
  - rewrite RemovePacket_live by (simpl; rewrite lookup_insert_eq; eauto).
    cbn [WrapPacketIntoContext fst snd].
    rewrite set_all_packets_twice.
    cbn [all_packets_ set_all_packets_].
    rewrite delete_insert_id by apply new_is_fresh.
    by rewrite set_all_packets_same.
Qed.

Lemma CallbackToJava_releases (cb : Z -> Graph -> Graph) (p : Packet)
    (g : Graph) :
  let wrapped := WrapPacketIntoContext new_PacketWithContext p g in
  is_Some (all_packets_ (cb wrapped.1 wrapped.2) !! wrapped.1) ->
  exists g',
    CallbackToJava new_PacketWithContext cb p g = Some g'
    /\ all_packets_ g'
       = delete wrapped.1 (all_packets_ (cb wrapped.1 wrapped.2))
    /\ all_packets_ g' !! wrapped.1 = None.
Proof.
  simpl. intros Hlive. unfold CallbackToJava. simpl.
  rewrite (RemovePacket_live _ _ Hlive). simpl.
  eexists. split; [reflexivity|]. simpl.
  split; [reflexivity|]. apply lookup_delete_eq.
Qed.

Lemma CallbackToJava_no_leak (cb : Z -> Graph -> Graph) (p : Packet)
    (g : Graph) :
  (forall h g0, all_packets_ (cb h g0) = all_packets_ g0) ->
  exists g',
    CallbackToJava new_PacketWithContext cb p g = Some g'
    /\ all_packets_ g' = all_packets_ g.
Proof.
  intros Hcb.
  destruct (CallbackToJava_releases cb p g) as (g' & Hrun & Hmap & _).
  { simpl. rewrite Hcb. simpl. rewrite lookup_insert_eq. eauto. }
  exists g'. split; [exact Hrun|].
  rewrite Hmap. simpl. rewrite Hcb. simpl.
  apply delete_insert_id, new_is_fresh.
Qed.

Lemma CallbackToJava_header_no_leak (cb : Z -> Z -> Graph -> Graph)
    (p header : Packet) (g : Graph) :
  (forall h1 h2 g0, all_packets_ (cb h1 h2 g0) = all_packets_ g0) ->
  exists g',
    CallbackToJava_header new_PacketWithContext cb p header g = Some g'
    /\ all_packets_ g' = all_packets_ g.
Proof.
  intros Hcb. unfold CallbackToJava_header. simpl.
  set (h1 := new_PacketWithContext g).
  set (g1 := set_all_packets_ (<[h1 := _]> (all_packets_ g)) g).
  set (h2 := new_PacketWithContext g1).
  set (g2 := set_all_packets_ _ g1).
  assert (Hne : h1 <> h2).
  { intros Heq. pose proof (new_is_fresh g1) as Hfresh.
    fold h2 in Hfresh. rewrite <- Heq in Hfresh.
    unfold g1 in Hfresh. simpl in Hfresh.
    by rewrite lookup_insert_eq in Hfresh. }
  assert (Hfresh2 : all_packets_ g !! h2 = None).
  { pose proof (new_is_fresh g1) as Hfresh. fold h2 in Hfresh.
    unfold g1 in Hfresh. simpl in Hfresh.
    by rewrite lookup_insert_ne in Hfresh. }
  set (g3 := cb h1 h2 g2).
  assert (Hmap3 : all_packets_ g3
                  = <[h2 := MkPacketWithContext header]>
                      (<[h1 := MkPacketWithContext p]> (all_packets_ g))).
  { unfold g3. by rewrite Hcb. }
  rewrite RemovePacket_live
    by (rewrite Hmap3, lookup_insert_ne, lookup_insert_eq; eauto).
  simpl.
  rewrite RemovePacket_live
    by (simpl; rewrite Hmap3, lookup_delete_ne, lookup_insert_eq; eauto).
  simpl. eexists. split; [reflexivity|]. simpl.
  rewrite Hmap3.
  rewrite delete_insert_ne by done.
  rewrite delete_insert_eq.
  rewrite (delete_insert_id _ h1) by apply new_is_fresh.
  by apply delete_id.
Qed.

End PacketHandles.

(** C5.  A handle made by [WrapPacketIntoContext] and then given to
    [RemovePacket] is removed ([true]) and the graph, its map of packet
    references included, is as before.  [CallbackToJava] removes the
    handles it makes once the Java callback has returned: after it the
    handle is not in the map, and when the callback leaves the map alone
    the map is the one from before the delivery. *)
Theorem packet_handles_are_released
    (new_PacketWithContext : JniGraph.Graph -> Z) :
  (forall g,
     JniGraph.all_packets_ g !! new_PacketWithContext g = None) ->
  (forall (p : Packet) (g : JniGraph.Graph),
     let wrapped :=
       JniGraph.WrapPacketIntoContext new_PacketWithContext p g in
     JniGraph.RemovePacket wrapped.1 wrapped.2 = Some (true, g))
  /\ (forall (cb : Z -> JniGraph.Graph -> JniGraph.Graph) (p : Packet)
             (g : JniGraph.Graph),
        let wrapped :=
          JniGraph.WrapPacketIntoContext new_PacketWithContext p g in
        is_Some (JniGraph.all_packets_ (cb wrapped.1 wrapped.2) !! wrapped.1) ->
        exists g',
          JniGraph.CallbackToJava new_PacketWithContext cb p g = Some g'
          /\ JniGraph.all_packets_ g'
             = delete wrapped.1
                 (JniGraph.all_packets_ (cb wrapped.1 wrapped.2))
          /\ JniGraph.all_packets_ g' !! wrapped.1 = None)
  /\ (forall (cb : Z -> JniGraph.Graph -> JniGraph.Graph) (p : Packet)
             (g : JniGraph.Graph),
        (forall h g0,
           JniGraph.all_packets_ (cb h g0) = JniGraph.all_packets_ g0) ->
        exists g',
          JniGraph.CallbackToJava new_PacketWithContext cb p g = Some g'
          /\ JniGraph.all_packets_ g' = JniGraph.all_packets_ g)
  /\ (forall (cb : Z -> Z -> JniGraph.Graph -> JniGraph.Graph)
             (p header : Packet) (g : JniGraph.Graph),
        (forall h1 h2 g0,
           JniGraph.all_packets_ (cb h1 h2 g0) = JniGraph.all_packets_ g0) ->
        exists g',
          JniGraph.CallbackToJava_header new_PacketWithContext cb p header g
          = Some g'
          /\ JniGraph.all_packets_ g' = JniGraph.all_packets_ g).
Proof.
  intros Hfresh. repeat apply conj.
  - intros p g. apply (Wrap_then_Remove new_PacketWithContext Hfresh p g).
  - intros cb p g. apply (CallbackToJava_releases new_PacketWithContext).
  - intros cb p g. by apply CallbackToJava_no_leak.
  - intros cb p header g. by apply CallbackToJava_header_no_leak.
Qed.

Lemma packet_handles_are_released_witness :
  (let wrapped :=
     JniGraph.WrapPacketIntoContext fresh_address some_packet
       (JniGraph.new_Graph WAIT_TILL_NOT_FULL) in
   JniGraph.RemovePacket wrapped.1 wrapped.2
   = Some (true, JniGraph.new_Graph WAIT_TILL_NOT_FULL))
  /\ exists g',
       JniGraph.CallbackToJava fresh_address quiet_callback some_packet
         (JniGraph.new_Graph WAIT_TILL_NOT_FULL) = Some g'
       /\ JniGraph.all_packets_ g' = ∅.
Proof.
  destruct (packet_handles_are_released fresh_address fresh_address_is_fresh)
    as (Hwrap & _ & Hquiet & _).
  split.
  - apply Hwrap.
  - apply (Hquiet quiet_callback some_packet
             (JniGraph.new_Graph WAIT_TILL_NOT_FULL)).
    reflexivity.
Defined.

(** What a callback wraps itself stays until Java releases it: delivery
    removes only the handle it made. *)
Example copying_callback_keeps_its_copy :
  exists g',
    JniGraph.CallbackToJava fresh_address copying_callback some_packet
      (JniGraph.new_Graph WAIT_TILL_NOT_FULL) = Some g'
    /\ size (JniGraph.all_packets_ g') = 1%nat.
Proof. eexists. split; [vm_compute; reflexivity|]. vm_compute. reflexivity. Qed.

(** ** Loading a graph configuration *)

(** C1 (as amended).  [LoadBinaryGraph] reads and parses, and nothing else:
    it returns the status of the read when the file cannot be read,
    [InvalidArgument] when the bytes do not parse, and ok otherwise,
    whatever the configuration describes.  A failure leaves
    [graph_loaded_] as it was, and a success sets it. *)
Theorem LoadBinaryGraph_only_parses
    (GetContents : string -> Status * string)
    (ParseFromString :
       CalculatorGraphConfig -> string -> bool * CalculatorGraphConfig)
    (g : JniGraph.Graph) :
  (forall data : string,
     let parse := ParseFromString (JniGraph.graph_ g) data in
     let result := JniGraph.LoadBinaryGraph_data ParseFromString data g in
     (parse.1 = true ->
      result
      = (OkStatus,
         JniGraph.set_graph_loaded_ true (JniGraph.set_graph_ parse.2 g)))
     /\ (parse.1 = false ->
         result
         = (InvalidArgumentError "Failed to parse the graph",
            JniGraph.set_graph_ parse.2 g)
         /\ JniGraph.graph_loaded_ result.2 = JniGraph.graph_loaded_ g))
  /\ (forall path : string,
        let read := GetContents path in
        let parse := ParseFromString (JniGraph.graph_ g) read.2 in
        let result :=
          JniGraph.LoadBinaryGraph GetContents ParseFromString path g in
        (ok read.1 = false -> result = (read.1, g))
        /\ (ok read.1 = true -> parse.1 = true ->
            result
            = (OkStatus,
               JniGraph.set_graph_loaded_ true
                 (JniGraph.set_graph_ parse.2 g)))
        /\ (ok read.1 = true -> parse.1 = false ->
            result
            = (InvalidArgumentError ("Failed to parse the graph: " ++ path),
               JniGraph.set_graph_ parse.2 g)
            /\ JniGraph.graph_loaded_ result.2 = JniGraph.graph_loaded_ g)).
Proof.
  split.
  - intros data parse result. unfold result, JniGraph.LoadBinaryGraph_data.
    fold parse. destruct parse as [parsed config]. simpl.
    split; intros ->; done.
  - intros path read parse result.
    unfold result, JniGraph.LoadBinaryGraph. unfold parse. fold read.
    destruct read as [status contents]. simpl.
    destruct (ParseFromString (JniGraph.graph_ g) contents)
      as [parsed config]. simpl.
    split; [|split].
    + by intros ->.
    + by intros -> ->.
    + by intros -> ->.
Qed.

(** A parsable well-formed graph loads; bytes that do not parse are
    refused and the graph stays not loaded. *)
Lemma LoadBinaryGraph_only_parses_witness :
  JniGraph.LoadBinaryGraph (one_file "graph.binarypb" "bytes")
    (parses_as "bytes" pass_through_config) "graph.binarypb"
    (JniGraph.new_Graph WAIT_TILL_NOT_FULL)
  = (OkStatus,
     JniGraph.set_graph_loaded_ true
       (JniGraph.set_graph_ pass_through_config
          (JniGraph.new_Graph WAIT_TILL_NOT_FULL)))
  /\ JniGraph.graph_loaded_
       (JniGraph.LoadBinaryGraph_data (parses_as "bytes" pass_through_config)
          "garbage" (JniGraph.new_Graph WAIT_TILL_NOT_FULL)).2
     = false.
Proof.
  destruct (LoadBinaryGraph_only_parses (one_file "graph.binarypb" "bytes")
              (parses_as "bytes" pass_through_config)
              (JniGraph.new_Graph WAIT_TILL_NOT_FULL))
    as [Hdata Hpath].
  split.
  - destruct (Hpath "graph.binarypb") as (_ & Hok & _).
    exact (Hok eq_refl eq_refl).
  - destruct (Hdata "garbage") as (_ & Hfail).
    destruct (Hfail eq_refl) as [_ Hloaded].
    exact Hloaded.
Defined.

(** The claim as the design document states it fails: a configuration
    whose only node feeds itself is cyclic, yet loading its bytes returns
    ok and marks the graph loaded; and after a successful load, a load of
    bytes that do not parse fails while the graph remains marked loaded,
    with the previous configuration gone. *)
Lemma LoadBinaryGraph_accepts_malformed :
  Topology.cyclic self_loop_config = true
  /\ Topology.malformed ["PassThroughCalculator"] self_loop_config = true
  /\ JniGraph.LoadBinaryGraph_data (parses_as "bytes" self_loop_config)
       "bytes" (JniGraph.new_Graph WAIT_TILL_NOT_FULL)
     = (OkStatus,
        JniGraph.set_graph_loaded_ true
          (JniGraph.set_graph_ self_loop_config
             (JniGraph.new_Graph WAIT_TILL_NOT_FULL)))
  /\ (let loaded :=
        (JniGraph.LoadBinaryGraph_data (parses_as "bytes" pass_through_config)
           "bytes" (JniGraph.new_Graph WAIT_TILL_NOT_FULL)).2 in
      let result :=
        JniGraph.LoadBinaryGraph_data (parses_as "bytes" pass_through_config)
          "garbage" loaded in
      code result.1 = kInvalidArgument
      /\ JniGraph.graph_loaded_ result.2 = true
      /\ JniGraph.graph_ result.2 = empty_CalculatorGraphConfig).
Proof. vm_compute. repeat split. Qed.

Example pass_through_is_well_formed :
  Topology.malformed ["PassThroughCalculator"] pass_through_config = false.
Proof. vm_compute. reflexivity. Qed.

(** A malformed configuration that loaded is refused when the graph is
    started, by [Initialize]; the graph is then not running. *)
Example malformed_graph_fails_at_start :
  let loaded :=
    (JniGraph.LoadBinaryGraph_data (parses_as "bytes" self_loop_config)
       "bytes" (JniGraph.new_Graph WAIT_TILL_NOT_FULL)).2 in
  let result :=
    JniGraph.StartRunningGraph false refuse_Initialize some_env loaded in
  code result.1 = kInvalidArgument
  /\ JniGraph.running_graph_ result.2 = None.
Proof. vm_compute. split; reflexivity. Qed.

(* ===================================================================== *)
(** * Further properties *)
(* ===================================================================== *)

(** ** RoundUp, continued *)

(** X1.  For [size >= 0] and [multiple >= 1] in range, the blocks
    [RoundUp] counts cover [size] with less than one block to spare, and
    an exact multiple gets exactly its quotient. *)
Theorem RoundUp_covers_tightly (size multiple : Z) :
  0 <= size -> 1 <= multiple -> size + multiple <= CInt.INT_MAX ->
  exists n : Z,
    TfLiteSegmentation.RoundUp size multiple = Some n
    /\ 0 <= n
    /\ size <= n * multiple < size + multiple
    /\ (size `mod` multiple = 0 -> n * multiple = size).
Proof.
  intros Hs Hm Hmax.
  exists ((size + multiple - 1) `div` multiple).
  split; [by apply RoundUp_exact|].
  pose proof (Z.div_mod (size + multiple - 1) multiple ltac:(lia)) as Hdm.
  pose proof (Z.mod_pos_bound (size + multiple - 1) multiple ltac:(lia)) as Hb.
  set (q := (size + multiple - 1) `div` multiple) in *.
  set (r := (size + multiple - 1) `mod` multiple) in *.
  split; [nia|]. split; [nia|].
  intros Hmod.
  pose proof (Z.div_mod size multiple ltac:(lia)) as Hdm'.
  rewrite Hmod in Hdm'.
  set (q' := size `div` multiple) in *.
  assert (q = q') by nia. nia.
Qed.

Lemma RoundUp_covers_tightly_witness :
  exists n : Z,
    TfLiteSegmentation.RoundUp 513 TfLiteSegmentation.kWorkgroupSize = Some n
    /\ 0 <= n
    /\ 513 <= n * TfLiteSegmentation.kWorkgroupSize
       < 513 + TfLiteSegmentation.kWorkgroupSize
    /\ (513 `mod` TfLiteSegmentation.kWorkgroupSize = 0 ->
        n * TfLiteSegmentation.kWorkgroupSize = 513).
Proof.
  apply (RoundUp_covers_tightly 513 TfLiteSegmentation.kWorkgroupSize);
    vm_compute; congruence.
Defined.

(** X2.  Outside its intended range [RoundUp] is not a ceiling: the
    division truncates towards zero, so a negative multiple
    [-(k * multiple)] gives [1 - k] instead of [-k]; and a zero [multiple]
    divides by zero. *)
Theorem RoundUp_outside_range (k multiple : Z) :
  1 <= k -> 2 <= multiple -> k * multiple <= CInt.INT_MAX ->
  TfLiteSegmentation.RoundUp (- (k * multiple)) multiple = Some (1 - k)
  /\ forall size, TfLiteSegmentation.RoundUp size 0 = None.
Proof.
  intros Hk Hm Hmax. unfold CInt.INT_MAX in Hmax. split.
  - unfold TfLiteSegmentation.RoundUp, CInt.add, CInt.sub, CInt.div.
    assert (Hr1 : CInt.representable (- (k * multiple) + multiple) = true)
      by (apply representable_spec; unfold CInt.INT_MIN, CInt.INT_MAX; nia).
    rewrite Hr1. simpl.
    assert (Hr2 : CInt.representable (- (k * multiple) + multiple - 1) = true)
      by (apply representable_spec; unfold CInt.INT_MIN, CInt.INT_MAX; nia).
    rewrite Hr2. simpl.
    destruct (Z.eqb_spec multiple 0) as [->|_]; [lia|].
    assert (Hq : (- (k * multiple) + multiple - 1) ÷ multiple = 1 - k).
    { replace (- (k * multiple) + multiple - 1)
        with (- ((k - 1) * multiple + 1)) by lia.
      rewrite Z.quot_opp_l by lia.
      rewrite Z.quot_div_nonneg by nia.
      rewrite Z.div_add_l by lia.
      rewrite Z.div_small by lia. lia. }
    rewrite Hq.
    assert (Hr3 : CInt.representable (1 - k) = true)
      by (apply representable_spec; unfold CInt.INT_MIN, CInt.INT_MAX; nia).
    by rewrite Hr3.
  - intros size.
    unfold TfLiteSegmentation.RoundUp, CInt.add, CInt.sub, CInt.div.
    destruct (CInt.representable (size + 0)); [|reflexivity]. simpl.
    destruct (CInt.representable (size + 0 - 1)); reflexivity.
Qed.

Lemma RoundUp_outside_range_witness :
  TfLiteSegmentation.RoundUp (- (2 * 8)) 8 = Some (1 - 2)
  /\ forall size, TfLiteSegmentation.RoundUp size 0 = None.
Proof.
  apply (RoundUp_outside_range 2 8); vm_compute; congruence.
Defined.

(** ** TfLiteTensorsToSegmentationCalculator, continued *)

Section OpenAccepts.

Import TfLiteSegmentation.

Variable ANDROID : bool.
Variable RetCheckFailSlowPath : string -> Status.
Variable gpu_helper_Open : CalculatorContext -> Status.
Variable RunInGlContext_InitGpu : CalculatorContext -> Calculator -> Status.

Hypothesis RetCheckFail_is_error :
  forall msg, ok (RetCheckFailSlowPath msg) = false.

Lemma bad_options_dec (o : TfLiteTensorsToSegmentationCalculatorOptions) :
  bad_options o
  \/ exists w h,
       opt_tensor_width o = Some w /\ opt_tensor_height o = Some h
       /\ opt_tensor_channels o = Some 2.
Proof.
  unfold bad_options, tensor_channels.
  destruct (opt_tensor_width o) as [w|]; [|by left; left].
  destruct (opt_tensor_height o) as [h|]; [|by left; right; left].
  destruct (opt_tensor_channels o) as [c|]; [|by left; right; right; left].
  destruct (decide (c = 2)) as [->|Hc]; [right; eauto|].
  left. right; right; right. exact Hc.
Qed.

Lemma LoadOptions_accepts cc this w h :
  opt_tensor_width (cc_Options cc) = Some w ->
  opt_tensor_height (cc_Options cc) = Some h ->
  opt_tensor_channels (cc_Options cc) = Some 2 ->
  LoadOptions RetCheckFailSlowPath cc this
  = (OkStatus, MkCalculator (cc_Options cc) w h 2 (use_gpu_ this)).
Proof.
  intros Hw Hh Hc.
  unfold LoadOptions, has_tensor_width, has_tensor_height,
    has_tensor_channels, tensor_width, tensor_height, tensor_channels.
  simpl. by rewrite Hw, Hh, Hc.
Qed.

Lemma Open_ok_inv cc this :
  ok (Open ANDROID RetCheckFailSlowPath gpu_helper_Open
        RunInGlContext_InitGpu cc this).1.1 = true ->
  let this' :=
    (Open ANDROID RetCheckFailSlowPath gpu_helper_Open
       RunInGlContext_InitGpu cc this).1.2 in
  options_ this' = cc_Options cc
  /\ opt_tensor_width (cc_Options cc) = Some (tensor_width_ this')
  /\ opt_tensor_height (cc_Options cc) = Some (tensor_height_ this')
  /\ opt_tensor_channels (cc_Options cc) = Some 2
  /\ tensor_channels_ this' = 2
  /\ use_gpu_ this' = InputsHasTag cc "TENSORS_GPU" || use_gpu_ this
  /\ (use_gpu_ this' = true -> ANDROID = true).
Proof.
  intros Hok.
  destruct (bad_options_dec (cc_Options cc)) as [Hbad|(w & h & Hw & Hh & Hc)].
  { pose proof (Open_rejects ANDROID RetCheckFailSlowPath gpu_helper_Open
                  RunInGlContext_InitGpu RetCheckFail_is_error cc this Hbad).
    congruence. }
  revert Hok. unfold Open, RETURN_IF_ERROR. simpl.
  destruct (InputsHasTag cc "TENSORS_GPU") eqn:Htag; simpl.
  - destruct ANDROID; simpl.
    + destruct (ok (gpu_helper_Open cc)) eqn:Hgpu; simpl;
        [|by rewrite Hgpu].
      rewrite (LoadOptions_accepts _ _ w h) by done. simpl.
      destruct (ok (RunInGlContext_InitGpu cc _)) eqn:Hinit; simpl;
        [|by rewrite Hinit].
      intros _. by rewrite Hw, Hh.
    + rewrite (LoadOptions_accepts _ _ w h) by done. simpl.
      rewrite RetCheckFail_is_error. simpl.
        by rewrite RetCheckFail_is_error.
  - rewrite (LoadOptions_accepts _ _ w h) by done. simpl.
    destruct (use_gpu_ this) eqn:Hgpu; simpl.
    + destruct ANDROID; simpl.
      * destruct (ok (RunInGlContext_InitGpu cc _)) eqn:Hinit; simpl;
          [|by rewrite Hinit].
        intros _. by rewrite Hw, Hh.
      * rewrite RetCheckFail_is_error. simpl.
        by rewrite RetCheckFail_is_error.
    + intros _. by rewrite Hw, Hh.
Qed.

End OpenAccepts.

(** X3.  When [Open] returns ok the options were complete with two
    channels, the calculator holds their dimensions, and the GPU path is
    taken only in an Android build; and without [TENSORS_GPU] complete
    two-channel options are all [Open] asks for. *)
Theorem Open_ok_loads_options
    (ANDROID : bool) (RetCheckFailSlowPath : string -> Status)
    (gpu_helper_Open : TfLiteSegmentation.CalculatorContext -> Status)
    (RunInGlContext_InitGpu :
       TfLiteSegmentation.CalculatorContext ->
       TfLiteSegmentation.Calculator -> Status)
    (cc : TfLiteSegmentation.CalculatorContext)
    (this : TfLiteSegmentation.Calculator) :
  (forall msg, ok (RetCheckFailSlowPath msg) = false) ->
  TfLiteSegmentation.use_gpu_ this = false ->
  let result :=
    TfLiteSegmentation.Open ANDROID RetCheckFailSlowPath gpu_helper_Open
      RunInGlContext_InitGpu cc this in
  (ok result.1.1 = true ->
   TfLiteSegmentation.options_ result.1.2 = TfLiteSegmentation.cc_Options cc
   /\ TfLiteSegmentation.opt_tensor_width (TfLiteSegmentation.cc_Options cc)
      = Some (TfLiteSegmentation.tensor_width_ result.1.2)
   /\ TfLiteSegmentation.opt_tensor_height (TfLiteSegmentation.cc_Options cc)
      = Some (TfLiteSegmentation.tensor_height_ result.1.2)
   /\ TfLiteSegmentation.tensor_channels_ result.1.2 = 2
   /\ TfLiteSegmentation.use_gpu_ result.1.2
      = TfLiteSegmentation.InputsHasTag cc "TENSORS_GPU"
   /\ (TfLiteSegmentation.use_gpu_ result.1.2 = true -> ANDROID = true))
  /\ (TfLiteSegmentation.InputsHasTag cc "TENSORS_GPU" = false ->
      ~ TfLiteSegmentation.bad_options (TfLiteSegmentation.cc_Options cc) ->
      ok result.1.1 = true).
Proof.
  intros Hfail Hcpu result. split.
  - intros Hok.
    destruct (Open_ok_inv ANDROID RetCheckFailSlowPath gpu_helper_Open
                RunInGlContext_InitGpu Hfail cc this Hok)
      as (Ho & Hw & Hh & _ & Hc & Hgpu & Handroid).
    fold result in Ho, Hw, Hh, Hc, Hgpu, Handroid.
    rewrite Hcpu, orb_false_r in Hgpu. by repeat split.
  - intros Htag Hgood.
    destruct (bad_options_dec (TfLiteSegmentation.cc_Options cc))
      as [Hbad|(w & h & Hw & Hh & Hc)]; [done|].
    unfold result, TfLiteSegmentation.Open, RETURN_IF_ERROR. simpl.
    rewrite Htag. simpl.
    rewrite (LoadOptions_accepts _ _ _ w h) by done. simpl.
    by rewrite Hcpu.
Qed.

Lemma Open_ok_loads_options_witness :
  let result :=
    TfLiteSegmentation.Open true InternalError (fun _ => OkStatus)
      (fun _ _ => OkStatus)
      (TfLiteSegmentation.MkContext {["TENSORS_GPU"]}
         (TfLiteSegmentation.MkOptions (Some 512) (Some 256) (Some 2) None) [])
      TfLiteSegmentation.initial_Calculator in
  TfLiteSegmentation.tensor_width_ result.1.2 = 512
  /\ TfLiteSegmentation.tensor_height_ result.1.2 = 256
  /\ TfLiteSegmentation.tensor_channels_ result.1.2 = 2
  /\ TfLiteSegmentation.use_gpu_ result.1.2 = true.
Proof.
  intros result.
  destruct (Open_ok_loads_options true InternalError (fun _ => OkStatus)
              (fun _ _ => OkStatus)
              (TfLiteSegmentation.MkContext {["TENSORS_GPU"]}
                 (TfLiteSegmentation.MkOptions (Some 512) (Some 256) (Some 2)
                    None) [])
              TfLiteSegmentation.initial_Calculator
              ltac:(reflexivity) ltac:(reflexivity))
    as [Hok _].
  destruct (Hok eq_refl) as (_ & Hw & Hh & Hc & Hgpu & _).
  fold result in Hw, Hh, Hc, Hgpu.
  split; [|split; [|split]].
  - reflexivity.
  - reflexivity.
  - exact Hc.
  - exact Hgpu.
Defined.

(** X4.  In a build without [__ANDROID__] the calculator never produces a
    mask: [Open] fails on a node with [TENSORS_GPU], and after an [Open]
    that returned ok every [Process] returns [Unimplemented] and adds no
    packet. *)
Theorem no_mask_outside_android
    (RetCheckFailSlowPath : string -> Status)
    (gpu_helper_Open : TfLiteSegmentation.CalculatorContext -> Status)
    (RunInGlContext_InitGpu :
       TfLiteSegmentation.CalculatorContext ->
       TfLiteSegmentation.Calculator -> Status)
    (RunInGlContext_ProcessGpu :
       TfLiteSegmentation.CalculatorContext ->
       TfLiteSegmentation.Calculator ->
       Status * TfLiteSegmentation.CalculatorContext)
    (cc : TfLiteSegmentation.CalculatorContext)
    (this : TfLiteSegmentation.Calculator) :
  (forall msg, ok (RetCheckFailSlowPath msg) = false) ->
  TfLiteSegmentation.use_gpu_ this = false ->
  let opened :=
    TfLiteSegmentation.Open false RetCheckFailSlowPath gpu_helper_Open
      RunInGlContext_InitGpu cc this in
  (TfLiteSegmentation.InputsHasTag cc "TENSORS_GPU" = true ->
   ok opened.1.1 = false)
  /\ (ok opened.1.1 = true ->
      forall cc' : TfLiteSegmentation.CalculatorContext,
        TfLiteSegmentation.Process false RunInGlContext_ProcessGpu cc'
          opened.1.2
        = (UnimplementedError "CPU support is not implemented yet.", cc')).
Proof.
  intros Hfail Hcpu opened.
  assert (Hinv : ok opened.1.1 = true ->
                 TfLiteSegmentation.use_gpu_ opened.1.2 = false
                 /\ TfLiteSegmentation.InputsHasTag cc "TENSORS_GPU" = false).
  { intros Hok.
    destruct (Open_ok_inv false RetCheckFailSlowPath gpu_helper_Open
                RunInGlContext_InitGpu Hfail cc this Hok)
      as (_ & _ & _ & _ & _ & Hgpu & Handroid).
    fold opened in Hgpu, Handroid. rewrite Hcpu, orb_false_r in Hgpu.
    destruct (TfLiteSegmentation.use_gpu_ opened.1.2) eqn:Huse.
    - by specialize (Handroid eq_refl).
    - by rewrite <- Hgpu. }
  split.
  - intros Htag. destruct (ok opened.1.1) eqn:Hok; [|done].
    destruct (Hinv eq_refl) as [_ Hno]. congruence.
  - intros Hok cc'. destruct (Hinv Hok) as [Huse _].
    unfold TfLiteSegmentation.Process, RETURN_IF_ERROR. by rewrite Huse.
Qed.

Lemma no_mask_outside_android_witness :
  let opened :=
    TfLiteSegmentation.Open false InternalError (fun _ => OkStatus)
      (fun _ _ => OkStatus)
      (TfLiteSegmentation.MkContext {["TENSORS"]}
         (TfLiteSegmentation.MkOptions (Some 512) (Some 512) (Some 2) None) [])
      TfLiteSegmentation.initial_Calculator in
  ok opened.1.1 = true
  /\ code (TfLiteSegmentation.Process false (fun cc _ => (OkStatus, cc))
             (TfLiteSegmentation.MkContext {["TENSORS"]}
                (TfLiteSegmentation.MkOptions (Some 512) (Some 512) (Some 2)
                   None) [])
             opened.1.2).1
     = kUnimplemented.
Proof.
  intros opened. split; [reflexivity|].
  destruct (no_mask_outside_android InternalError (fun _ => OkStatus)
              (fun _ _ => OkStatus) (fun cc _ => (OkStatus, cc))
              (TfLiteSegmentation.MkContext {["TENSORS"]}
                 (TfLiteSegmentation.MkOptions (Some 512) (Some 512) (Some 2)
                    None) [])
              TfLiteSegmentation.initial_Calculator
              ltac:(reflexivity) ltac:(reflexivity))
    as [_ Hprocess].
  fold opened in Hprocess. by rewrite (Hprocess eq_refl).
Defined.

(** ** CalculatorContract, continued *)

(** X5.  The handler name and the handler options of a contract are set
    independently: after any sequence of calls
    [GetInputStreamHandlerOptions] returns the options of the most recent
    [SetInputStreamHandlerOptions], or the contract's own when there was
    none, whatever handler names were set in between. *)
Theorem handler_options_follow_last_set
    (calls : list Contract.ContractCall) (c : Contract.CalculatorContract) :
  Contract.GetInputStreamHandlerOptions (Contract.run_calls calls c)
  = default (Contract.GetInputStreamHandlerOptions c)
      (last (Contract.handler_options calls))
  /\ (Contract.handler_options calls = [] ->
      Contract.GetInputStreamHandlerOptions (Contract.run_calls calls c)
      = Contract.GetInputStreamHandlerOptions c)
  /\ (Contract.handler_names calls = [] ->
      Contract.GetInputStreamHandler (Contract.run_calls calls c)
      = Contract.GetInputStreamHandler c).
Proof.
  assert (Hoptions :
            Contract.GetInputStreamHandlerOptions (Contract.run_calls calls c)
            = default (Contract.GetInputStreamHandlerOptions c)
                (last (Contract.handler_options calls))).
  { induction calls as [|call calls IH] using rev_ind; [reflexivity|].
    unfold Contract.run_calls, Contract.handler_options in *.
    rewrite foldl_app, omap_app. simpl.
    destruct call as [name|o]; simpl.
    - by rewrite app_nil_r.
    - by rewrite last_snoc. }
  split; [exact Hoptions|]. split.
  - intros Hnone. by rewrite Hoptions, Hnone.
  - intros Hnone. by rewrite run_calls_handler, Hnone.
Qed.

Lemma handler_options_follow_last_set_witness :
  Contract.GetInputStreamHandlerOptions
    (Contract.run_calls
       [Contract.CallSetInputStreamHandlerOptions "fixed_min_size: 2";
        Contract.CallSetInputStreamHandler "FixedSizeInputStreamHandler"]
       Contract.new_CalculatorContract)
  = "fixed_min_size: 2".
Proof.
  apply (handler_options_follow_last_set
           [Contract.CallSetInputStreamHandlerOptions "fixed_min_size: 2";
            Contract.CallSetInputStreamHandler "FixedSizeInputStreamHandler"]
           Contract.new_CalculatorContract).
Defined.

(** X6.  [UseService] adds a request that is not optional for a service
    that has none, and otherwise leaves the requests as they are: no
    request is replaced or removed, so a service marked [Optional] stays
    optional when it is asked for again. *)
Theorem UseService_keeps_requests
    (service : string)
    (service_requests_ : gmap string Contract.GraphServiceRequest) :
  (service_requests_ !! service = None ->
   Contract.UseService service service_requests_ !! service
   = Some (Contract.new_GraphServiceRequest service))
  /\ (forall key r,
        service_requests_ !! key = Some r ->
        Contract.UseService service service_requests_ !! key = Some r)
  /\ (exists r,
        Contract.UseService_Optional service service_requests_ !! service
        = Some r
        /\ Contract.IsOptional r = true)
  /\ Contract.UseService service
       (Contract.UseService_Optional service service_requests_)
     = Contract.UseService_Optional service service_requests_.
Proof.
  assert (Hkept : forall key r,
            service_requests_ !! key = Some r ->
            Contract.UseService service service_requests_ !! key = Some r).
  { intros key r Hr. unfold Contract.UseService.
    destruct (service_requests_ !! service) as [r0|] eqn:Hs; [done|].
    rewrite lookup_insert_ne; [done|]. intros ->. congruence. }
  assert (Hthere : is_Some
            (Contract.UseService service service_requests_ !! service)).
  { unfold Contract.UseService.
    destruct (service_requests_ !! service) as [r0|] eqn:Hs.
    - rewrite Hs. eauto.
    - rewrite lookup_insert_eq. eauto. }
  assert (Hoptional : exists r,
            Contract.UseService_Optional service service_requests_ !! service
            = Some r
            /\ Contract.IsOptional r = true).
  { destruct Hthere as [r0 Hr0]. exists (Contract.Optional r0).
    unfold Contract.UseService_Optional.
    rewrite lookup_alter, decide_True by done. by rewrite Hr0. }
  split; [|split; [exact Hkept|split; [exact Hoptional|]]].
  - intros Hnone. unfold Contract.UseService.
    by rewrite Hnone, lookup_insert_eq.
  - destruct Hoptional as (r & Hr & _).
    unfold Contract.UseService at 1. by rewrite Hr.
Qed.

Lemma UseService_keeps_requests_witness :
  Contract.UseService "kGpuService" ∅ !! "kGpuService"
  = Some (Contract.new_GraphServiceRequest "kGpuService").
Proof.
  exact (proj1 (UseService_keeps_requests "kGpuService" ∅) eq_refl).
Defined.

(** ** GlContext::CreateContext *)

(** X7.  [CreateContext] returns ok only with a context and a texture
    cache in place; a failure adopts no texture cache; and when neither
    list of attributes yields a pixel format it returns an [Internal]
    error without creating a context. *)
Theorem CreateContext_ok_has_context
    (initWithAttributes :
       list GlContextNsgl.NSOpenGLPixelFormatAttribute -> option Z)
    (initWithFormat : option Z -> option Z -> option Z)
    (initWithCGLPixelFormatObj_of : option Z -> option Z)
    (CVOpenGLTextureCacheCreate : Z -> option Z -> Z * Z)
    (kCVReturnSuccess : Z)
    (RetCheckFailSlowPath : string -> Status)
    (share_context : option Z) (this : GlContextNsgl.GlContext) :
  (forall msg, ok (RetCheckFailSlowPath msg) = false) ->
  let result :=
    GlContextNsgl.CreateContext initWithAttributes initWithFormat
      initWithCGLPixelFormatObj_of CVOpenGLTextureCacheCreate
      kCVReturnSuccess RetCheckFailSlowPath share_context this in
  (ok result.1 = true ->
   GlContextNsgl.HasContext result.2 = true
   /\ exists context cache,
        GlContextNsgl.context_ result.2 = Some context
        /\ GlContextNsgl.texture_cache_ result.2 = Some cache
        /\ CVOpenGLTextureCacheCreate context
             (GlContextNsgl.pixel_format_ result.2)
           = (kCVReturnSuccess, cache))
  /\ (ok result.1 = false ->
      GlContextNsgl.texture_cache_ result.2
      = GlContextNsgl.texture_cache_ this)
  /\ (initWithAttributes GlContextNsgl.attrs = None ->
      initWithAttributes GlContextNsgl.attrs_no_accel = None ->
      result
      = (InternalError "Could not create an NSOpenGLPixelFormat",
         GlContextNsgl.MkGlContext None (GlContextNsgl.context_ this)
           (GlContextNsgl.texture_cache_ this))).
Proof.
  intros Hfail result. unfold result, GlContextNsgl.CreateContext.
  destruct (initWithAttributes GlContextNsgl.attrs) as [fmt|] eqn:Hfmt;
    simpl.
  2: destruct (initWithAttributes GlContextNsgl.attrs_no_accel)
       as [fmt|] eqn:Hfmt'; simpl.
  3: { split; [done|]. split; [done|]. done. }
  all: destruct (initWithFormat (Some fmt) share_context) as [ctx|] eqn:Hctx;
    simpl.
  all: try (destruct (initWithFormat
                        (initWithCGLPixelFormatObj_of share_context)
                        share_context) as [ctx|] eqn:Hctx'; simpl).
  all: try (split; [by rewrite Hfail|]; split; [done|]; done).
  all: match goal with
       | |- context [match ?created with pair _ _ => _ end] =>
           destruct created as [err cache] eqn:Hcache
       end; simpl.
  all: destruct (Z.eqb_spec err kCVReturnSuccess) as [->|Hne]; simpl.
  all: try (split; [by rewrite Hfail|]; split; [done|]; done).
  all: split; [|split; [done|done]].
  all: intros _; split; [done|]; eexists _, _; split; [reflexivity|];
    split; [reflexivity|exact Hcache].
Qed.

Lemma CreateContext_ok_has_context_witness :
  let result :=
    GlContextNsgl.CreateContext
      accelerated_unavailable
      (fun _ _ => Some 22) (fun _ => None) (fun _ _ => (0, 33)) 0
      InternalError None (GlContextNsgl.MkGlContext None None None) in
  GlContextNsgl.HasContext result.2 = true
  /\ GlContextNsgl.texture_cache_ result.2 = Some 33.
Proof.
  intros result.
  destruct (CreateContext_ok_has_context
              accelerated_unavailable
              (fun _ _ => Some 22) (fun _ => None) (fun _ _ => (0, 33)) 0
              InternalError None (GlContextNsgl.MkGlContext None None None)
              ltac:(reflexivity))
    as (Hok & _ & _).
  destruct (Hok eq_refl) as [Hhas _].
  split; [exact Hhas|reflexivity].
Defined.

(** ** ColorConvertCalculator, continued *)

Section SetColorChannelElsewhere.

Import ColorConvert.

Variables (channel value step width : Z).
Hypothesis step_pos : 0 < step.
Hypothesis channel_range : 0 <= channel < step.

(** The loop over a row changes nothing but the offsets it visits. *)
Lemma row_loop_elsewhere (n : nat) :
  forall (i : Z) (row row' : list Z),
    (Z.to_nat (width * step - i) <= n)%nat ->
    0 <= i ->
    for_loop step (width * step) (store value) i row = Some row' ->
    forall j : nat,
      (forall t, i <= t < width * step -> (t - i) `mod` step = 0 ->
         Z.of_nat j <> t) ->
      row' !! j = row !! j.
Proof.
  induction n as [|n IH]; intros i row row' Hn Hi Hloop j Hj;
    rewrite for_loop_step in Hloop.
  - rewrite decide_False in Hloop by lia. by injection Hloop as <-.
  - destruct (decide (i < width * step)) as [Hlt|Hge];
      [|by injection Hloop as <-].
    rewrite decide_True in Hloop by done.
    unfold store at 1 in Hloop.
    destruct (decide (0 <= i < Z.of_nat (length row))); [|done].
    rewrite (IH (i + step) _ row' ltac:(lia) ltac:(lia) Hloop j).
    + apply list_lookup_insert_ne.
      specialize (Hj i ltac:(lia)).
      rewrite Z.sub_diag, Z.mod_0_l in Hj by lia. lia.
    + intros t Ht Hmod. apply Hj; [lia|].
      replace (t - i) with (t - (i + step) + 1 * step) by lia.
      by rewrite Z_mod_plus_full.
Qed.

Lemma row_loop_only_channel (row row' : list Z) :
  for_loop step (width * step) (store value) channel row = Some row' ->
  width * step <= Z.of_nat (length row) ->
  only_channel_differs channel step width row row'.
Proof.
  intros Hloop Hlen. split.
  - destruct (row_loop_sets_channel channel value step width step_pos
                channel_range row Hlen) as (row'' & Hloop' & Hlength & _).
    congruence.
  - intros j Hj.
    apply (row_loop_elsewhere (Z.to_nat (width * step - channel)) channel
             row row' ltac:(lia) ltac:(lia) Hloop).
    intros t Ht Hmod Heq.
    pose proof (Z.div_mod (t - channel) step ltac:(lia)) as Hdm.
    rewrite Hmod in Hdm.
    apply (Hj ((t - channel) `div` step)); [|lia].
    assert (0 <= (t - channel) `div` step) by (apply Z.div_pos; lia).
    nia.
Qed.

(** The loop over the rows: what becomes of each row. *)
Lemma rows_loop_elsewhere (rows : Z) (n : nat) :
  forall (r : Z) (d d' : list (list Z)),
    (Z.to_nat (rows - r) <= n)%nat ->
    0 <= r ->
    Forall (fun row => width * step <= Z.of_nat (length row)) d ->
    for_loop 1 rows (SetColorChannel_row channel value step (width * step))
      r d = Some d' ->
    forall (k : nat) (row : list Z),
      d !! k = Some row ->
      exists row',
        d' !! k = Some row'
        /\ only_channel_differs channel step width row row'
        /\ (~ r <= Z.of_nat k < rows -> row' = row).
Proof.
  induction n as [|n IH]; intros r d d' Hn Hr Hwide Hloop k row Hrow;
    rewrite for_loop_step in Hloop.
  - rewrite decide_False in Hloop by lia. injection Hloop as <-.
    exists row. by repeat split.
  - destruct (decide (r < rows)) as [Hlt|Hge];
      [|injection Hloop as <-; exists row; by repeat split].
    rewrite decide_True in Hloop by lia.
    unfold SetColorChannel_row at 1 in Hloop.
    destruct (d !! Z.to_nat r) as [row_r|] eqn:Hrow_r; [|done].
    simpl in Hloop.
    destruct (for_loop step (width * step) (store value) channel row_r)
      as [row_r'|] eqn:Hinner; [|done].
    simpl in Hloop.
    assert (Hlen_r : width * step <= Z.of_nat (length row_r)).
    { rewrite Forall_lookup in Hwide. by eapply Hwide. }
    pose proof (row_loop_only_channel row_r row_r' Hinner Hlen_r)
      as Honly_r.
    assert (Hwide' : Forall
              (fun row => width * step <= Z.of_nat (length row))
              (<[Z.to_nat r := row_r']> d)).
    { apply Forall_insert; [done|]. destruct Honly_r as [-> _]. done. }
    destruct (decide (k = Z.to_nat r)) as [->|Hne].
    + assert (row_r = row) by congruence. subst row_r.
      destruct (IH (r + 1) _ d' ltac:(lia) ltac:(lia) Hwide' Hloop
                  (Z.to_nat r) row_r') as (row' & Hrow' & _ & Hsame).
      { apply list_lookup_insert_eq. by eapply lookup_lt_Some. }
      rewrite Hsame in Hrow' by lia.
      exists row_r'. split; [done|]. split; [done|]. lia.
    + destruct (IH (r + 1) _ d' ltac:(lia) ltac:(lia) Hwide' Hloop k row)
        as (row' & Hrow' & Honly & Hsame).
      { by rewrite list_lookup_insert_ne. }
      exists row'. split; [done|]. split; [done|].
      intros Hout. apply Hsame. lia.
Qed.

End SetColorChannelElsewhere.

(** What [SetColorChannel] does to a matrix that passes its checks and
    has its rows in place. *)
Lemma SetColorChannel_spec (channel value : Z) (mat : ColorConvert.Mat) :
  ColorConvert.depth mat = ColorConvert.CV_8U ->
  0 <= channel < ColorConvert.channels mat ->
  ColorConvert.rows mat <= Z.of_nat (length (ColorConvert.data mat)) ->
  Forall (fun row =>
            ColorConvert.cols mat * ColorConvert.channels mat
            <= Z.of_nat (length row))
    (ColorConvert.data mat) ->
  exists d',
    ColorConvert.SetColorChannel channel value mat
    = Some (ColorConvert.MkMat (ColorConvert.rows mat) (ColorConvert.cols mat)
              (ColorConvert.channels mat) (ColorConvert.depth mat) d')
    /\ length d' = length (ColorConvert.data mat)
    /\ forall (r : nat) (row : list Z),
         ColorConvert.data mat !! r = Some row ->
         exists row',
           d' !! r = Some row'
           /\ ColorConvert.only_channel_differs channel
                (ColorConvert.channels mat) (ColorConvert.cols mat) row row'
           /\ (Z.of_nat r < ColorConvert.rows mat ->
               ColorConvert.channel_is channel value
                 (ColorConvert.channels mat) (ColorConvert.cols mat) row')
           /\ (ColorConvert.rows mat <= Z.of_nat r -> row' = row).
Proof.
  intros Hdepth Hchannel Hrows Hwide.
  destruct (SetColorChannel_sets_channel channel value mat Hdepth Hchannel
              Hrows Hwide) as (d' & Hset & Hshape & Hchan).
  exists d'. split; [exact Hset|].
  split; [by rewrite <- (length_map length d'), Hshape, length_map|].
  intros r row Hrow.
  assert (Hloop : for_loop 1 (ColorConvert.rows mat)
            (ColorConvert.SetColorChannel_row channel value
               (ColorConvert.channels mat)
               (ColorConvert.cols mat * ColorConvert.channels mat))
            0 (ColorConvert.data mat) = Some d').
  { revert Hset. unfold ColorConvert.SetColorChannel.
    rewrite Hdepth, bool_decide_eq_true_2 by done. simpl.
    destruct (Z.ltb_spec channel (ColorConvert.channels mat)); [|lia].
    simpl.
    destruct (for_loop 1 _ _ 0 _) as [d|]; [|done]. simpl.
    intros Heq. by injection Heq as ->. }
  destruct (rows_loop_elsewhere channel value (ColorConvert.channels mat)
              (ColorConvert.cols mat) ltac:(lia) ltac:(lia)
              (ColorConvert.rows mat) (Z.to_nat (ColorConvert.rows mat))
              0 (ColorConvert.data mat) d' ltac:(lia) ltac:(lia) Hwide Hloop
              r row Hrow)
    as (row' & Hrow' & Honly & Hsame).
  exists row'. split; [done|]. split; [done|]. split.
  - intros Hr.
    destruct (Hchan (Z.of_nat r) ltac:(lia)) as (row'' & Hrow'' & Hset'').
    rewrite Nat2Z.id, Hrow' in Hrow''. by injection Hrow'' as <-.
  - intros Hr. apply Hsame. lia.
Qed.

(** X8.  [SetColorChannel] fails its [CHECK] when the matrix has no such
    channel; otherwise, on a [CV_8U] matrix with its rows in place, it
    keeps the geometry, writes [value] into [channel] of every pixel of
    the first [rows] rows, and changes no other byte. *)
Theorem SetColorChannel_touches_only_channel
    (channel value : Z) (mat : ColorConvert.Mat) :
  (ColorConvert.channels mat <= channel ->
   ColorConvert.SetColorChannel channel value mat = None)
  /\ (ColorConvert.depth mat = ColorConvert.CV_8U ->
      0 <= channel < ColorConvert.channels mat ->
      ColorConvert.rows mat <= Z.of_nat (length (ColorConvert.data mat)) ->
      Forall (fun row =>
                ColorConvert.cols mat * ColorConvert.channels mat
                <= Z.of_nat (length row))
        (ColorConvert.data mat) ->
      exists mat',
        ColorConvert.SetColorChannel channel value mat = Some mat'
        /\ ColorConvert.rows mat' = ColorConvert.rows mat
        /\ ColorConvert.cols mat' = ColorConvert.cols mat
        /\ ColorConvert.channels mat' = ColorConvert.channels mat
        /\ length (ColorConvert.data mat') = length (ColorConvert.data mat)
        /\ forall (r : nat) (row : list Z),
             ColorConvert.data mat !! r = Some row ->
             exists row',
               ColorConvert.data mat' !! r = Some row'
               /\ ColorConvert.only_channel_differs channel
                    (ColorConvert.channels mat) (ColorConvert.cols mat)
                    row row'
               /\ (Z.of_nat r < ColorConvert.rows mat ->
                   ColorConvert.channel_is channel value
                     (ColorConvert.channels mat) (ColorConvert.cols mat) row')
               /\ (ColorConvert.rows mat <= Z.of_nat r -> row' = row)).
Proof.
  split.
  - intros Hchannel. unfold ColorConvert.SetColorChannel.
    destruct (negb (bool_decide _)); [done|].
    destruct (Z.ltb_spec channel (ColorConvert.channels mat)); [lia|done].
  - intros Hdepth Hchannel Hrows Hwide.
    destruct (SetColorChannel_spec channel value mat Hdepth Hchannel Hrows
                Hwide) as (d' & Hset & Hlen & Hrowsd).
    eexists. split; [exact Hset|]. simpl. by repeat split.
Qed.

Lemma SetColorChannel_touches_only_channel_witness :
  exists mat',
    ColorConvert.SetColorChannel 3 255 padded_rgba = Some mat'
    /\ length (ColorConvert.data mat') = 1%nat
    /\ forall (r : nat) (row : list Z),
         ColorConvert.data padded_rgba !! r = Some row ->
         exists row',
           ColorConvert.data mat' !! r = Some row'
           /\ ColorConvert.only_channel_differs 3 4 2 row row'.
Proof.
  destruct (proj2 (SetColorChannel_touches_only_channel 3 255 padded_rgba))
    as (mat' & Hset & _ & _ & _ & Hlen & Hrows).
  - reflexivity.
  - vm_compute. split; congruence.
  - vm_compute. congruence.
  - repeat constructor. vm_compute. congruence.
  - exists mat'. split; [exact Hset|]. split; [exact Hlen|].
    intros r row Hrow. destruct (Hrows r row Hrow) as (row' & ? & ? & _).
    eauto.
Defined.

Example SetColorChannel_padded :
  ColorConvert.data <$> ColorConvert.SetColorChannel 3 255 padded_rgba
  = Some [[10; 20; 30; 255; 40; 50; 60; 255; 77; 77; 77; 77]].
Proof. vm_compute. reflexivity. Qed.

Section ProcessBranches.

Import ColorConvert.

Variable new_ImageFrame_buffer : ImageFormat -> Z -> Z -> list (list Z).
Variable cvtColor : Mat -> Mat -> ColorConversionCode -> list (list Z).

(** On a node with one input and one output, [HasTag] holds of these
    two tags and of no other. *)
Lemma single_tags (cc : CalculatorContext) (input_tag output_tag : string) :
  GetContract_accepts cc = true ->
  is_Some (cc_Inputs cc !! input_tag) ->
  is_Some (cc_Outputs cc !! output_tag) ->
  (forall tag, InputsHasTag cc tag = bool_decide (tag = input_tag))
  /\ (forall tag, OutputsHasTag cc tag = bool_decide (tag = output_tag)).
Proof.
  intros Hcontract Hin Hout.
  apply andb_true_iff in Hcontract as [Hsize_in Hsize_out].
  apply bool_decide_eq_true_1 in Hsize_in, Hsize_out.
  split; intros tag; unfold InputsHasTag, OutputsHasTag.
  - destruct (decide (tag = input_tag)) as [->|Hne].
    + by rewrite !bool_decide_eq_true_2.
    + rewrite (map_size_1_lookup_other _ input_tag tag) by done.
      rewrite (bool_decide_eq_false_2 (tag = input_tag)) by done.
      apply bool_decide_eq_false_2. by intros [? ?].
  - destruct (decide (tag = output_tag)) as [->|Hne].
    + by rewrite !bool_decide_eq_true_2.
    + rewrite (map_size_1_lookup_other _ output_tag tag) by done.
      rewrite (bool_decide_eq_false_2 (tag = output_tag)) by done.
      apply bool_decide_eq_false_2. by intros [? ?].
Qed.

Lemma Process_unsupported (cc : CalculatorContext)
    (input_tag output_tag : string) :
  GetContract_accepts cc = true ->
  is_Some (cc_Inputs cc !! input_tag) ->
  is_Some (cc_Outputs cc !! output_tag) ->
  (input_tag, output_tag) ∉ supported_conversions ->
  Process new_ImageFrame_buffer cvtColor cc
  = Some (InvalidArgumentError "Unsupported image format conversion.", cc).
Proof.
  intros Hcontract Hin Hout Hunsupported.
  destruct (single_tags cc input_tag output_tag Hcontract Hin Hout)
    as [Hins Houts].
  assert (Hno : forall a b,
            (a, b) ∈ supported_conversions ->
            bool_decide (a = input_tag) && bool_decide (b = output_tag)
            = false).
  { intros a b Hab. apply andb_false_iff.
    destruct (decide (a = input_tag)) as [->|];
      [|left; by apply bool_decide_eq_false_2].
    destruct (decide (b = output_tag)) as [->|];
      [|right; by apply bool_decide_eq_false_2].
    done. }
  unfold Process. rewrite !Hins, !Houts.
  rewrite !Hno
    by (unfold supported_conversions;
        repeat first [apply list_elem_of_here | apply list_elem_of_further]).
  reflexivity.
Qed.

Lemma Process_supported (cc : CalculatorContext)
    (input_tag output_tag : string) (format : ImageFormat)
    (code : ColorConversionCode) :
  GetContract_accepts cc = true ->
  is_Some (cc_Inputs cc !! input_tag) ->
  is_Some (cc_Outputs cc !! output_tag) ->
  (input_tag, output_tag, format, code)
  ∈ [(kRgbaInTag, kRgbOutTag, SRGB, COLOR_RGBA2RGB);
     (kGrayInTag, kRgbOutTag, SRGB, COLOR_GRAY2RGB);
     (kRgbInTag, kGrayOutTag, GRAY8, COLOR_RGB2GRAY);
     (kRgbInTag, kRgbaOutTag, SRGBA, COLOR_RGB2RGBA)] ->
  Process new_ImageFrame_buffer cvtColor cc
  = ConvertAndOutput new_ImageFrame_buffer cvtColor input_tag output_tag
      format code cc.
Proof.
  intros Hcontract Hin Hout Hsupported.
  destruct (single_tags cc input_tag output_tag Hcontract Hin Hout)
    as [Hins Houts].
  unfold Process. rewrite !Hins, !Houts.
  repeat (apply elem_of_cons in Hsupported as [Heq|Hsupported];
          [injection Heq as -> -> -> ->; reflexivity|]).
  by apply elem_of_nil in Hsupported.
Qed.

End ProcessBranches.

(** X9.  On a node with one input and one output whose pair of tags is
    not one of the four conversions, [Process] returns [InvalidArgument]
    and adds no packet. *)
Theorem unsupported_conversion_is_refused
    (new_ImageFrame_buffer :
       ColorConvert.ImageFormat -> Z -> Z -> list (list Z))
    (cvtColor :
       ColorConvert.Mat -> ColorConvert.Mat ->
       ColorConvert.ColorConversionCode -> list (list Z))
    (cc : ColorConvert.CalculatorContext) (input_tag output_tag : string) :
  ColorConvert.GetContract_accepts cc = true ->
  is_Some (ColorConvert.cc_Inputs cc !! input_tag) ->
  is_Some (ColorConvert.cc_Outputs cc !! output_tag) ->
  (input_tag, output_tag) ∉ ColorConvert.supported_conversions ->
  ColorConvert.Process new_ImageFrame_buffer cvtColor cc
  = Some (InvalidArgumentError "Unsupported image format conversion.", cc).
Proof. apply Process_unsupported. Qed.

Lemma unsupported_conversion_is_refused_witness :
  ColorConvert.Process packed_buffer rgb_to_rgba gray_to_rgba_context
  = Some (InvalidArgumentError "Unsupported image format conversion.",
          gray_to_rgba_context).
Proof.
  apply (unsupported_conversion_is_refused packed_buffer rgb_to_rgba
           gray_to_rgba_context ColorConvert.kGrayInTag
           ColorConvert.kRgbaOutTag).
  - reflexivity.
  - vm_compute. eauto.
  - vm_compute. eauto.
  - intros Hin.
    repeat (apply elem_of_cons in Hin as [Heq|Hin]; [discriminate Heq|]).
    by apply elem_of_nil in Hin.
Defined.

(** X10.  For the conversions RGBA to RGB, GRAY to RGB and RGB to GRAY,
    [Process] on a node wired for one of them adds to the output stream,
    and to no other, one packet at the input timestamp whose frame has the
    output format, the size of the input and exactly the bytes
    [cv::cvtColor] wrote. *)
Theorem conversion_emits_converted_frame
    (new_ImageFrame_buffer :
       ColorConvert.ImageFormat -> Z -> Z -> list (list Z))
    (cvtColor :
       ColorConvert.Mat -> ColorConvert.Mat ->
       ColorConvert.ColorConversionCode -> list (list Z))
    (cc : ColorConvert.CalculatorContext) (img : ColorConvert.ImageFrame)
    (stream : list ColorConvert.OutputPacket)
    (input_tag output_tag : string) (format : ColorConvert.ImageFormat)
    (code : ColorConvert.ColorConversionCode) :
  ColorConvert.GetContract_accepts cc = true ->
  ColorConvert.cc_Inputs cc !! input_tag = Some (Some img) ->
  ColorConvert.cc_Outputs cc !! output_tag = Some stream ->
  (input_tag, output_tag, format, code)
  ∈ [(ColorConvert.kRgbaInTag, ColorConvert.kRgbOutTag, ColorConvert.SRGB,
      ColorConvert.COLOR_RGBA2RGB);
     (ColorConvert.kGrayInTag, ColorConvert.kRgbOutTag, ColorConvert.SRGB,
      ColorConvert.COLOR_GRAY2RGB);
     (ColorConvert.kRgbInTag, ColorConvert.kGrayOutTag, ColorConvert.GRAY8,
      ColorConvert.COLOR_RGB2GRAY)] ->
  ColorConvert.Process new_ImageFrame_buffer cvtColor cc
  = Some (OkStatus,
          ColorConvert.MkContext (ColorConvert.cc_Inputs cc)
            (<[output_tag :=
                 (stream
                  ++ [ColorConvert.MkOutputPacket
                        (ColorConvert.MkImageFrame format
                           (ColorConvert.Width img) (ColorConvert.Height img)
                           (cvtColor (ColorConvert.MatView img)
                              (ColorConvert.MatView
                                 (ColorConvert.new_ImageFrame
                                    new_ImageFrame_buffer format
                                    (ColorConvert.Width img)
                                    (ColorConvert.Height img)))
                              code))
                        (ColorConvert.cc_InputTimestamp cc)])%list]>
               (ColorConvert.cc_Outputs cc))
            (ColorConvert.cc_InputTimestamp cc)).
Proof.
  intros Hcontract Hin Hout Hsupported.
  assert (Hcode : code <> ColorConvert.COLOR_RGB2RGBA).
  { intros ->.
    repeat (apply elem_of_cons in Hsupported as [Heq|Hsupported];
            [discriminate Heq|]).
    by apply elem_of_nil in Hsupported. }
  rewrite (Process_supported new_ImageFrame_buffer cvtColor cc input_tag
             output_tag format code Hcontract);
    [|by eauto|by eauto|].
  - unfold ColorConvert.ConvertAndOutput, ColorConvert.InputsTagGet.
    rewrite Hin. simpl.
    rewrite bool_decide_eq_false_2 by done. simpl.
    unfold ColorConvert.OutputsTagAdd. rewrite Hout. reflexivity.
  - repeat (apply elem_of_cons in Hsupported as [->|Hsupported];
            [repeat first [apply list_elem_of_here
                          | apply list_elem_of_further]|]).
    by apply elem_of_nil in Hsupported.
Qed.

Lemma conversion_emits_converted_frame_witness :
  ColorConvert.Process packed_buffer rgb_to_rgba rgba_to_rgb_context
  = Some (OkStatus,
          ColorConvert.MkContext
            (ColorConvert.cc_Inputs rgba_to_rgb_context)
            (<[ColorConvert.kRgbOutTag :=
                 [ColorConvert.MkOutputPacket
                    (ColorConvert.MkImageFrame ColorConvert.SRGB 2 1
                       (rgb_to_rgba (ColorConvert.MatView two_rgba_pixels)
                          (ColorConvert.MatView
                             (ColorConvert.new_ImageFrame packed_buffer
                                ColorConvert.SRGB 2 1))
                          ColorConvert.COLOR_RGBA2RGB))
                    42]]>
               (ColorConvert.cc_Outputs rgba_to_rgb_context))
            42).
Proof.
  apply (conversion_emits_converted_frame packed_buffer rgb_to_rgba
           rgba_to_rgb_context two_rgba_pixels [] ColorConvert.kRgbaInTag
           ColorConvert.kRgbOutTag ColorConvert.SRGB
           ColorConvert.COLOR_RGBA2RGB).
  - reflexivity.
  - reflexivity.
  - reflexivity.
  - apply list_elem_of_here.
Defined.

(** X11.  The frame that an RGB to RGBA [Process] emits holds the bytes
    [cv::cvtColor] wrote, but for the alpha bytes of its pixels: the
    colour channels and the row padding are not touched. *)
Theorem rgb_to_rgba_keeps_colours
    (new_ImageFrame_buffer :
       ColorConvert.ImageFormat -> Z -> Z -> list (list Z))
    (cvtColor :
       ColorConvert.Mat -> ColorConvert.Mat ->
       ColorConvert.ColorConversionCode -> list (list Z))
    (cc : ColorConvert.CalculatorContext) (img : ColorConvert.ImageFrame)
    (stream : list ColorConvert.OutputPacket) :
  (forall format width height,
     length (new_ImageFrame_buffer format width height) = Z.to_nat height
     /\ Forall (fun row =>
                  width * ColorConvert.NumberOfChannels format
                  <= Z.of_nat (length row))
          (new_ImageFrame_buffer format width height)) ->
  (forall src dst code,
     map length (cvtColor src dst code) = map length (ColorConvert.data dst)) ->
  ColorConvert.GetContract_accepts cc = true ->
  ColorConvert.cc_Inputs cc !! ColorConvert.kRgbInTag = Some (Some img) ->
  ColorConvert.cc_Outputs cc !! ColorConvert.kRgbaOutTag = Some stream ->
  let converted :=
    cvtColor (ColorConvert.MatView img)
      (ColorConvert.MatView
         (ColorConvert.new_ImageFrame new_ImageFrame_buffer
            ColorConvert.SRGBA (ColorConvert.Width img)
            (ColorConvert.Height img)))
      ColorConvert.COLOR_RGB2RGBA in
  exists pixels,
    ColorConvert.Process new_ImageFrame_buffer cvtColor cc
    = Some (OkStatus,
            ColorConvert.MkContext (ColorConvert.cc_Inputs cc)
              (<[ColorConvert.kRgbaOutTag :=
                   (stream
                    ++ [ColorConvert.MkOutputPacket
                          (ColorConvert.MkImageFrame ColorConvert.SRGBA
                             (ColorConvert.Width img)
                             (ColorConvert.Height img) pixels)
                          (ColorConvert.cc_InputTimestamp cc)])%list]>
                 (ColorConvert.cc_Outputs cc))
              (ColorConvert.cc_InputTimestamp cc))
    /\ length pixels = length converted
    /\ forall (r : nat) (row : list Z),
         converted !! r = Some row ->
         exists row',
           pixels !! r = Some row'
           /\ ColorConvert.only_channel_differs 3 4 (ColorConvert.Width img)
                row row'.
Proof.
  intros Hbuffer Hcvt Hcontract Hin Hout converted.
  rewrite (Process_supported new_ImageFrame_buffer cvtColor cc
             ColorConvert.kRgbInTag ColorConvert.kRgbaOutTag
             ColorConvert.SRGBA ColorConvert.COLOR_RGB2RGBA Hcontract)
    by (eauto;
        repeat first [apply list_elem_of_here | apply list_elem_of_further]).
  unfold ColorConvert.ConvertAndOutput, ColorConvert.InputsTagGet.
  rewrite Hin. simpl. fold converted.
  destruct (Hbuffer ColorConvert.SRGBA (ColorConvert.Width img)
              (ColorConvert.Height img)) as [Hrows Hrow].
  assert (Hshape :
            map length converted
            = map length
                (new_ImageFrame_buffer ColorConvert.SRGBA
                   (ColorConvert.Width img) (ColorConvert.Height img)))
    by apply Hcvt.
  destruct (SetColorChannel_spec 3 255
              (ColorConvert.MkMat (ColorConvert.Height img)
                 (ColorConvert.Width img) 4 ColorConvert.CV_8U converted))
    as (d' & Hset & Hlen & Hrowsd); simpl.
  - reflexivity.
  - lia.
  - rewrite <- (length_map length), Hshape, length_map. lia.
  - rewrite Forall_lookup in Hrow. apply Forall_lookup. intros i row Hi.
    assert (Hl : map length converted !! i = Some (length row))
      by (by rewrite list_lookup_fmap, Hi).
    rewrite Hshape, list_lookup_fmap in Hl.
    destruct (new_ImageFrame_buffer _ _ _ !! i) as [row0|] eqn:Hrow0;
      [|done].
    simpl in Hl. injection Hl as <-. by eapply Hrow.
  - rewrite Hset. simpl. unfold ColorConvert.OutputsTagAdd.
    rewrite Hout. simpl.
    exists d'. split; [reflexivity|]. split; [exact Hlen|].
    intros r row Hr. destruct (Hrowsd r row Hr) as (row' & ? & ? & _).
    eauto.
Qed.

Lemma rgb_to_rgba_keeps_colours_witness :
  exists pixels,
    ColorConvert.Process packed_buffer rgb_to_rgba rgb_to_rgba_context
    = Some (OkStatus,
            ColorConvert.MkContext
              (ColorConvert.cc_Inputs rgb_to_rgba_context)
              (<[ColorConvert.kRgbaOutTag :=
                   [ColorConvert.MkOutputPacket
                      (ColorConvert.MkImageFrame ColorConvert.SRGBA 2 1 pixels)
                      42]]>
                 (ColorConvert.cc_Outputs rgb_to_rgba_context))
              42)
    /\ length pixels = 1%nat
    /\ forall (r : nat) (row : list Z),
         [[10; 20; 30; 0; 40; 50; 60; 0]] !! r = Some row ->
         exists row',
           pixels !! r = Some row'
           /\ ColorConvert.only_channel_differs 3 4 2 row row'.
Proof.
  apply (rgb_to_rgba_keeps_colours packed_buffer rgb_to_rgba
           rgb_to_rgba_context two_pixels []).
  - apply packed_buffer_shape.
  - apply rgb_to_rgba_shape.
  - reflexivity.
  - reflexivity.
  - reflexivity.
Defined.

(** ** android::Graph, continued *)




(** X13.  In the side packets handed to a run a callback's side packet
    wins over an input side packet of the same name, and an input side
    packet over a surface side packet; so [SetInputSidePacket] reaches the
    run exactly when no callback holds the name. *)
Theorem combined_side_packets_precedence (g : JniGraph.Graph) (name : string) :
  JniGraph.CreateCombinedSidePackets g !! name
  = match JniGraph.side_packets_callbacks_ g !! name with
    | Some p => Some p
    | None =>
        match JniGraph.side_packets_ g !! name with
        | Some p => Some p
        | None => JniGraph.output_surface_side_packets_ g !! name
        end
    end
  /\ (forall packet,
        JniGraph.CreateCombinedSidePackets
          (JniGraph.SetInputSidePacket name packet g) !! name
        = Some (default packet (JniGraph.side_packets_callbacks_ g !! name))).
Proof.
  assert (Hlookup : forall g0 : JniGraph.Graph,
            JniGraph.CreateCombinedSidePackets g0 !! name
            = match JniGraph.side_packets_callbacks_ g0 !! name with
              | Some p => Some p
              | None =>
                  match JniGraph.side_packets_ g0 !! name with
                  | Some p => Some p
                  | None => JniGraph.output_surface_side_packets_ g0 !! name
                  end
              end).
  { intros g0. unfold JniGraph.CreateCombinedSidePackets.
    rewrite !lookup_union.
    destruct (JniGraph.side_packets_callbacks_ g0 !! name),
      (JniGraph.side_packets_ g0 !! name),
      (JniGraph.output_surface_side_packets_ g0 !! name); reflexivity. }
  split; [apply Hlookup|].
  intros packet. rewrite Hlookup. simpl. rewrite lookup_insert_eq.
  by destruct (JniGraph.side_packets_callbacks_ g !! name).
Qed.

Section StartCalls.

Import JniGraph.

Variable MEDIAPIPE_DISABLE_GPU : bool.
Variable respond : CalculatorGraph -> Call -> Status.

Lemma SetServicePackets_ok l cg :
  ok (SetServicePackets respond l cg).1 = true ->
  (SetServicePackets respond l cg).2
  = MkCalculatorGraph
      (calls cg ++ map (fun sp => CallSetServicePacket sp.1 sp.2) l)%list
      (cancelled cg).
Proof.
  revert cg. induction l as [|[service packet] l IH]; intros cg; simpl.
  - intros _. rewrite app_nil_r. by destruct cg.
  - destruct (ok (respond cg (CallSetServicePacket service packet)))
      eqn:Hok; simpl; [|by rewrite Hok].
    intros Hrest. rewrite IH by done. simpl.
    by rewrite <- app_assoc.
Qed.

Lemma StartRunningGraph_ok_calls (env : JNIEnv) (g : Graph) :
  ok (StartRunningGraph MEDIAPIPE_DISABLE_GPU respond env g).1 = true ->
  running_graph_ (StartRunningGraph MEDIAPIPE_DISABLE_GPU respond env g).2
  = Some (MkCalculatorGraph (start_calls_of MEDIAPIPE_DISABLE_GPU g) false).
Proof.
  unfold StartRunningGraph.
  destruct (running_graph_ g) as [cg|] eqn:Hr.
  { rewrite bool_decide_eq_true_2 by eauto. discriminate. }
  rewrite bool_decide_eq_false_2 by (by intros [? ?]).
  set (g1 := SetPacketJavaClass env g).
  assert (Hfields : graph_input_stream_add_mode_ g1
                    = graph_input_stream_add_mode_ g
                    /\ gpu_resources_ g1 = gpu_resources_ g
                    /\ service_packets_ g1 = service_packets_ g
                    /\ graph_ g1 = graph_ g
                    /\ CreateCombinedSidePackets g1
                       = CreateCombinedSidePackets g
                    /\ stream_headers_ g1 = stream_headers_ g).
  { unfold g1, SetPacketJavaClass.
    by destruct (global_java_packet_cls_ g). }
  destruct Hfields as (-> & -> & -> & -> & -> & ->).
  set (cg1 := record_call _ new_CalculatorGraph).
  set (gpu := if MEDIAPIPE_DISABLE_GPU then _ else _).
  assert (Hgpu : gpu.2
                 = MkCalculatorGraph
                     ([CallSetGraphInputStreamAddMode
                         (graph_input_stream_add_mode_ g)]
                      ++ (if MEDIAPIPE_DISABLE_GPU then []
                          else [CallSetGpuResources (gpu_resources_ g)]))%list
                     false).
  { unfold gpu. by destruct MEDIAPIPE_DISABLE_GPU. }
  destruct gpu as [st_gpu cg2]. simpl in Hgpu.
  destruct (ok st_gpu) eqn:Hok_gpu; simpl; [|by rewrite Hok_gpu].
  pose proof (SetServicePackets_ok (service_packets_ g) cg2) as Hsvc.
  destruct (SetServicePackets respond (service_packets_ g) cg2)
    as [st_svc cg3]. simpl in Hsvc.
  destruct (ok st_svc) eqn:Hok_svc; simpl; [|by rewrite Hok_svc].
  specialize (Hsvc eq_refl). unfold call.
  destruct (ok (respond cg3 (CallInitialize (graph_ g)))) eqn:Hok_init;
    simpl; [|by rewrite Hok_init].
  destruct (ok (respond (record_call (CallInitialize (graph_ g)) cg3) _))
    eqn:Hok_run; simpl; [|by rewrite Hok_run].
  intros _. f_equal. rewrite Hsvc, Hgpu. unfold record_call, start_calls_of.
  simpl. f_equal. by rewrite <- !app_assoc.
Qed.

End StartCalls.

(** X14.  When [StartRunningGraph] returns ok the calculator graph it
    leaves running has received, in this order and nothing else: the add
    mode, the GPU resources (unless GPU support is compiled out), one
    [SetServicePacket] for each service packet, [Initialize] with the
    loaded configuration, and [StartRun] with the combined side packets
    and the stream headers; and it is not cancelled. *)
Theorem StartRunningGraph_calls_in_order
    (MEDIAPIPE_DISABLE_GPU : bool)
    (respond : CalculatorGraph -> Call -> Status)
    (env : JniGraph.JNIEnv) (g : JniGraph.Graph) :
  ok (JniGraph.StartRunningGraph MEDIAPIPE_DISABLE_GPU respond env g).1
  = true ->
  JniGraph.running_graph_
    (JniGraph.StartRunningGraph MEDIAPIPE_DISABLE_GPU respond env g).2
  = Some (MkCalculatorGraph (start_calls_of MEDIAPIPE_DISABLE_GPU g) false).
Proof. apply StartRunningGraph_ok_calls. Qed.

Lemma StartRunningGraph_calls_in_order_witness :
  JniGraph.running_graph_
    (JniGraph.StartRunningGraph false always_ok some_env configured_graph).2
  = Some (MkCalculatorGraph
            [CallSetGraphInputStreamAddMode WAIT_TILL_NOT_FULL;
             CallSetGpuResources None;
             CallSetServicePacket 800 (MkPacket 4 0);
             CallSetServicePacket 900 (MkPacket 5 0);
             CallInitialize empty_CalculatorGraphConfig;
             CallStartRun ∅ {["input_video" := MkPacket 3 0]}]
            false).
Proof.
  rewrite (StartRunningGraph_calls_in_order false always_ok some_env
             configured_graph eq_refl).
  vm_compute. reflexivity.
Defined.

(** ** Service packets *)

Lemma map_assign_as_map (key : Z) (value : Packet) (m : list (Z * Packet)) :
  (list_to_map (JniGraph.map_assign key value m) : gmap Z Packet)
  = <[key := value]> (list_to_map m).
Proof.
  induction m as [|[k v] m IH]; simpl; [reflexivity|].
  destruct (Z.ltb_spec key k); [reflexivity|].
  destruct (Z.eqb_spec key k) as [->|Hne]; simpl.
  - by rewrite insert_insert_eq.
  - rewrite IH. apply insert_insert_ne. congruence.
Qed.

Lemma map_assign_keys (key : Z) (value : Packet) (m : list (Z * Packet)) :
  forall k, k ∈ (JniGraph.map_assign key value m).*1 ->
    k = key \/ k ∈ m.*1.
Proof.
  induction m as [|[k0 v0] m IH]; simpl; intros k Hk.
  - apply elem_of_cons in Hk as [->|Hk]; [by left|by right].
  - destruct (Z.ltb_spec key k0); simpl in Hk.
    + apply elem_of_cons in Hk as [->|Hk]; [by left|by right].
    + destruct (Z.eqb_spec key k0) as [->|Hne]; simpl in Hk.
      * apply elem_of_cons in Hk as [->|Hk]; [by left|].
        right. by apply list_elem_of_further.
      * apply elem_of_cons in Hk as [->|Hk];
          [right; apply list_elem_of_here|].
        destruct (IH k Hk) as [->|Hin]; [by left|].
        right. by apply list_elem_of_further.
Qed.

Lemma map_assign_ascending (key : Z) (value : Packet)
    (m : list (Z * Packet)) :
  keys_ascending m -> keys_ascending (JniGraph.map_assign key value m).
Proof.
  unfold keys_ascending.
  induction m as [|[k v] m IH]; simpl; intros Hsorted.
  - repeat constructor.
  - apply StronglySorted_inv in Hsorted as [Hsorted Hall].
    destruct (Z.ltb_spec key k); simpl.
    + constructor; [by constructor|].
      constructor; [done|].
      eapply Forall_impl; [exact Hall|]. simpl. intros; lia.
    + destruct (Z.eqb_spec key k) as [->|Hne]; simpl.
      * by constructor.
      * constructor; [by apply IH|].
        apply Forall_forall. intros k' Hk'.
        destruct (map_assign_keys key value m k' Hk') as [->|Hin]; [lia|].
        rewrite Forall_forall in Hall. by apply Hall.
Qed.

(** X15.  [SetServicePacket] behaves as assignment in a map ordered by
    service: the entry of the service becomes the packet, the entries of
    other services stay, the keys stay in ascending order without
    repetition, and no other member of the graph changes. *)
Theorem SetServicePacket_assigns
    (service : Z) (packet : Packet) (g : JniGraph.Graph) :
  keys_ascending (JniGraph.service_packets_ g) ->
  let g' := JniGraph.SetServicePacket service packet g in
  keys_ascending (JniGraph.service_packets_ g')
  /\ (list_to_map (JniGraph.service_packets_ g') : gmap Z Packet)
     = <[service := packet]> (list_to_map (JniGraph.service_packets_ g))
  /\ g' = JniGraph.set_service_packets_ (JniGraph.service_packets_ g') g.
Proof.
  intros Hsorted g'. split; [by apply map_assign_ascending|].
  split; [apply map_assign_as_map|reflexivity].
Qed.

Lemma SetServicePacket_assigns_witness :
  JniGraph.service_packets_ configured_graph
  = [(800, MkPacket 4 0); (900, MkPacket 5 0)]
  /\ keys_ascending (JniGraph.service_packets_ configured_graph).
Proof.
  split; [reflexivity|].
  refine (proj1 (SetServicePacket_assigns 900 (MkPacket 5 0)
                   (JniGraph.SetServicePacket 800 (MkPacket 4 0)
                      (JniGraph.SetServicePacket 900 (MkPacket 6 0)
                         (JniGraph.new_Graph WAIT_TILL_NOT_FULL))) _)).
  repeat constructor.
Defined.

(** ** The parent GL context *)

(** X16.  [SetParentGlContext] sets the GPU resources once: when it
    returns ok the build has GPU support and the resources are the ones
    created for the given context, and every later call returns
    [AlreadyExists] and leaves the graph, its resources included, as it
    is. *)
Theorem SetParentGlContext_only_once
    (MEDIAPIPE_DISABLE_GPU : bool) (GpuResources_Create : Z -> option Z)
    (java_gl_context : Z) (g g' : JniGraph.Graph) (status : Status) :
  JniGraph.SetParentGlContext MEDIAPIPE_DISABLE_GPU GpuResources_Create
    java_gl_context g = Some (status, g') ->
  ok status = true ->
  MEDIAPIPE_DISABLE_GPU = false
  /\ JniGraph.gpu_resources_ g = None
  /\ is_Some (JniGraph.gpu_resources_ g')
  /\ JniGraph.gpu_resources_ g' = GpuResources_Create java_gl_context
  /\ forall later_context,
       exists already,
         JniGraph.SetParentGlContext MEDIAPIPE_DISABLE_GPU
           GpuResources_Create later_context g'
         = Some (already, g')
         /\ code already = kAlreadyExists.
Proof.
  unfold JniGraph.SetParentGlContext.
  destruct (JniGraph.gpu_resources_ g) as [r|] eqn:Hr; simpl.
  { intros [= <- <-]. discriminate. }
  destruct MEDIAPIPE_DISABLE_GPU; [discriminate|].
  destruct (GpuResources_Create java_gl_context) as [r|]; [|discriminate].
  simpl. intros [= <- <-] _.
  split; [done|]. split; [done|]. split; [simpl; eauto|].
  split; [done|].
  intros later_context. simpl. eexists. split; reflexivity.
Qed.

Lemma SetParentGlContext_only_once_witness :
  exists already,
    JniGraph.SetParentGlContext false (fun c => Some (c + 1)) 6
      (JniGraph.set_gpu_resources_ (Some 6)
         (JniGraph.new_Graph WAIT_TILL_NOT_FULL))
    = Some (already,
            JniGraph.set_gpu_resources_ (Some 6)
              (JniGraph.new_Graph WAIT_TILL_NOT_FULL))
    /\ code already = kAlreadyExists.
Proof.
  destruct (SetParentGlContext_only_once false (fun c => Some (c + 1)) 5
              (JniGraph.new_Graph WAIT_TILL_NOT_FULL)
              (JniGraph.set_gpu_resources_ (Some 6)
                 (JniGraph.new_Graph WAIT_TILL_NOT_FULL))
              OkStatus eq_refl eq_refl)
    as (_ & _ & _ & _ & Hlater).
  apply (Hlater 6).
Defined.

(** ** Cancelling and starting again *)

(** X17.  [CancelGraph] does not end the run as far as the wrapper goes:
    the graph still counts as running, so [StartRunningGraph] is refused,
    until [WaitUntilDone] has returned; [WaitUntilDone] gives up the
    calculator graph whatever status it returns, and the next start works
    on a new calculator graph with no call of the earlier run. *)
Theorem restart_needs_WaitUntilDone
    (MEDIAPIPE_DISABLE_GPU : bool)
    (respond : CalculatorGraph -> Call -> Status)
    (env : JniGraph.JNIEnv) (g : JniGraph.Graph) :
  is_Some (JniGraph.running_graph_ g) ->
  let cancelled_graph := JniGraph.CancelGraph g in
  let done := (JniGraph.WaitUntilDone respond cancelled_graph).2 in
  JniGraph.StartRunningGraph MEDIAPIPE_DISABLE_GPU respond env cancelled_graph
  = (InternalError "Graph is already running.", cancelled_graph)
  /\ (cancelled <$> JniGraph.running_graph_ cancelled_graph) = Some true
  /\ done = JniGraph.set_running_graph_ None g
  /\ (ok (JniGraph.StartRunningGraph MEDIAPIPE_DISABLE_GPU respond env
            done).1 = true ->
      JniGraph.running_graph_
        (JniGraph.StartRunningGraph MEDIAPIPE_DISABLE_GPU respond env done).2
      = Some (MkCalculatorGraph (start_calls_of MEDIAPIPE_DISABLE_GPU g)
                false)).
Proof.
  intros [cg Hcg] cancelled_graph done.
  assert (Hrunning : JniGraph.running_graph_ cancelled_graph
                     = Some (Cancel cg)).
  { unfold cancelled_graph, JniGraph.CancelGraph. by rewrite Hcg. }
  assert (Hdone : done = JniGraph.set_running_graph_ None g).
  { unfold done, JniGraph.WaitUntilDone. rewrite Hrunning. simpl.
    unfold cancelled_graph, JniGraph.CancelGraph. by rewrite Hcg. }
  split; [|split; [|split]].
  - unfold JniGraph.StartRunningGraph.
    by rewrite Hrunning, bool_decide_eq_true_2 by eauto.
  - by rewrite Hrunning.
  - exact Hdone.
  - intros Hok.
    rewrite (StartRunningGraph_ok_calls MEDIAPIPE_DISABLE_GPU respond env
               done Hok).
    by rewrite Hdone.
Qed.

Lemma restart_needs_WaitUntilDone_witness :
  let started :=
    (JniGraph.StartRunningGraph false always_ok some_env
       (JniGraph.new_Graph WAIT_TILL_NOT_FULL)).2 in
  let cancelled_graph := JniGraph.CancelGraph started in
  code (JniGraph.StartRunningGraph false always_ok some_env
          cancelled_graph).1 = kInternal
  /\ (JniGraph.WaitUntilDone always_ok cancelled_graph).2
     = JniGraph.set_running_graph_ None started.
Proof.
  intros started cancelled_graph.
  destruct (restart_needs_WaitUntilDone false always_ok some_env started)
    as (Hrefused & _ & Hdone & _).
  - vm_compute. eauto.
  - fold cancelled_graph in Hrefused, Hdone.
    split; [by rewrite Hrefused|exact Hdone].
Defined.

(** ** Packet handles, continued *)

(** X18.  Handles do not interfere.  A new handle reads back the packet
    it wraps and differs from every live handle, which keep their
    packets; releasing a handle returns [true], leaves the other handles
    as they are and makes the handle dangling, so that reading or
    releasing it again is undefined. *)
Theorem handles_are_independent
    (new_PacketWithContext : JniGraph.Graph -> Z) :
  (forall g,
     JniGraph.all_packets_ g !! new_PacketWithContext g = None) ->
  (forall (p q : Packet) (h : Z) (g : JniGraph.Graph),
     JniGraph.GetPacketFromHandle h g = Some q ->
     let wrapped :=
       JniGraph.WrapPacketIntoContext new_PacketWithContext p g in
     JniGraph.GetPacketFromHandle wrapped.1 wrapped.2 = Some p
     /\ wrapped.1 <> h
     /\ JniGraph.GetPacketFromHandle h wrapped.2 = Some q)
  /\ (forall (h : Z) (g g' : JniGraph.Graph) (removed : bool),
        JniGraph.RemovePacket h g = Some (removed, g') ->
        removed = true
        /\ JniGraph.GetPacketFromHandle h g' = None
        /\ JniGraph.RemovePacket h g' = None
        /\ forall h', h' <> h ->
             JniGraph.GetPacketFromHandle h' g'
             = JniGraph.GetPacketFromHandle h' g).
Proof.
  intros Hfresh. split.
  - intros p q h g Hq. simpl.
    assert (Hne : new_PacketWithContext g <> h).
    { intros Heq. unfold JniGraph.GetPacketFromHandle in Hq.
      rewrite <- Heq, Hfresh in Hq. discriminate. }
    unfold JniGraph.GetPacketFromHandle in *. simpl.
    rewrite lookup_insert_eq, lookup_insert_ne by done. done.
  - intros h g g' removed. unfold JniGraph.RemovePacket.
    destruct (JniGraph.all_packets_ g !! h) as [pwc|] eqn:Hh;
      [|discriminate].
    simpl. intros [= <- <-].
    unfold JniGraph.GetPacketFromHandle. simpl.
    rewrite lookup_delete_eq. repeat split.
    intros h' Hne. by rewrite lookup_delete_ne.
Qed.

Lemma handles_are_independent_witness :
  let first :=
    JniGraph.WrapPacketIntoContext fresh_address (MkPacket 1 10)
      (JniGraph.new_Graph WAIT_TILL_NOT_FULL) in
  let second :=
    JniGraph.WrapPacketIntoContext fresh_address (MkPacket 2 20) first.2 in
  JniGraph.GetPacketFromHandle second.1 second.2 = Some (MkPacket 2 20)
  /\ second.1 <> first.1
  /\ JniGraph.GetPacketFromHandle first.1 second.2 = Some (MkPacket 1 10).
Proof.
  intros first second.
  apply (proj1 (handles_are_independent fresh_address
                  fresh_address_is_fresh)
           (MkPacket 2 20) (MkPacket 1 10) first.1 first.2).
  vm_compute. reflexivity.
Defined.

Section MoveAndCopy.

Import JniGraph.

Variable respond : CalculatorGraph -> Call -> Status.
Variable moved_from : Packet -> Packet.

Lemma SetTimestampAndMove_not_running stream_name h timestamp g p :
  running_graph_ g = None ->
  GetPacketFromHandle h g = Some p ->
  SetTimestampAndMovePacketToInputStream respond moved_from stream_name h
    timestamp g
  = Some (FailedPreconditionError "Graph must be running.",
          set_all_packets_
            (<[h := MkPacketWithContext (At p timestamp)]> (all_packets_ g))
            g).
Proof.
  intros Hnone Hp. unfold SetTimestampAndMovePacketToInputStream.
  unfold GetPacketFromHandle in Hp.
  destruct (all_packets_ g !! h) as [pwc|]; [|discriminate].
  simpl in *. injection Hp as <-. by rewrite Hnone.
Qed.

Lemma SetTimestampAndMove_running stream_name h timestamp g p cg :
  running_graph_ g = Some cg ->
  GetPacketFromHandle h g = Some p ->
  SetTimestampAndMovePacketToInputStream respond moved_from stream_name h
    timestamp g
  = Some (respond cg (CallAddPacketToInputStream stream_name (At p timestamp)),
          set_running_graph_
            (Some (record_call
                     (CallAddPacketToInputStream stream_name (At p timestamp))
                     cg))
            (set_all_packets_
               (<[h := MkPacketWithContext (moved_from (At p timestamp))]>
                  (all_packets_ g))
               g)).
Proof.
  intros Hcg Hp. unfold SetTimestampAndMovePacketToInputStream.
  unfold GetPacketFromHandle in Hp.
  destruct (all_packets_ g !! h) as [pwc|]; [|discriminate].
  simpl in *. injection Hp as <-. rewrite Hcg. simpl.
  by rewrite insert_insert_eq.
Qed.

End MoveAndCopy.

(** X19.  [SetTimestampAndMovePacketToInputStream] re-times the packet
    behind the handle before it looks at the graph: without a running
    graph it returns [FailedPrecondition] and yet the handle then reads
    the packet at the new timestamp, the other handles being untouched;
    with a running graph the re-timed packet is what the calculator graph
    is given, and the handle is left with a moved-from packet. *)
Theorem move_retimes_the_wrapped_packet
    (respond : CalculatorGraph -> Call -> Status)
    (moved_from : Packet -> Packet)
    (stream_name : string) (h timestamp : Z) (g : JniGraph.Graph)
    (p : Packet) :
  JniGraph.GetPacketFromHandle h g = Some p ->
  exists status g',
    JniGraph.SetTimestampAndMovePacketToInputStream respond moved_from
      stream_name h timestamp g = Some (status, g')
    /\ (forall h', h' <> h ->
          JniGraph.GetPacketFromHandle h' g'
          = JniGraph.GetPacketFromHandle h' g)
    /\ (JniGraph.running_graph_ g = None ->
        status = FailedPreconditionError "Graph must be running."
        /\ JniGraph.running_graph_ g' = None
        /\ JniGraph.GetPacketFromHandle h g' = Some (At p timestamp))
    /\ (forall cg,
          JniGraph.running_graph_ g = Some cg ->
          status
          = respond cg
              (CallAddPacketToInputStream stream_name (At p timestamp))
          /\ JniGraph.running_graph_ g'
             = Some (record_call
                       (CallAddPacketToInputStream stream_name
                          (At p timestamp)) cg)
          /\ JniGraph.GetPacketFromHandle h g'
             = Some (moved_from (At p timestamp))).
Proof.
  intros Hp.
  destruct (JniGraph.running_graph_ g) as [cg|] eqn:Hcg.
  - rewrite (SetTimestampAndMove_running respond moved_from stream_name h
               timestamp g p cg Hcg Hp).
    eexists _, _. split; [reflexivity|]. split; [|split; [done|]].
    + intros h' Hne. unfold JniGraph.GetPacketFromHandle. simpl.
      by rewrite lookup_insert_ne.
    + intros cg' [= <-]. split; [done|]. split; [done|].
      unfold JniGraph.GetPacketFromHandle. simpl.
      by rewrite lookup_insert_eq.
  - rewrite (SetTimestampAndMove_not_running respond moved_from stream_name
               h timestamp g p Hcg Hp).
    eexists _, _. split; [reflexivity|]. split; [|split; [|done]].
    + intros h' Hne. unfold JniGraph.GetPacketFromHandle. simpl.
      by rewrite lookup_insert_ne.
    + intros _. split; [done|]. split; [done|].
      unfold JniGraph.GetPacketFromHandle. simpl.
      by rewrite lookup_insert_eq.
Qed.

Lemma move_retimes_the_wrapped_packet_witness :
  exists status g',
    JniGraph.SetTimestampAndMovePacketToInputStream always_ok emptied
      "input_video" one_packet_handle 99 one_packet_graph
    = Some (status, g')
    /\ code status = kFailedPrecondition
    /\ JniGraph.GetPacketFromHandle one_packet_handle g'
       = Some (MkPacket 7 99).
Proof.
  destruct (move_retimes_the_wrapped_packet always_ok emptied "input_video"
              one_packet_handle 99 one_packet_graph (MkPacket 7 10) eq_refl)
    as (status & g' & Hrun & _ & Hnot & _).
  destruct (Hnot eq_refl) as (Hstatus & _ & Hread).
  exists status, g'. split; [exact Hrun|].
  split; [by rewrite Hstatus|exact Hread].
Defined.

(** X20.  [nativeAddPacketToInputStream] pushes a copy: whatever the
    outcome, every handle of the graph still reads the packet it read
    before, at its old timestamp; without a running graph the call leaves
    a [FailedPrecondition] exception and the graph as it was, and with one
    the calculator graph is given the packet at the new timestamp. *)
Theorem add_pushes_a_copy
    (respond : CalculatorGraph -> Call -> Status)
    (stream_name : string) (h timestamp : Z) (g : JniGraph.Graph)
    (p : Packet) :
  JniGraph.GetPacketFromHandle h g = Some p ->
  exists exception g',
    JniGraph.nativeAddPacketToInputStream respond stream_name h timestamp g
    = Some (exception, g')
    /\ JniGraph.all_packets_ g' = JniGraph.all_packets_ g
    /\ (JniGraph.running_graph_ g = None ->
        exception = Some (FailedPreconditionError "Graph must be running.")
        /\ g' = g)
    /\ (forall cg,
          JniGraph.running_graph_ g = Some cg ->
          exception
          = JniGraph.ThrowIfError
              (respond cg
                 (CallAddPacketToInputStream stream_name (At p timestamp)))
          /\ JniGraph.running_graph_ g'
             = Some (record_call
                       (CallAddPacketToInputStream stream_name
                          (At p timestamp)) cg)).
Proof.
  intros Hp. unfold JniGraph.nativeAddPacketToInputStream.
  rewrite Hp. simpl.
  unfold JniGraph.AddPacketToInputStream, JniGraph.on_running_graph.
  destruct (JniGraph.running_graph_ g) as [cg|] eqn:Hcg; simpl.
  - eexists _, _. split; [reflexivity|]. split; [done|]. split; [done|].
    by intros cg' [= <-].
  - eexists _, _. split; [reflexivity|]. split; [done|]. split; [done|].
    done.
Qed.

Lemma add_pushes_a_copy_witness :
  exists exception g',
    JniGraph.nativeAddPacketToInputStream always_ok "input_video"
      one_packet_handle 99 one_packet_graph
    = Some (exception, g')
    /\ JniGraph.all_packets_ g' = JniGraph.all_packets_ one_packet_graph
    /\ JniGraph.GetPacketFromHandle one_packet_handle g'
       = Some (MkPacket 7 10).
Proof.
  destruct (add_pushes_a_copy always_ok "input_video" one_packet_handle 99
              one_packet_graph (MkPacket 7 10) eq_refl)
    as (exception & g' & Hrun & Hsame & Hnot & _).
  destruct (Hnot eq_refl) as [_ ->].
  exists exception, one_packet_graph.
  split; [exact Hrun|]. split; reflexivity.
Defined.

(** ** graph_jni.cc: side packets and stream headers *)

Lemma named_packets_cons name p names packets (m : gmap string Packet) :
  named_packets (name :: names) (p :: packets) ∪ m
  = named_packets names packets ∪ <[name := p]> m.
Proof.
  unfold named_packets. simpl.
  rewrite reverse_cons, list_to_map_app. simpl.
  rewrite <- (assoc_L (∪)). f_equal.
  rewrite insert_empty. by rewrite <- insert_union_singleton_l.
Qed.

Section SetEach.

Import JniGraph.

(** A setter that assigns in one map member and leaves the packet
    references alone. *)
Variable set : string -> Packet -> Graph -> Graph.
Variable member : Graph -> gmap string Packet.
Variable set_member : gmap string Packet -> Graph -> Graph.

Hypothesis set_assigns :
  forall name p g, set name p g = set_member (<[name := p]> (member g)) g.
Hypothesis member_set_member :
  forall m g, member (set_member m g) = m.
Hypothesis set_member_twice :
  forall m1 m2 g, set_member m2 (set_member m1 g) = set_member m2 g.
Hypothesis set_member_same :
  forall g, set_member (member g) g = g.
Hypothesis set_member_keeps_packets :
  forall m g, all_packets_ (set_member m g) = all_packets_ g.

Lemma set_each_assigns names :
  forall handles packets g,
    length names = length handles ->
    handles_read g handles packets ->
    set_each set names handles g
    = Some (set_member (named_packets names packets ∪ member g) g).
Proof.
  induction names as [|name names IH]; intros handles packets g Hlen Hread.
  - destruct handles; [|discriminate]. simpl.
    unfold named_packets. simpl.
    by rewrite (left_id_L ∅ (∪)), set_member_same.
  - destruct handles as [|h handles]; [discriminate|].
    apply Forall2_cons_inv_l in Hread as (p & packets' & Hp & Hread & ->).
    simpl. rewrite Hp. simpl.
    rewrite (IH handles packets').
    + rewrite set_assigns, member_set_member, set_member_twice.
      by rewrite named_packets_cons.
    + simpl in Hlen. lia.
    + eapply Forall2_impl; [exact Hread|]. simpl. intros h' p' Hp'.
      unfold GetPacketFromHandle in *.
      by rewrite set_assigns, set_member_keeps_packets.
Qed.

End SetEach.

Lemma AddSidePacketsIntoGraph_ok names handles packets g :
  length names = length handles ->
  handles_read g handles packets ->
  JniGraph.AddSidePacketsIntoGraph names handles g
  = Some (OkStatus,
          JniGraph.set_side_packets_
            (named_packets names packets ∪ JniGraph.side_packets_ g) g).
Proof.
  intros Hlen Hread. unfold JniGraph.AddSidePacketsIntoGraph.
  rewrite bool_decide_eq_true_2 by done. simpl.
  rewrite (set_each_assigns JniGraph.SetInputSidePacket
             JniGraph.side_packets_ JniGraph.set_side_packets_)
    with (packets := packets); try done.
  intros g0. by destruct g0.
Qed.

Lemma AddStreamHeadersIntoGraph_ok names handles packets g :
  length names = length handles ->
  handles_read g handles packets ->
  JniGraph.AddStreamHeadersIntoGraph names handles g
  = Some (OkStatus,
          JniGraph.set_stream_headers_
            (named_packets names packets ∪ JniGraph.stream_headers_ g) g).
Proof.
  intros Hlen Hread. unfold JniGraph.AddStreamHeadersIntoGraph.
  rewrite bool_decide_eq_true_2 by done. simpl.
  rewrite (set_each_assigns JniGraph.SetStreamHeader
             JniGraph.stream_headers_ JniGraph.set_stream_headers_)
    with (packets := packets); try done.
  intros g0. by destruct g0.
Qed.

(** X21.  [AddSidePacketsIntoGraph] and [AddStreamHeadersIntoGraph] refuse
    arrays of different lengths without touching the graph, the first
    with [InvalidArgument] and the second with [FailedPrecondition]; with
    arrays of one length whose handles are live they return ok and assign
    every name its packet, a later entry of a name overriding an earlier
    one and the names not listed keeping their packets. *)
Theorem side_packets_and_headers_are_assigned
    (names : list string) (handles : list Z) (g : JniGraph.Graph) :
  (length names <> length handles ->
   JniGraph.AddSidePacketsIntoGraph names handles g
   = Some (InvalidArgumentError
             "Number of streams and packets doesn't match!", g)
   /\ JniGraph.AddStreamHeadersIntoGraph names handles g
      = Some (MkStatus kFailedPrecondition
                "Number of streams and packets doesn't match!", g))
  /\ (forall packets,
        length names = length handles ->
        handles_read g handles packets ->
        JniGraph.AddSidePacketsIntoGraph names handles g
        = Some (OkStatus,
                JniGraph.set_side_packets_
                  (named_packets names packets ∪ JniGraph.side_packets_ g) g)
        /\ JniGraph.AddStreamHeadersIntoGraph names handles g
           = Some (OkStatus,
                   JniGraph.set_stream_headers_
                     (named_packets names packets
                      ∪ JniGraph.stream_headers_ g) g)).
Proof.
  split.
  - intros Hne. unfold JniGraph.AddSidePacketsIntoGraph,
      JniGraph.AddStreamHeadersIntoGraph.
    by rewrite bool_decide_eq_false_2.
  - intros packets Hlen Hread. split.
    + by apply AddSidePacketsIntoGraph_ok.
    + by apply AddStreamHeadersIntoGraph_ok.
Qed.

Lemma side_packets_and_headers_are_assigned_witness :
  JniGraph.side_packets_
    <$> (snd <$> JniGraph.AddSidePacketsIntoGraph ["model"; "model"]
                   [one_packet_handle; second_packet_handle]
                   two_packet_graph)
  = Some {["model" := MkPacket 8 20]}.
Proof.
  destruct (side_packets_and_headers_are_assigned ["model"; "model"]
              [one_packet_handle; second_packet_handle] two_packet_graph)
    as [_ Hok].
  destruct (Hok [MkPacket 7 10; MkPacket 8 20] eq_refl) as [-> _].
  - repeat constructor.
  - vm_compute. reflexivity.
Defined.

(** X22.  [nativeStartRunningGraph] stores what it is given before it
    starts the graph: when the side packet arrays do not match, the
    exception is [InvalidArgument] and nothing has changed; when they do
    but the header arrays do not, the exception is [FailedPrecondition],
    no start has been attempted, and the side packets are stored all the
    same; otherwise the graph is started with both stored. *)
Theorem nativeStartRunningGraph_stores_then_starts
    (MEDIAPIPE_DISABLE_GPU : bool)
    (respond : CalculatorGraph -> Call -> Status)
    (env : JniGraph.JNIEnv)
    (side_packet_names : list string) (side_packet_handles : list Z)
    (stream_names_with_header : list string) (header_handles : list Z)
    (g : JniGraph.Graph) :
  let run :=
    JniGraph.nativeStartRunningGraph MEDIAPIPE_DISABLE_GPU respond env
      side_packet_names side_packet_handles stream_names_with_header
      header_handles g in
  (length side_packet_names <> length side_packet_handles ->
   run = Some (Some (InvalidArgumentError
                       "Number of streams and packets doesn't match!"), g))
  /\ (forall side_packets,
        length side_packet_names = length side_packet_handles ->
        handles_read g side_packet_handles side_packets ->
        let g1 :=
          JniGraph.set_side_packets_
            (named_packets side_packet_names side_packets
             ∪ JniGraph.side_packets_ g) g in
        (length stream_names_with_header <> length header_handles ->
         run = Some (Some (MkStatus kFailedPrecondition
                             "Number of streams and packets doesn't match!"),
                     g1))
        /\ (forall headers,
              length stream_names_with_header = length header_handles ->
              handles_read g header_handles headers ->
              let g2 :=
                JniGraph.set_stream_headers_
                  (named_packets stream_names_with_header headers
                   ∪ JniGraph.stream_headers_ g) g1 in
              let started :=
                JniGraph.StartRunningGraph MEDIAPIPE_DISABLE_GPU respond
                  env g2 in
              run = Some (JniGraph.ThrowIfError started.1, started.2))).
Proof.
  intros run. split.
  - intros Hne. unfold run, JniGraph.nativeStartRunningGraph,
      JniGraph.AddSidePacketsIntoGraph.
    by rewrite bool_decide_eq_false_2.
  - intros side_packets Hlen Hread g1. split.
    + intros Hne. unfold run, JniGraph.nativeStartRunningGraph.
      rewrite (AddSidePacketsIntoGraph_ok _ _ side_packets) by done.
      simpl. unfold JniGraph.AddStreamHeadersIntoGraph.
      by rewrite bool_decide_eq_false_2.
    + intros headers Hlen' Hread' g2 started.
      unfold run, JniGraph.nativeStartRunningGraph.
      rewrite (AddSidePacketsIntoGraph_ok _ _ side_packets) by done.
      simpl. fold g1.
      rewrite (AddStreamHeadersIntoGraph_ok _ _ headers) by done.
      simpl. fold g2. fold started. by destruct started.
Qed.

Lemma nativeStartRunningGraph_stores_then_starts_witness :
  JniGraph.nativeStartRunningGraph false always_ok some_env
    ["model"] [one_packet_handle] ["input_video"] [] one_packet_graph
  = Some (Some (MkStatus kFailedPrecondition
                  "Number of streams and packets doesn't match!"),
          JniGraph.set_side_packets_
            (named_packets ["model"] [MkPacket 7 10]
             ∪ JniGraph.side_packets_ one_packet_graph)
            one_packet_graph).
Proof.
  destruct (nativeStartRunningGraph_stores_then_starts false always_ok
              some_env ["model"] [one_packet_handle] ["input_video"] []
              one_packet_graph) as [_ Hside].
  destruct (Hside [MkPacket 7 10] eq_refl) as [Hheaders _].
  - repeat constructor.
  - apply Hheaders. discriminate.
Defined.

(** ** Callbacks and the run *)

(** X23.  A callback attached to a loaded graph reaches the run: when the
    side packet name chosen for it is free and the following
    [StartRunningGraph] returns ok, the calculator graph was initialised
    with the configuration that has the callback node, and its [StartRun]
    carries the callback's packet under that name. *)
Theorem callback_reaches_the_run
    (MEDIAPIPE_DISABLE_GPU : bool)
    (respond : CalculatorGraph -> Call -> Status)
    (AddCallbackCalculator :
       string -> CalculatorGraphConfig -> CalculatorGraphConfig * string)
    (MakeCallbackPacket : Z -> Packet)
    (env : JniGraph.JNIEnv) (output_stream_name : string)
    (java_callback : Z) (g : JniGraph.Graph) :
  let added := AddCallbackCalculator output_stream_name (JniGraph.graph_ g) in
  let g' :=
    (JniGraph.AddCallbackHandler AddCallbackCalculator MakeCallbackPacket
       output_stream_name java_callback g).2 in
  let started :=
    JniGraph.StartRunningGraph MEDIAPIPE_DISABLE_GPU respond env g' in
  JniGraph.graph_loaded_ g = true ->
  JniGraph.side_packets_callbacks_ g !! added.2 = None ->
  ok started.1 = true ->
  exists cg earlier side_packets,
    JniGraph.running_graph_ started.2 = Some cg
    /\ calls cg
       = (earlier
          ++ [CallInitialize added.1;
              CallStartRun side_packets (JniGraph.stream_headers_ g)])%list
    /\ side_packets !! added.2 = Some (MakeCallbackPacket java_callback).
Proof.
  intros added g' started Hloaded Hfree Hok.
  unfold started.
  rewrite (StartRunningGraph_ok_calls MEDIAPIPE_DISABLE_GPU respond env g'
             Hok).
  assert (Hg' : JniGraph.graph_ g' = added.1
                /\ JniGraph.stream_headers_ g' = JniGraph.stream_headers_ g
                /\ JniGraph.side_packets_callbacks_ g' !! added.2
                   = Some (MakeCallbackPacket java_callback)).
  { unfold g', JniGraph.AddCallbackHandler. rewrite Hloaded. simpl.
    fold added. destruct added as [config name]. simpl in *.
    split; [done|]. split; [done|].
    unfold JniGraph.emplace. by rewrite Hfree, lookup_insert_eq. }
  destruct Hg' as (Hconfig & Hheaders & Hpacket).
  exists (MkCalculatorGraph (start_calls_of MEDIAPIPE_DISABLE_GPU g') false),
    ([CallSetGraphInputStreamAddMode
        (JniGraph.graph_input_stream_add_mode_ g')]
     ++ (if MEDIAPIPE_DISABLE_GPU then []
         else [CallSetGpuResources (JniGraph.gpu_resources_ g')])
     ++ map (fun sp => CallSetServicePacket sp.1 sp.2)
          (JniGraph.service_packets_ g'))%list,
    (JniGraph.CreateCombinedSidePackets g').
  split; [reflexivity|]. split.
  - unfold start_calls_of. simpl calls. rewrite Hconfig, Hheaders.
    by rewrite <- !app_assoc.
  - unfold JniGraph.CreateCombinedSidePackets.
    rewrite !lookup_union, Hpacket.
    by destruct (JniGraph.side_packets_ g' !! added.2),
      (JniGraph.output_surface_side_packets_ g' !! added.2).
Qed.

Lemma callback_reaches_the_run_witness :
  exists cg earlier side_packets,
    JniGraph.running_graph_
      (JniGraph.StartRunningGraph false always_ok some_env
         (JniGraph.AddCallbackHandler add_callback_node
            (fun h => MkPacket h 0) "out" 77 loaded_graph).2).2
    = Some cg
    /\ calls cg
       = (earlier
          ++ [CallInitialize (add_callback_node "out" pass_through_config).1;
              CallStartRun side_packets ∅])%list
    /\ side_packets !! "callback_out" = Some (MkPacket 77 0).
Proof.
  apply (callback_reaches_the_run false always_ok add_callback_node
           (fun h => MkPacket h 0) some_env "out" 77 loaded_graph);
    reflexivity.
Defined.

(** ** The synchronous run *)

(** X24.  [nativeRunGraphUntilClose] stores the side packets it is given
    and runs the loaded configuration with the combined side packets; the
    wrapper's graph does not become a running graph, so the lifecycle
    operations remain refused afterwards, and arrays of different lengths
    leave an [InvalidArgument] exception and the graph as it was. *)
Theorem synchronous_run_is_not_a_running_graph
    (respond : CalculatorGraph -> Call -> Status)
    (CalculatorGraph_Run :
       CalculatorGraphConfig -> gmap string Packet -> Status)
    (env : JniGraph.JNIEnv) (stream_names : list string)
    (handles : list Z) (g : JniGraph.Graph) :
  let run :=
    JniGraph.nativeRunGraphUntilClose CalculatorGraph_Run env stream_names
      handles g in
  (length stream_names <> length handles ->
   run = Some (Some (InvalidArgumentError
                       "Number of streams and packets doesn't match!"), g))
  /\ (forall packets,
        length stream_names = length handles ->
        handles_read g handles packets ->
        exists g',
          run
          = Some (JniGraph.ThrowIfError
                    (CalculatorGraph_Run (JniGraph.graph_ g)
                       (JniGraph.side_packets_callbacks_ g
                        ∪ (named_packets stream_names packets
                           ∪ JniGraph.side_packets_ g)
                        ∪ JniGraph.output_surface_side_packets_ g)),
                  g')
          /\ JniGraph.running_graph_ g' = JniGraph.running_graph_ g
          /\ (JniGraph.running_graph_ g = None ->
              forall op,
                JniGraph.run_op respond op g'
                = (FailedPreconditionError "Graph must be running.", g'))).
Proof.
  intros run. split.
  - intros Hne. unfold run, JniGraph.nativeRunGraphUntilClose,
      JniGraph.AddSidePacketsIntoGraph.
    by rewrite bool_decide_eq_false_2.
  - intros packets Hlen Hread.
    unfold run, JniGraph.nativeRunGraphUntilClose.
    rewrite (AddSidePacketsIntoGraph_ok _ _ packets) by done.
    simpl. unfold JniGraph.RunGraphUntilClose.
    set (g1 := JniGraph.set_side_packets_ _ g).
    assert (Hg : JniGraph.graph_ (JniGraph.SetPacketJavaClass env g1)
                 = JniGraph.graph_ g
                 /\ JniGraph.CreateCombinedSidePackets
                      (JniGraph.SetPacketJavaClass env g1)
                    = JniGraph.side_packets_callbacks_ g
                      ∪ (named_packets stream_names packets
                         ∪ JniGraph.side_packets_ g)
                      ∪ JniGraph.output_surface_side_packets_ g
                 /\ JniGraph.running_graph_
                      (JniGraph.SetPacketJavaClass env g1)
                    = JniGraph.running_graph_ g).
    { unfold JniGraph.SetPacketJavaClass, g1. simpl.
      by destruct (JniGraph.global_java_packet_cls_ g). }
    destruct Hg as (-> & -> & Hrunning).
    eexists. split; [reflexivity|]. split; [exact Hrunning|].
    intros Hnone op. apply run_op_not_running. by rewrite Hrunning.
Qed.

Lemma synchronous_run_is_not_a_running_graph_witness :
  exists g',
    JniGraph.nativeRunGraphUntilClose (fun _ _ => OkStatus) some_env
      ["model"] [one_packet_handle] one_packet_graph
    = Some (None, g')
    /\ JniGraph.running_graph_ g' = None.
Proof.
  destruct (synchronous_run_is_not_a_running_graph always_ok
              (fun _ _ => OkStatus) some_env ["model"] [one_packet_handle]
              one_packet_graph) as [_ Hok].
  destruct (Hok [MkPacket 7 10] eq_refl) as (g' & Hrun & Hrunning & _).
  - repeat constructor.
  - exists g'. split; [exact Hrun|exact Hrunning].
Defined.
